(** * openclaw: session-aware outbound delivery and the usage footer

    A shallow embedding of
    - [src/auto-reply/reply/agent-runner-utils.ts]
      ([isBunFetchSocketError], [formatBunFetchSocketError],
      [formatContextPercent], [formatResponseUsageLine], [appendUsageLine]),
    - the session-aware outbound delivery module ([resolveOutboundChannel],
      [sendToSession]),
    together with the properties the specification states about them.

    JavaScript strings are modelled as [string] holding the UTF-8 encoding of
    the text; every string constant of the source is ASCII apart from the
    warning sign of the connection-failure banner and the middle dot of the
    usage line, which appear here as their UTF-8 bytes. *)

From stdpp Require Import gmap strings list pretty.
From Stdlib Require Import Ascii ZArith Lia.

Local Open Scope stdpp_scope.

(** Concatenation of strings computes under [simpl], as that of lists does. *)
#[local] Arguments String.append !s1 s2 : simpl nomatch.

(** ** JavaScript string primitives *)

Module JsString.

(** [s.length === 0], the only string that is falsy. *)
Definition is_empty (s : string) : bool :=
  match s with EmptyString => true | String _ _ => false end.

(** Truthiness of a value of type [string | undefined] (or [string | null]),
    as tested by [if (x)], [!x], [x || y] and [Boolean(x)]. *)
Definition truthy (o : option string) : bool :=
  match o with
  | None => false
  | Some s => negb (is_empty s)
  end.

(** [l.join(sep)] on an array of strings. *)
Fixpoint join (sep : string) (l : list string) : string :=
  match l with
  | [] => ""
  | [x] => x
  | x :: rest => x +:+ sep +:+ join sep rest
  end.

(** [hay.includes(needle)]. *)
Fixpoint includes (hay needle : string) : bool :=
  String.prefix needle hay ||
  match hay with
  | EmptyString => false
  | String _ rest => includes rest needle
  end.

(** *** White space

    [String.prototype.trim] and [trimEnd] strip the code points of the
    ECMAScript productions WhiteSpace and LineTerminator: U+0009..U+000D,
    U+0020, U+00A0, U+1680, U+2000..U+200A, U+2028, U+2029, U+202F, U+205F,
    U+3000 and U+FEFF.  In UTF-8 these take one, two or three bytes. *)

Definition byte_in (lo hi : N) (c : ascii) : bool :=
  (lo <=? N_of_ascii c)%N && (N_of_ascii c <=? hi)%N.

Definition byte_is (n : N) (c : ascii) : bool := (N_of_ascii c =? n)%N.

(** U+0009..U+000D and U+0020. *)
Definition ws1 (c : ascii) : bool := byte_in 9 13 c || byte_is 32 c.

(** U+00A0 is C2 A0. *)
Definition ws2 (c1 c2 : ascii) : bool := byte_is 194 c1 && byte_is 160 c2.

(** U+1680 is E1 9A 80; U+2000..U+200A are E2 80 80..8A; U+2028, U+2029 and
    U+202F are E2 80 A8, E2 80 A9 and E2 80 AF; U+205F is E2 81 9F; U+3000 is
    E3 80 80; U+FEFF is EF BB BF. *)
Definition ws3 (c1 c2 c3 : ascii) : bool :=
  (byte_is 225 c1 && byte_is 154 c2 && byte_is 128 c3)
  || (byte_is 226 c1 && byte_is 128 c2
      && (byte_in 128 138 c3 || byte_is 168 c3 || byte_is 169 c3 || byte_is 175 c3))
  || (byte_is 226 c1 && byte_is 129 c2 && byte_is 159 c3)
  || (byte_is 227 c1 && byte_is 128 c2 && byte_is 128 c3)
  || (byte_is 239 c1 && byte_is 187 c2 && byte_is 191 c3).

(** A byte that may belong to the encoding of a white-space character: an
    ASCII white space, or any byte of a multi-byte character. *)
Definition ws_byte (c : ascii) : bool := ws1 c || (128 <=? N_of_ascii c)%N.

Fixpoint all_bytes (P : ascii -> bool) (s : string) : bool :=
  match s with
  | EmptyString => true
  | String c r => P c && all_bytes P r
  end.

(** [s.trimStart()]. *)
Fixpoint trimStart (s : string) : string :=
  match s with
  | EmptyString => EmptyString
  | String c1 r1 =>
      if ws1 c1 then trimStart r1 else
      match r1 with
      | EmptyString => s
      | String c2 r2 =>
          if ws2 c1 c2 then trimStart r2 else
          match r2 with
          | EmptyString => s
          | String c3 r3 => if ws3 c1 c2 c3 then trimStart r3 else s
          end
      end
  end.

(** The whole string is white space. *)
Fixpoint all_ws (s : string) : bool :=
  match s with
  | EmptyString => true
  | String c1 r1 =>
      if ws1 c1 then all_ws r1 else
      match r1 with
      | EmptyString => false
      | String c2 r2 =>
          if ws2 c1 c2 then all_ws r2 else
          match r2 with
          | EmptyString => false
          | String c3 r3 => if ws3 c1 c2 c3 then all_ws r3 else false
          end
      end
  end.

(** [s.trimEnd()]: cut at the first position from which only white space
    follows. *)
Fixpoint trimEnd (s : string) : string :=
  match s with
  | EmptyString => EmptyString
  | String c r => if all_ws s then EmptyString else String c (trimEnd r)
  end.

(** [s.trim()]. *)
Definition trim (s : string) : string := trimEnd (trimStart s).

(** *** Case-insensitive search

    [re.test(s)] for a regular expression [/pat/i] whose pattern [pat] is a
    plain ASCII literal and that carries neither the [g] nor the [y] flag (so
    the test keeps no [lastIndex] state).  Without the [u] flag a character
    is canonicalised by [toUpperCase], and a non-ASCII character is never
    folded onto an ASCII one, so the folding acts on [a]..[z] only. *)

Definition canonicalize (c : ascii) : ascii :=
  if byte_in 97 122 c then ascii_of_N (N_of_ascii c - 32) else c.

Fixpoint ci_prefix (pat s : string) : bool :=
  match pat, s with
  | EmptyString, _ => true
  | String p pat', String c s' =>
      Ascii.eqb (canonicalize p) (canonicalize c) && ci_prefix pat' s'
  | String _ _, EmptyString => false
  end.

Fixpoint ci_test (pat s : string) : bool :=
  ci_prefix pat s ||
  match s with
  | EmptyString => false
  | String _ s' => ci_test pat s'
  end.

(** The regular-expression reading of the same test: some substring of [s]
    equals the pattern up to the case of ASCII letters. *)
Fixpoint fold_case (s : string) : string :=
  match s with
  | EmptyString => EmptyString
  | String c s' => String (canonicalize c) (fold_case s')
  end.

Definition ci_matches (pat s : string) : Prop :=
  exists pre mid post,
    s = pre +:+ mid +:+ post /\ fold_case mid = fold_case pat.

End JsString.

Import JsString.

(** The line feed, written [\n] in the source's string literals. *)
Definition LF : string := String (ascii_of_N 10) EmptyString.

(** ** Reply payloads (auto-reply/types) *)

(** A reply fragment with optional text and media, the two fields that
    [sendToSession] writes and [appendUsageLine] reads or writes. *)
Record ReplyPayload := mkReplyPayload {
  text : option string;
  mediaUrl : option string;
}.

(** ** thinking.ts: the response-usage flags *)

Module Thinking.

(** [ResponseUsageFlags]: show the token counts, the estimated cost, the share
    of the context window in use. *)
Record ResponseUsageFlags := mkFlags {
  f_tokens : option bool;
  f_cost : option bool;
  f_context : option bool;
}.

(** [Boolean(x)] for [x : boolean | undefined]. *)
Definition Boolean (x : option bool) : bool := default false x.

(** [hasAnyUsageFlag(flags)]: [flags.tokens || flags.cost || flags.context],
    as a boolean. *)
Definition hasAnyUsageFlag (flags : option ResponseUsageFlags) : bool :=
  match flags with
  | None => false
  | Some f => Boolean (f_tokens f) || Boolean (f_cost f) || Boolean (f_context f)
  end.

End Thinking.

(** ** Lower case

    [s.toLowerCase()] follows the Unicode case mapping.  On a string of ASCII
    characters it turns [A]..[Z] into [a]..[z] and changes nothing else; that
    much is stated, the rest of the mapping is left open. *)

Module JsLower.

Definition is_ascii (s : string) : bool :=
  all_bytes (fun c => (N_of_ascii c <? 128)%N) s.

Definition lower_char (c : ascii) : ascii :=
  if byte_in 65 90 c then ascii_of_N (N_of_ascii c + 32) else c.

Fixpoint lower_ascii (s : string) : string :=
  match s with
  | EmptyString => EmptyString
  | String c r => String (lower_char c) (lower_ascii r)
  end.

Class JsLowerCase := {
  toLowerCase : string -> string;
  toLowerCase_ascii : forall s, is_ascii s = true -> toLowerCase s = lower_ascii s;
}.

(** Any character but the slash. *)
Definition no_slash (c : ascii) : bool := negb (Ascii.eqb c "/").

(** [keys.includes(key)] on an array of strings. *)
Definition one_of (keys : list string) (key : string) : bool :=
  existsb (String.eqb key) keys.

(** [s.split(sep)] for a separator of one character: the segments between
    the separators, in order; an empty string gives one empty segment. *)
Fixpoint split (sep : ascii) (s : string) : list string :=
  match s with
  | EmptyString => [EmptyString]
  | String c r =>
      if Ascii.eqb c sep then EmptyString :: split sep r
      else
        match split sep r with
        | seg :: segs => String c seg :: segs
        | [] => [String c EmptyString]
        end
  end.

End JsLower.

(** ** thinking.ts: levels, providers and usage toggles *)

Module ThinkingLevels.
Import Thinking JsLower.

Inductive ThinkLevel := ThinkOff | ThinkMinimal | ThinkLow | ThinkMedium | ThinkHigh | ThinkXHigh.
Inductive VerboseLevel := VerboseOff | VerboseOn | VerboseFull.
Inductive NoticeLevel := NoticeOff | NoticeOn | NoticeFull.
Inductive ElevatedLevel := ElevatedOff | ElevatedOn | ElevatedAsk | ElevatedFull.
Inductive ElevatedMode := ModeOff | ModeAsk | ModeFull.
Inductive ReasoningLevel := ReasoningOff | ReasoningOn | ReasoningStream.
Inductive UsageDisplayLevel := UsageOff | UsageTokens | UsageFull.

(** The string each value of the union types is. *)
Definition thinkLabel (l : ThinkLevel) : string :=
  match l with
  | ThinkOff => "off" | ThinkMinimal => "minimal" | ThinkLow => "low"
  | ThinkMedium => "medium" | ThinkHigh => "high" | ThinkXHigh => "xhigh"
  end.

Definition verboseLabel (l : VerboseLevel) : string :=
  match l with VerboseOff => "off" | VerboseOn => "on" | VerboseFull => "full" end.

Definition noticeLabel (l : NoticeLevel) : string :=
  match l with NoticeOff => "off" | NoticeOn => "on" | NoticeFull => "full" end.

Definition elevatedLabel (l : ElevatedLevel) : string :=
  match l with
  | ElevatedOff => "off" | ElevatedOn => "on" | ElevatedAsk => "ask"
  | ElevatedFull => "full"
  end.

Definition reasoningLabel (l : ReasoningLevel) : string :=
  match l with ReasoningOff => "off" | ReasoningOn => "on" | ReasoningStream => "stream" end.

Definition usageDisplayLabel (l : UsageDisplayLevel) : string :=
  match l with UsageOff => "off" | UsageTokens => "tokens" | UsageFull => "full" end.

(** [keyof ResponseUsageFlags | "off"], the result of [parseUsageToggleArg]. *)
Inductive UsageToggle := ToggleTokens | ToggleCost | ToggleContext | ToggleOff.

(** [UsageDisplayLevel | "on"], the argument of [legacyUsageModeToFlags]. *)
Inductive LegacyUsageMode := LegacyLevel (l : UsageDisplayLevel) | LegacyOn.

(** [const XHIGH_MODEL_REFS] *)
Definition XHIGH_MODEL_REFS : list string :=
  ["openai/gpt-5.2"; "openai-codex/gpt-5.2-codex"; "openai-codex/gpt-5.1-codex"].

Section Levels.
Context `{!JsLowerCase}.

(** [normalizeProviderId(provider)] *)
Definition normalizeProviderId (provider : option string) : string :=
  if negb (truthy provider) then ""
  else
    let normalized := toLowerCase (trim (default "" provider)) in
    if String.eqb normalized "z.ai" || String.eqb normalized "z-ai" then "zai"
    else normalized.

(** [isBinaryThinkingProvider(provider)] *)
Definition isBinaryThinkingProvider (provider : option string) : bool :=
  String.eqb (normalizeProviderId provider) "zai".

(** [XHIGH_MODEL_SET]: the references in lower case; a [Set] is asked for
    membership only. *)
Definition XHIGH_MODEL_SET : list string := map toLowerCase XHIGH_MODEL_REFS.

(** [XHIGH_MODEL_IDS]: [entry.split("/")[1]?.toLowerCase()] of each
    reference, those that are missing or empty filtered out. *)
Definition XHIGH_MODEL_IDS : list string :=
  omap (fun entry =>
          match split "/" entry !! 1 with
          | Some id => if is_empty (toLowerCase id) then None else Some (toLowerCase id)
          | None => None
          end) XHIGH_MODEL_REFS.

(** [normalizeThinkLevel(raw)] *)
Definition normalizeThinkLevel (raw : option string) : option ThinkLevel :=
  if negb (truthy raw) then None
  else
    let key := toLowerCase (default "" raw) in
    if one_of ["off"] key then Some ThinkOff
    else if one_of ["on"; "enable"; "enabled"] key then Some ThinkLow
    else if one_of ["min"; "minimal"] key then Some ThinkMinimal
    else if one_of ["low"; "thinkhard"; "think-hard"; "think_hard"] key then Some ThinkLow
    else if one_of ["mid"; "med"; "medium"; "thinkharder"; "think-harder"; "harder"] key
    then Some ThinkMedium
    else if one_of ["high"; "ultra"; "ultrathink"; "think-hard"; "thinkhardest";
                    "highest"; "max"] key
    then Some ThinkHigh
    else if one_of ["xhigh"; "x-high"; "x_high"] key then Some ThinkXHigh
    else if one_of ["think"] key then Some ThinkMinimal
    else None.

(** [supportsXHighThinking(provider, model)] *)
Definition supportsXHighThinking (provider model : option string) : bool :=
  let modelKey := option_map (fun m => toLowerCase (trim m)) model in
  if negb (truthy modelKey) then false
  else
    let modelKey := default "" modelKey in
    let providerKey := option_map (fun p => toLowerCase (trim p)) provider in
    if truthy providerKey
    then one_of XHIGH_MODEL_SET (default "" providerKey +:+ "/" +:+ modelKey)
    else one_of XHIGH_MODEL_IDS modelKey.

(** [listThinkingLevels(provider, model)] *)
Definition listThinkingLevels (provider model : option string) : list ThinkLevel :=
  let levels := [ThinkOff; ThinkMinimal; ThinkLow; ThinkMedium; ThinkHigh] in
  if supportsXHighThinking provider model then levels ++ [ThinkXHigh] else levels.

(** [listThinkingLevelLabels(provider, model)] *)
Definition listThinkingLevelLabels (provider model : option string) : list string :=
  if isBinaryThinkingProvider provider then ["off"; "on"]
  else map thinkLabel (listThinkingLevels provider model).

(** [formatThinkingLevels(provider, model, separator = ", ")] *)
Definition formatThinkingLevels (provider model : option string)
    (separator : option string) : string :=
  join (default ", " separator) (listThinkingLevelLabels provider model).

(** [normalizeVerboseLevel(raw)] *)
Definition normalizeVerboseLevel (raw : option string) : option VerboseLevel :=
  if negb (truthy raw) then None
  else
    let key := toLowerCase (default "" raw) in
    if one_of ["off"; "false"; "no"; "0"] key then Some VerboseOff
    else if one_of ["full"; "all"; "everything"] key then Some VerboseFull
    else if one_of ["on"; "minimal"; "true"; "yes"; "1"] key then Some VerboseOn
    else None.

(** [normalizeNoticeLevel(raw)] *)
Definition normalizeNoticeLevel (raw : option string) : option NoticeLevel :=
  if negb (truthy raw) then None
  else
    let key := toLowerCase (default "" raw) in
    if one_of ["off"; "false"; "no"; "0"] key then Some NoticeOff
    else if one_of ["full"; "all"; "everything"] key then Some NoticeFull
    else if one_of ["on"; "minimal"; "true"; "yes"; "1"] key then Some NoticeOn
    else None.

(** [normalizeUsageDisplay(raw)] *)
Definition normalizeUsageDisplay (raw : option string) : option UsageDisplayLevel :=
  if negb (truthy raw) then None
  else
    let key := toLowerCase (default "" raw) in
    if one_of ["off"; "false"; "no"; "0"; "disable"; "disabled"] key then Some UsageOff
    else if one_of ["on"; "true"; "yes"; "1"; "enable"; "enabled"] key then Some UsageTokens
    else if one_of ["tokens"; "token"; "tok"; "minimal"; "min"] key then Some UsageTokens
    else if one_of ["full"; "session"] key then Some UsageFull
    else None.

(** [resolveResponseUsageMode(raw)] *)
Definition resolveResponseUsageMode (raw : option string) : UsageDisplayLevel :=
  default UsageOff (normalizeUsageDisplay raw).

(** [parseUsageToggleArg(raw)] *)
Definition parseUsageToggleArg (raw : option string) : option UsageToggle :=
  if negb (truthy raw) then None
  else
    let key := trim (toLowerCase (default "" raw)) in
    if one_of ["tokens"; "token"; "tok"] key then Some ToggleTokens
    else if one_of ["context"; "ctx"] key then Some ToggleContext
    else if one_of ["off"; "disable"; "disabled"; "none"; "clear"] key then Some ToggleOff
    else None.

(** [normalizeElevatedLevel(raw)] *)
Definition normalizeElevatedLevel (raw : option string) : option ElevatedLevel :=
  if negb (truthy raw) then None
  else
    let key := toLowerCase (default "" raw) in
    if one_of ["off"; "false"; "no"; "0"] key then Some ElevatedOff
    else if one_of ["full"; "auto"; "auto-approve"; "autoapprove"] key then Some ElevatedFull
    else if one_of ["ask"; "prompt"; "approval"; "approve"] key then Some ElevatedAsk
    else if one_of ["on"; "true"; "yes"; "1"] key then Some ElevatedOn
    else None.

(** [normalizeReasoningLevel(raw)] *)
Definition normalizeReasoningLevel (raw : option string) : option ReasoningLevel :=
  if negb (truthy raw) then None
  else
    let key := toLowerCase (default "" raw) in
    if one_of ["off"; "false"; "no"; "0"; "hide"; "hidden"; "disable"; "disabled"] key
    then Some ReasoningOff
    else if one_of ["on"; "true"; "yes"; "1"; "show"; "visible"; "enable"; "enabled"] key
    then Some ReasoningOn
    else if one_of ["stream"; "streaming"; "draft"; "live"] key then Some ReasoningStream
    else None.

End Levels.

(** [formatXHighModelHint()] *)
Definition formatXHighModelHint : string :=
  let refs := XHIGH_MODEL_REFS in
  match refs with
  | [] => "unknown model"
  | [a] => a
  | [a; b] => a +:+ " or " +:+ b
  | _ =>
      join ", " (take (length refs - 1) refs) +:+ " or "
        +:+ default "" (refs !! (length refs - 1))
  end.

(** [resolveElevatedMode(level)] *)
Definition resolveElevatedMode (level : option ElevatedLevel) : ElevatedMode :=
  match level with
  | None | Some ElevatedOff => ModeOff
  | Some ElevatedFull => ModeFull
  | Some _ => ModeAsk
  end.

(** [legacyUsageModeToFlags(mode)] *)
Definition legacyUsageModeToFlags (mode : option LegacyUsageMode)
  : option ResponseUsageFlags :=
  match mode with
  | None | Some (LegacyLevel UsageOff) => None
  | Some (LegacyLevel UsageTokens) | Some LegacyOn => Some (mkFlags (Some true) None None)
  | Some (LegacyLevel UsageFull) => Some (mkFlags (Some true) (Some true) None)
  end.

(** [cycleUsageFlags(current)] *)
Definition cycleUsageFlags (current : option ResponseUsageFlags) : ResponseUsageFlags :=
  match current with
  | None => mkFlags (Some true) None None
  | Some c =>
      if negb (hasAnyUsageFlag current) then mkFlags (Some true) None None
      else if Boolean (f_tokens c) && negb (Boolean (f_context c)) && negb (Boolean (f_cost c))
      then mkFlags (Some true) None (Some true)
      else mkFlags None None None
  end.

(** [formatUsageFlags(flags)] *)
Definition formatUsageFlags (flags : option ResponseUsageFlags) : string :=
  match flags with
  | None => "off"
  | Some f =>
      if negb (hasAnyUsageFlag flags) then "off"
      else
        let parts := [] in
        let parts := if Boolean (f_tokens f) then parts ++ ["tokens"] else parts in
        let parts := if Boolean (f_cost f) then parts ++ ["cost"] else parts in
        let parts := if Boolean (f_context f) then parts ++ ["context"] else parts in
        let joined := join "+" parts in
        if is_empty joined then "off" else joined
  end.

(** Which of tokens, cost and context a flags value switches on. *)
Definition enabled (flags : option ResponseUsageFlags) : bool * bool * bool :=
  match flags with
  | None => (false, false, false)
  | Some f => (Boolean (f_tokens f), Boolean (f_cost f), Boolean (f_context f))
  end.

End ThinkingLevels.

(** ** agent-runner-utils.ts *)

Module AgentRunnerUtils.

Import Thinking.

(** *** Connection-failure detection *)

(** [const BUN_FETCH_SOCKET_ERROR_RE = /socket connection was closed unexpectedly/i] *)
Definition BUN_FETCH_SOCKET_ERROR_RE : string :=
  "socket connection was closed unexpectedly".

(** [(message?: string) => Boolean(message && BUN_FETCH_SOCKET_ERROR_RE.test(message))] *)
Definition isBunFetchSocketError (message : option string) : bool :=
  match message with
  | None => false
  | Some m => if is_empty m then false else ci_test BUN_FETCH_SOCKET_ERROR_RE m
  end.

Definition BUN_FETCH_BANNER : string :=
  "⚠️ LLM connection failed. This could be due to server issues, network problems, or context length exceeded (e.g., with local LLMs like LM Studio). Original error:".

Definition FENCE : string := "```".

(** [formatBunFetchSocketError]: four lines joined by a line feed. *)
Definition formatBunFetchSocketError (message : string) : string :=
  let trimmed := trim message in
  join LF
    [ BUN_FETCH_BANNER;
      FENCE;
      (if is_empty trimmed then "Unknown error" else trimmed);
      FENCE ].

(** *** Usage records *)

(** [NormalizedUsage] (agents/usage): every count is optional. *)
Record NormalizedUsage (number : Type) := mkUsage {
  u_input : option number;
  u_output : option number;
  u_cacheRead : option number;
  u_cacheWrite : option number;
}.
Arguments mkUsage {number}.
Arguments u_input {number}.
Arguments u_output {number}.
Arguments u_cacheRead {number}.
Arguments u_cacheWrite {number}.

(** The per-model cost table handed to [estimateUsageCost]. *)
Record CostConfig (number : Type) := mkCostConfig {
  c_input : number;
  c_output : number;
  c_cacheRead : number;
  c_cacheWrite : number;
}.
Arguments mkCostConfig {number}.

(** [typeof x === "number"] for [x : number | undefined]. *)
Definition is_number {number : Type} (x : option number) : bool :=
  match x with Some _ => true | None => false end.

(** The parameter object of [formatResponseUsageLine]. *)
Record UsageLineParams (number : Type) := mkUsageLineParams {
  p_usage : option (NormalizedUsage number);
  p_showCost : bool;
  p_costConfig : option (CostConfig number);
  p_flags : option ResponseUsageFlags;
  p_contextUsedTokens : option number;
  p_contextMaxTokens : option number;
}.
Arguments mkUsageLineParams {number}.
Arguments p_usage {number}.
Arguments p_showCost {number}.
Arguments p_costConfig {number}.
Arguments p_flags {number}.
Arguments p_contextUsedTokens {number}.
Arguments p_contextMaxTokens {number}.

(** The operations on IEEE-754 doubles and the Unicode case mapping that
    [formatContextPercent] relies on; they belong to the language, and are
    kept abstract. *)
Class JsPrimitives (number : Type) := {
  (** [x <= 0] *)
  num_le_zero : number -> bool;
  (** [x < 0] *)
  num_lt_zero : number -> bool;
  (** [Math.round((used / max) * 100)] *)
  round_percent : number -> number -> number;
  (** the conversion of a number inside a template literal *)
  num_to_string : number -> string;
  (** [s.toUpperCase()] *)
  toUpperCase : string -> string;
}.

(** The helpers imported from [utils/usage-format]; the specification
    describes them as pure functions, and they are taken as such. *)
Class UsageFormat (number : Type) := {
  formatTokenCount : number -> string;
  (** [estimateUsageCost({ usage, cost })] returns [number | undefined] *)
  estimateUsageCost : NormalizedUsage number -> option (CostConfig number) -> option number;
  (** [formatUsd(value)] returns [string | undefined] *)
  formatUsd : option number -> option string;
}.

Section Usage.
Context {number : Type} `{!JsPrimitives number} `{!UsageFormat number}.

(** [formatContextPercent(usedTokens, maxContext)] *)
Definition formatContextPercent (usedTokens maxContext : option number)
  : option string :=
  match usedTokens, maxContext with
  | Some used, Some max =>
      if num_le_zero max || num_lt_zero used then None
      else
        let percent := round_percent used max in
        let tokensLabel := toUpperCase (formatTokenCount used) in
        Some (tokensLabel +:+ " (" +:+ num_to_string percent +:+ "%)")
  | _, _ => None
  end.

(** The three stages that push onto [parts]. *)
Definition tokensPortion (showTokens : bool) (input output : option number)
    (parts : list string) : list string :=
  if showTokens then
    let inputLabel := from_option formatTokenCount "?" input in
    let outputLabel := from_option formatTokenCount "?" output in
    parts ++ ["Usage: " +:+ inputLabel +:+ " in / " +:+ outputLabel +:+ " out"]
  else parts.

Definition costPortion (showCost : bool) (usage : NormalizedUsage number)
    (costConfig : option (CostConfig number)) (parts : list string)
  : list string :=
  match showCost, u_input usage, u_output usage with
  | true, Some input, Some output =>
      let cost :=
        estimateUsageCost
          (mkUsage (Some input) (Some output) (u_cacheRead usage) (u_cacheWrite usage))
          costConfig in
      match formatUsd cost with
      | Some costLabel =>
          if is_empty costLabel then parts
          else if 0 <? length parts then parts ++ ["est " +:+ costLabel]
          else parts ++ ["Cost: est " +:+ costLabel]
      | None => parts
      end
  | _, _, _ => parts
  end.

Definition contextPortion (showContext : bool)
    (contextUsedTokens contextMaxTokens : option number)
    (parts : list string) : list string :=
  if showContext then
    match formatContextPercent contextUsedTokens contextMaxTokens with
    | Some contextLabel =>
        if is_empty contextLabel then parts
        else if 0 <? length parts then parts ++ [contextLabel]
        else parts ++ ["Context: " +:+ contextLabel]
    | None => parts
    end
  else parts.

(** The end of the function: nothing, the single part, or the first part
    followed by the others, each after a middle dot. *)
Definition joinParts (parts : list string) : option string :=
  match parts with
  | [] => None
  | [p] => Some p
  | p :: rest => Some (p +:+ " · " +:+ join " · " rest)
  end.

(** [formatResponseUsageLine(params)] *)
Definition formatResponseUsageLine (params : UsageLineParams number)
  : option string :=
  match p_usage params with
  | None => None
  | Some usage =>
      let input := u_input usage in
      let output := u_output usage in
      if negb (is_number input) && negb (is_number output) then None
      else
        let flags := p_flags params in
        let showTokens := from_option (fun f => Boolean (f_tokens f)) true flags in
        let showCost := from_option (fun f => Boolean (f_cost f)) (p_showCost params) flags in
        let showContext := from_option (fun f => Boolean (f_context f)) false flags in
        if negb showTokens && negb showCost && negb showContext then None
        else
          let parts := [] in
          let parts := tokensPortion showTokens input output parts in
          let parts := costPortion showCost usage (p_costConfig params) parts in
          let parts :=
            contextPortion showContext
              (p_contextUsedTokens params) (p_contextMaxTokens params) parts in
          joinParts parts
  end.

End Usage.

(** *** Appending the usage line *)

Definition FOOTER_DELIMITER : string := LF +:+ LF +:+ "--" +:+ LF.

(** The backwards scan [for (let i = payloads.length - 1; i >= 0; i -= 1)],
    entered with [n = i + 1]; [None] stands for the index [-1]. *)
Fixpoint lastTextIndex (payloads : list ReplyPayload) (n : nat) : option nat :=
  match n with
  | 0 => None
  | S i =>
      match payloads !! i with
      | Some p => if truthy (text p) then Some i else lastTextIndex payloads i
      | None => lastTextIndex payloads i
      end
  end.

(** [appendUsageLine(payloads, line)] *)
Definition appendUsageLine (payloads : list ReplyPayload) (line : string)
  : list ReplyPayload :=
  match lastTextIndex payloads (length payloads) with
  | None => payloads ++ [mkReplyPayload (Some line) None]
  | Some index =>
      match payloads !! index with
      | Some existing =>
          let existingText := default "" (text existing) in
          let trimmed := trimEnd existingText in
          let next :=
            mkReplyPayload (Some (trimmed +:+ FOOTER_DELIMITER +:+ line))
                           (mediaUrl existing) in
          <[index := next]> payloads
      | None => payloads (* not reached: the scan returns an index in range *)
      end
  end.

End AgentRunnerUtils.

(** ** Session-aware outbound delivery ([sendToSession]) *)

Module SendToSession.

(** The part of the configuration that [sendToSession] reads:
    [cfg.session?.store]. *)
Record SessionConfig := mkSessionConfig { store : option string }.
Record OpenClawConfig := mkConfig { session : option SessionConfig }.

(** The persisted session metadata ([config/sessions/types]). *)
Record SessionEntry := mkSessionEntry {
  sessionId : string;
  updatedAt : Z;
  lastChannel : option string;
  lastTo : option string;
  lastAccountId : option string;
  lastThreadId : option string;
}.

(** [SendToSessionParams]; its [text] is [msgText] here, [text] being the
    field of a payload. *)
Record SendToSessionParams := mkParams {
  sessionKey : string;
  msgText : string;
  agentId : option string;
  cfg : option OpenClawConfig;
  mediaUrls : option (list string);
  bestEffort : option bool;
}.

(** One entry of the array that delivery resolves to. *)
Record OutboundDeliveryResult := mkDeliveryResult {
  r_channel : string;
  r_messageId : string;
  r_chatId : option string;
}.

(** [SendToSessionResult]: [{ ok: true, results }] or [{ ok: false, error }]. *)
Inductive SendToSessionResult :=
| Ok (results : list OutboundDeliveryResult)
| Failed (error : string).

(** The argument object of [deliverOutboundPayloads]. *)
Record DeliverParams := mkDeliverParams {
  d_cfg : OpenClawConfig;
  d_channel : string;
  d_to : string;
  d_accountId : option string;
  d_payloads : list ReplyPayload;
  d_threadId : option string;
  d_bestEffort : option bool;
}.

(** How a call ends: with a value, or with a thrown value (for an awaited
    promise: fulfilled or rejected). *)
Inductive completion (thrown A : Type) :=
| Normal (a : A)
| Throw (err : thrown).
Arguments Normal {thrown A}.
Arguments Throw {thrown A}.

(** The calls with an effect outside the module, in the order they are
    made: the reading of the configuration, the reading of the session store,
    the delivery. *)
Inductive Call :=
| CallLoadConfig
| CallLoadSessionStore (storePath : string)
| CallDeliver (p : DeliverParams).

(** The imported collaborators, and [String] of the language.  Each of them
    may throw.  The source guards [loadConfig], [loadSessionStore] and
    [deliverOutboundPayloads] with [try]; [resolveStorePath] and
    [isDeliverableMessageChannel] are called outside every [try], and
    [String(err)] inside the [catch] handlers, where nothing guards it. *)
Class Collaborators (thrown : Type) := {
  (** [String(err)] *)
  String_ : thrown -> completion thrown string;
  loadConfig : completion thrown OpenClawConfig;
  resolveStorePath : option string -> option string -> completion thrown string;
  loadSessionStore : string -> completion thrown (gmap string SessionEntry);
  isDeliverableMessageChannel : string -> completion thrown bool;
  deliverOutboundPayloads :
    DeliverParams -> completion thrown (list OutboundDeliveryResult);
}.

(** The names that an object inherits from [Object.prototype]. *)
Definition OBJECT_PROTOTYPE_KEYS : list string :=
  ["constructor"; "__proto__"; "hasOwnProperty"; "isPrototypeOf";
   "propertyIsEnumerable"; "toLocaleString"; "toString"; "valueOf";
   "__defineGetter__"; "__defineSetter__"; "__lookupGetter__"; "__lookupSetter__"].

(** What [store[sessionKey]] evaluates to when it is not [undefined].  The
    session store is a plain object (the tests load it from a JSON file), whose
    own properties are the entries, kept here as a finite map; a key that is
    not an own property is looked up in [Object.prototype], where it finds a
    function, or the prototype itself under "__proto__". *)
Inductive StoreMember :=
| OwnEntry (entry : SessionEntry)
| Inherited.

(** [store[sessionKey]]; [None] is [undefined]. *)
Definition getMember (store : gmap string SessionEntry) (sessionKey : string)
  : option StoreMember :=
  match store !! sessionKey with
  | Some entry => Some (OwnEntry entry)
  | None =>
      if bool_decide (sessionKey ∈ OBJECT_PROTOTYPE_KEYS) then Some Inherited
      else None
  end.

(** [entry.f] for a field [f] of a session entry: the members of
    [Object.prototype] have none of them. *)
Definition get {A : Type} (f : SessionEntry -> option A) (entry : StoreMember)
  : option A :=
  match entry with
  | OwnEntry e => f e
  | Inherited => None
  end.

Section Monad.
Context {thrown : Type}.

(** A computation extends the trace of outside calls and completes. *)
Definition M (A : Type) : Type :=
  list Call -> completion thrown A * list Call.

Definition ret {A} (a : A) : M A := fun tr => (Normal a, tr).

Definition bind {A B} (m : M A) (k : A -> M B) : M B :=
  fun tr =>
    match m tr with
    | (Normal a, tr') => k a tr'
    | (Throw e, tr') => (Throw e, tr')
    end.

(** [try { m } catch (err) { ... }]: the completion of [m] becomes a
    value, on which the continuation branches. *)
Definition try_ {A} (m : M A) : M (completion thrown A) :=
  fun tr => let '(c, tr') := m tr in (Normal c, tr').

(** An outside call: logged, then completed as the collaborator says. *)
Definition call {A} (c : Call) (outcome : completion thrown A) : M A :=
  fun tr => (outcome, tr ++ [c]).

(** A call that leaves no mark on the trace, completed as the collaborator
    says. *)
Definition eval {A} (outcome : completion thrown A) : M A :=
  fun tr => (outcome, tr).
End Monad.

(** stdpp's notation [x ← m; k] is used for [bind]. *)
#[global] Instance M_ret {thrown} : MRet (@M thrown) := @ret thrown.
#[global] Instance M_bind {thrown} : MBind (@M thrown) :=
  fun A B k m => bind m k.

Section Send.
Context {thrown : Type} `{!Collaborators thrown}.

(** [resolveOutboundChannel(channel)] *)
Definition resolveOutboundChannel (channel : option string)
  : completion thrown (option string) :=
  match channel with
  | None => Normal None
  | Some c =>
      if is_empty c then Normal None
      else
        match isDeliverableMessageChannel c with
        | Throw err => Throw err
        | Normal deliverable =>
            if negb deliverable then Normal None else Normal (Some c)
        end
  end.

(** The loop over [mediaUrls]: the text goes with the first URL only. *)
Definition pushMedia (text : string) (payloads : list ReplyPayload) (url : string)
  : list ReplyPayload :=
  payloads ++
    [mkReplyPayload (Some (if length payloads =? 0 then text else "")) (Some url)].

(** "Build payloads" *)
Definition buildPayloads (text : string) (mediaUrls : option (list string))
  : list ReplyPayload :=
  match mediaUrls with
  | Some ((_ :: _) as urls) => foldl (pushMedia text) [] urls
  | _ => [mkReplyPayload (Some text) None]
  end.

(** [sendToSession(params)] *)
Definition sendToSession (params : SendToSessionParams)
  : M (thrown := thrown) SendToSessionResult :=
  let sessionKey := sessionKey params in
  let text := msgText params in
  (* Load config if not provided *)
  loaded ←
    match cfg params with
    | Some c => ret (Normal c)
    | None => try_ (call CallLoadConfig loadConfig)
    end;
  match loaded with
  | Throw err =>
      message ← eval (String_ err);
      ret (Failed ("Failed to load config: " +:+ message))
  | Normal cfg =>
      (* Resolve the session store path *)
      storePath ← eval (resolveStorePath (session cfg ≫= store) (agentId params));
      (* Load the session entry *)
      loadedStore ←
        try_ (call (CallLoadSessionStore storePath) (loadSessionStore storePath));
      match loadedStore with
      | Throw err =>
          message ← eval (String_ err);
          ret (Failed ("Failed to load session store: " +:+ message))
      | Normal store =>
          match getMember store sessionKey with
          | None => ret (Failed ("Session not found: " +:+ sessionKey))
          | Some entry =>
              (* Extract delivery context from session *)
              channel ← eval (resolveOutboundChannel (get lastChannel entry));
              let to := get lastTo entry in
              let accountId := get lastAccountId entry in
              let threadId := get lastThreadId entry in
              match channel with
              | None =>
                  ret (Failed ("No channel found for session: " +:+ sessionKey))
              | Some channel =>
                  if negb (truthy to) then
                    ret (Failed ("No destination found for session: " +:+ sessionKey))
                  else
                    let to := default "" to in
                    (* Build payloads *)
                    let payloads := buildPayloads text (mediaUrls params) in
                    (* Deliver *)
                    let args :=
                      mkDeliverParams cfg channel to accountId payloads threadId
                                      (bestEffort params) in
                    delivered ←
                      try_ (call (CallDeliver args) (deliverOutboundPayloads args));
                    match delivered with
                    | Normal results => ret (Ok results)
                    | Throw err =>
                        message ← eval (String_ err);
                        ret (Failed ("Delivery failed: " +:+ message))
                    end
              end
          end
      end
  end.

(** The deliveries among the outside calls of a trace. *)
Definition deliveries (tr : list Call) : list DeliverParams :=
  omap (fun c => match c with CallDeliver p => Some p | _ => None end) tr.

(** One call of [sendToSession], from an empty trace: what it completes with,
    and the outside calls it made. *)
Definition outcome (params : SendToSessionParams)
  : completion thrown SendToSessionResult := (sendToSession params []).1.

Definition calls (params : SendToSessionParams) : list Call :=
  (sendToSession params []).2.

(** The configuration in force: the override when given, else what
    [loadConfig] completes with. *)
Definition effectiveConfig (params : SendToSessionParams)
  : completion thrown OpenClawConfig :=
  match cfg params with
  | Some c => Normal c
  | None => loadConfig
  end.

(** The resolution of the path of the session store under configuration
    [c]. *)
Definition storePathFor (c : OpenClawConfig) (params : SendToSessionParams)
  : completion thrown string :=
  resolveStorePath (session c ≫= store) (agentId params).

(** Configuration and session store were obtained, the store being [st],
    read at the path [storePath]. *)
Definition sessionStoreLoadedAt (params : SendToSessionParams)
    (c : OpenClawConfig) (storePath : string) (st : gmap string SessionEntry) : Prop :=
  effectiveConfig params = Normal c /\
  storePathFor c params = Normal storePath /\
  loadSessionStore storePath = Normal st.

Definition sessionStoreLoaded (params : SendToSessionParams)
    (c : OpenClawConfig) (st : gmap string SessionEntry) : Prop :=
  exists storePath, sessionStoreLoadedAt params c storePath st.

(** What a [catch] handler returns: the failure that names the step and
    [String(err)], unless that conversion throws. *)
Definition failure (step : string) (err : thrown)
  : completion thrown SendToSessionResult :=
  match String_ err with
  | Normal message => Normal (Failed (step +:+ message))
  | Throw e => Throw e
  end.


End Send.

End SendToSession.

(** ** The usage formatters over the JavaScript heap

    The same two functions, read with the objects they are handed kept in a
    heap: the parameter object of [formatResponseUsageLine] and the objects it
    refers to are reached through references, the array [parts] is allocated
    and grown in place, and so are the argument objects of
    [estimateUsageCost]. *)

Module Store.
Import Thinking AgentRunnerUtils.

Section Heap.
Context {number : Type} `{!JsPrimitives number} `{!UsageFormat number}.

(** Values: primitives, and references to heap objects. *)
Inductive val :=
| VUndef
| VBool (b : bool)
| VNum (n : number)
| VStr (s : string)
| VRef (l : nat).

(** Heap objects: plain objects, and arrays of strings. *)
Inductive obj :=
| Obj (fields : gmap string val)
| Arr (items : list string).

#[local] Abbreviation heap := (gmap nat obj).

(** Stateful computations. *)
Definition St (A : Type) : Type := heap -> A * heap.

#[global] Instance St_ret : MRet St := fun A a h => (a, h).
#[global] Instance St_bind : MBind St :=
  fun A B k m h => let '(a, h') := m h in k a h'.

(** The properties of the plain object that a value refers to. *)
Definition fields_of (h : heap) (v : val) : option (gmap string val) :=
  match v with
  | VRef l => match h !! l with Some (Obj fs) => Some fs | _ => None end
  | _ => None
  end.

(** A property that is missing reads as [undefined]. *)
Definition prop (fs : gmap string val) (k : string) : val :=
  default VUndef (fs !! k).

(** [v.k] *)
Definition field (h : heap) (v : val) (k : string) : val :=
  from_option (fun fs => prop fs k) VUndef (fields_of h v).

Definition getField (v : val) (k : string) : St val := fun h => (field h v k, h).

(** An object or array literal: a new object at an unused location. *)
Definition alloc (o : obj) : St val :=
  fun h => let l := fresh (dom h) in (VRef l, <[l := o]> h).

(** [a.push(s)] *)
Definition push (a : val) (s : string) : St unit :=
  fun h =>
    (tt,
     match a with
     | VRef l =>
         match h !! l with
         | Some (Arr items) => <[l := Arr (items ++ [s])]> h
         | _ => h
         end
     | _ => h
     end).

(** The elements of an array, for [a.length], [a[0]] and [a.slice(1)]. *)
Definition elements_of (a : val) : St (list string) :=
  fun h =>
    (match a with
     | VRef l => match h !! l with Some (Arr items) => items | _ => [] end
     | _ => []
     end, h).

(** [typeof v === "number"], with the number at hand. *)
Definition as_number (v : val) : option number :=
  match v with VNum n => Some n | _ => None end.

(** Truthiness of a value that is an object, a boolean or [undefined]. *)
Definition truthy_val (v : val) : bool :=
  match v with
  | VRef _ => true
  | VBool b => b
  | _ => false
  end.

(** *** Reading typed records off the heap *)

(** [number | undefined] *)
Definition dec_number (v : val) : option (option number) :=
  match v with
  | VUndef => Some None
  | VNum n => Some (Some n)
  | _ => None
  end.

(** [boolean | undefined] *)
Definition dec_flag (v : val) : option (option bool) :=
  match v with
  | VUndef => Some None
  | VBool b => Some (Some b)
  | _ => None
  end.

Definition dec_usage (h : heap) (v : val) : option (option (NormalizedUsage number)) :=
  match v with
  | VUndef => Some None
  | _ =>
      fs ← fields_of h v;
      i ← dec_number (prop fs "input");
      o ← dec_number (prop fs "output");
      r ← dec_number (prop fs "cacheRead");
      w ← dec_number (prop fs "cacheWrite");
      Some (Some (mkUsage i o r w))
  end.

Definition dec_cost (h : heap) (v : val) : option (option (CostConfig number)) :=
  match v with
  | VUndef => Some None
  | _ =>
      fs ← fields_of h v;
      i ← as_number (prop fs "input");
      o ← as_number (prop fs "output");
      r ← as_number (prop fs "cacheRead");
      w ← as_number (prop fs "cacheWrite");
      Some (Some (mkCostConfig i o r w))
  end.

Definition dec_flags (h : heap) (v : val) : option (option ResponseUsageFlags) :=
  match v with
  | VUndef => Some None
  | _ =>
      fs ← fields_of h v;
      t ← dec_flag (prop fs "tokens");
      c ← dec_flag (prop fs "cost");
      x ← dec_flag (prop fs "context");
      Some (Some (mkFlags t c x))
  end.

(** The parameter object that a reference stands for, when the heap holds a
    well-typed one there. *)
Definition dec_params (h : heap) (v : val) : option (UsageLineParams number) :=
  fs ← fields_of h v;
  usage ← dec_usage h (prop fs "usage");
  showCost ← match prop fs "showCost" with VBool b => Some b | _ => None end;
  costConfig ← dec_cost h (prop fs "costConfig");
  flags ← dec_flags h (prop fs "flags");
  used ← dec_number (prop fs "contextUsedTokens");
  max ← dec_number (prop fs "contextMaxTokens");
  Some (mkUsageLineParams usage showCost costConfig flags used max).

(** *** The functions

    Each carries the name of the function it transcribes, followed by [S]. *)

(** [estimateUsageCost({ usage, cost })]: the helper reads its argument object
    and returns; by the specification it has no effect of its own. *)
Definition estimateUsageCostS (arg : val) : St (option number) :=
  fun h =>
    (match dec_usage h (field h arg "usage"), dec_cost h (field h arg "cost") with
     | Some (Some usage), Some cost => estimateUsageCost usage cost
     | _, _ => None
     end, h).

(** [formatContextPercent(usedTokens, maxContext)] *)
Definition formatContextPercentS (usedTokens maxContext : val) : St (option string) :=
  match usedTokens, maxContext with
  | VNum used, VNum max =>
      if num_le_zero max || num_lt_zero used then mret None
      else
        let percent := round_percent used max in
        let tokensLabel := toUpperCase (formatTokenCount used) in
        mret (Some (tokensLabel +:+ " (" +:+ num_to_string percent +:+ "%)"))
  | _, _ => mret None
  end.

Definition tokenLabel (v : val) : string :=
  match v with VNum n => formatTokenCount n | _ => "?" end.

(** "Tokens portion" *)
Definition tokensPortionS (showTokens : bool) (input output parts : val) : St unit :=
  if showTokens then
    push parts ("Usage: " +:+ tokenLabel input +:+ " in / " +:+ tokenLabel output +:+ " out")
  else mret tt.

(** "Cost portion" *)
Definition costPortionS (showCost : bool) (params usage input output parts : val)
  : St unit :=
  match showCost, input, output with
  | true, VNum _, VNum _ =>
      cacheRead ← getField usage "cacheRead";
      cacheWrite ← getField usage "cacheWrite";
      inner ← alloc (Obj (<["input" := input]> (<["output" := output]>
                           (<["cacheRead" := cacheRead]>
                              (<["cacheWrite" := cacheWrite]> ∅)))));
      costConfig ← getField params "costConfig";
      arg ← alloc (Obj (<["usage" := inner]> (<["cost" := costConfig]> ∅)));
      cost ← estimateUsageCostS arg;
      match formatUsd cost with
      | Some costLabel =>
          if is_empty costLabel then mret tt
          else
            xs ← elements_of parts;
            if 0 <? length xs then push parts ("est " +:+ costLabel)
            else push parts ("Cost: est " +:+ costLabel)
      | None => mret tt
      end
  | _, _, _ => mret tt
  end.

(** "Context % portion" *)
Definition contextPortionS (showContext : bool) (params parts : val) : St unit :=
  if showContext then
    used ← getField params "contextUsedTokens";
    max ← getField params "contextMaxTokens";
    contextLabel ← formatContextPercentS used max;
    match contextLabel with
    | Some contextLabel =>
        if is_empty contextLabel then mret tt
        else
          xs ← elements_of parts;
          if 0 <? length xs then push parts contextLabel
          else push parts ("Context: " +:+ contextLabel)
    | None => mret tt
    end
  else mret tt.

(** From "If nothing to show, return null" to the end of the function. *)
Definition assembleS (showTokens showCost showContext : bool)
    (params usage input output : val) : St (option string) :=
  if negb showTokens && negb showCost && negb showContext then mret None
  else
    parts ← alloc (Arr []);
    _ ← tokensPortionS showTokens input output parts;
    _ ← costPortionS showCost params usage input output parts;
    _ ← contextPortionS showContext params parts;
    xs ← elements_of parts;
    mret (joinParts xs).

(** [formatResponseUsageLine(params)] *)
Definition formatResponseUsageLineS (params : val) : St (option string) :=
  usage ← getField params "usage";
  if negb (truthy_val usage) then mret None
  else
    input ← getField usage "input";
    output ← getField usage "output";
    if negb (is_number (as_number input)) && negb (is_number (as_number output))
    then mret None
    else
      flags ← getField params "flags";
      showTokens ←
        (if truthy_val flags
         then tokens ← getField flags "tokens"; mret (truthy_val tokens)
         else mret true);
      showCost ←
        (if truthy_val flags
         then cost ← getField flags "cost"; mret (truthy_val cost)
         else legacy ← getField params "showCost"; mret (truthy_val legacy));
      showContext ←
        (if truthy_val flags
         then context ← getField flags "context"; mret (truthy_val context)
         else mret false);
      assembleS showTokens showCost showContext params usage input output.

(** The heap [h] extends the heap [h0] the call started from, and holds at
    [lp], a location unused in [h0], the array [ps]. *)
Definition parts_at (h0 h : heap) (lp : nat) (ps : list string) : Prop :=
  h0 ⊆ h /\ h0 !! lp = None /\ h !! lp = Some (Arr ps).

End Heap.

Arguments val : clear implicits.
Arguments obj : clear implicits.

End Store.

(** ** The usage annotation of the runner *)

Module UsageAnnotator.
Import Thinking AgentRunnerUtils.

(** Modelled from the spec: the flag lookup of the runner's step 4, whose
    source file (agent-runner.ts) is not among the sources: "session-level
    responseUsageFlags override channel-level config default override global
    config default"; flags that are present, even with nothing set, win. *)
Definition resolveResponseUsageFlags
    (sessionFlags channelDefault globalDefault : option ResponseUsageFlags)
  : option ResponseUsageFlags :=
  match sessionFlags with
  | Some f => Some f
  | None =>
      match channelDefault with
      | Some f => Some f
      | None => globalDefault
      end
  end.

(** Modelled from the spec: the rest of the runner's step 4, whose source
    file (agent-runner.ts) is not among the sources: "if any flag is set,
    compute a usage line [...] and append it to the last non-empty text
    payload, separated by a footer delimiter; if no flag is set, payloads
    pass through unchanged".  The usage, the price list and the context
    counts are those of the turn. *)
Definition annotate {number : Type} `{!JsPrimitives number} `{!UsageFormat number}
    (sessionFlags channelDefault globalDefault : option ResponseUsageFlags)
    (usage : option (NormalizedUsage number))
    (costConfig : option (CostConfig number))
    (contextUsedTokens contextMaxTokens : option number)
    (payloads : list ReplyPayload) : list ReplyPayload :=
  let flags := resolveResponseUsageFlags sessionFlags channelDefault globalDefault in
  if hasAnyUsageFlag flags then
    match formatResponseUsageLine
            (mkUsageLineParams usage false costConfig flags
               contextUsedTokens contextMaxTokens) with
    | Some line => appendUsageLine payloads line
    | None => payloads
    end
  else payloads.

End UsageAnnotator.

(** ** Sample collaborators

    Stand-ins for the imported helpers, in the manner of the mocks of the test
    suites; the examples that close each section run the functions on them. *)

Module Sample.
Import Thinking AgentRunnerUtils SendToSession.

(** Token counts are integers; the percentage is rounded half up. *)
Definition prims : JsPrimitives Z := {|
  num_le_zero x := (x <=? 0)%Z;
  num_lt_zero x := (x <? 0)%Z;
  round_percent used max := ((200 * used + max) / (2 * max))%Z;
  num_to_string x := pretty x;
  toUpperCase := fold_case;
|}.

(** Counts are printed in full, and no cost is known. *)
Definition usageFormat : UsageFormat Z := {|
  formatTokenCount x := pretty x;
  estimateUsageCost _ _ := None;
  formatUsd _ := None;
|}.

(** A price list of one cent per token, shown in cents. *)
Definition pricedFormat : UsageFormat Z := {|
  formatTokenCount x := pretty x;
  estimateUsageCost usage cost :=
    match u_input usage, u_output usage, cost with
    | Some i, Some o, Some _ => Some (i + o)%Z
    | _, _, _ => None
    end;
  formatUsd value := from_option (fun c => Some (pretty c +:+ "c")) None value;
|}.

Definition prices : CostConfig Z := mkCostConfig 1%Z 1%Z 0%Z 0%Z.

(** usage [{ input: 12, output: 3 }] *)
Definition usage_12_3 : NormalizedUsage Z := mkUsage (Some 12%Z) (Some 3%Z) None None.

Definition usageParams (flags : option ResponseUsageFlags) : UsageLineParams Z :=
  mkUsageLineParams (Some usage_12_3) false None flags None None.

(** The session store of the delivery tests. *)
Definition entry_telegram : SessionEntry :=
  mkSessionEntry "abc" 0 (Some "telegram") (Some "456") (Some "bot1") (Some "789").

Definition entry_webchat : SessionEntry :=
  mkSessionEntry "abc" 0 (Some "webchat") (Some "456") None None.

Definition entry_no_destination : SessionEntry :=
  mkSessionEntry "abc" 0 (Some "telegram") None None None.

Definition sessions : gmap string SessionEntry :=
  <["telegram:123" := entry_telegram]>
    (<["webchat:123" := entry_webchat]>
       (<["telegram:nowhere" := entry_no_destination]> ∅)).

Definition delivered : list OutboundDeliveryResult :=
  [mkDeliveryResult "telegram" "123" (Some "456")].

(** Thrown values are strings, which [String] returns as they are; every
    collaborator succeeds, the session store being [st]. *)
Definition collaboratorsWith (st : gmap string SessionEntry) : Collaborators string := {|
  String_ err := Normal err;
  loadConfig := Normal (mkConfig None);
  resolveStorePath store _ := Normal (default "sessions.json" store);
  loadSessionStore _ := Normal st;
  isDeliverableMessageChannel c :=
    Normal (bool_decide (c ∈ ["telegram"; "whatsapp"; "slack"]));
  deliverOutboundPayloads _ := Normal delivered;
|}.

Definition collaborators : Collaborators string := collaboratorsWith sessions.





(** A heap holding the parameter object
    [{ usage: { input: 12, output: 3 }, showCost: false, flags: { tokens: true } }]. *)
Definition heap0 : gmap nat (Store.obj Z) :=
  <[0 := Store.Obj (<["usage" := Store.VRef 1]>
                      (<["showCost" := Store.VBool false]>
                         (<["flags" := Store.VRef 2]> ∅)))]>
    (<[1 := Store.Obj (<["input" := Store.VNum 12%Z]>
                         (<["output" := Store.VNum 3%Z]> ∅))]>
       (<[2 := Store.Obj (<["tokens" := Store.VBool true]> ∅)]> ∅)).

(** A heap holding a parameter object with every field: usage with cache
    counts, a price list, the three flags, the context counts. *)
Definition heap1 : gmap nat (Store.obj Z) :=
  <[0 := Store.Obj (<["usage" := Store.VRef 1]>
                      (<["showCost" := Store.VBool false]>
                         (<["costConfig" := Store.VRef 3]>
                            (<["flags" := Store.VRef 2]>
                               (<["contextUsedTokens" := Store.VNum 67000%Z]>
                                  (<["contextMaxTokens" := Store.VNum 100000%Z]> ∅))))))]>
    (<[1 := Store.Obj (<["input" := Store.VNum 12%Z]>
                         (<["output" := Store.VNum 3%Z]>
                            (<["cacheRead" := Store.VNum 0%Z]>
                               (<["cacheWrite" := Store.VNum 0%Z]> ∅))))]>
       (<[2 := Store.Obj (<["tokens" := Store.VBool true]>
                            (<["cost" := Store.VBool true]>
                               (<["context" := Store.VBool true]> ∅)))]>
          (<[3 := Store.Obj (<["input" := Store.VNum 1%Z]>
                               (<["output" := Store.VNum 1%Z]>
                                  (<["cacheRead" := Store.VNum 0%Z]>
                                     (<["cacheWrite" := Store.VNum 0%Z]> ∅))))]> ∅))).

Definition cfgAt (path : string) : OpenClawConfig :=
  mkConfig (Some (mkSessionConfig (Some path))).

Definition send (key text : string) : SendToSessionParams :=
  mkParams key text None (Some (cfgAt "sessions.json")) None None.

(** What delivery is expected to receive for the session "telegram:123". *)
Definition deliverArgs (text : string) : DeliverParams :=
  mkDeliverParams (cfgAt "sessions.json") "telegram" "456" (Some "bot1")
    [mkReplyPayload (Some text) None] (Some "789") None.

End Sample.

(** ** agent-runner-utils.ts: the threading context of the tools *)

Module ThreadingContext.
Import JsLower SendToSession.

(** The fields of the template context that [buildThreadingToolContext]
    reads. *)
Record TemplateContext := mkTemplateContext {
  Provider : option string;
  From : option string;
  To : option string;
  ChatType : option string;
  ReplyToId : option string;
  ThreadLabel : option string;
  MessageThreadId : option string;
  AccountId : option string;
}.

(** The values a tool context holds: strings, booleans, the shared
    [hasRepliedRef] object, or [undefined] under a key that is set. *)
Inductive CtxValue (Ref : Type) :=
| CtxUndefined
| CtxBool (b : bool)
| CtxString (s : string)
| CtxRef (r : Ref).
Arguments CtxUndefined {Ref}.
Arguments CtxBool {Ref}.
Arguments CtxString {Ref}.
Arguments CtxRef {Ref}.

(** The argument object of a dock's [buildToolContext]. *)
Record BuildToolContextArgs (Ref : Type) := mkBuildArgs {
  b_cfg : OpenClawConfig;
  b_accountId : option string;
  b_Channel : option string;
  b_From : option string;
  b_To : option string;
  b_ChatType : option string;
  b_ReplyToId : option string;
  b_ThreadLabel : option string;
  b_MessageThreadId : option string;
  b_hasRepliedRef : option Ref;
}.
Arguments mkBuildArgs {Ref}.

(** The channel registry and the docks: [normalizeChannelId],
    [normalizeAnyChannelId], and [getChannelDock(provider)?.threading?.
    buildToolContext], which is missing when the channel has no dock, no
    threading or no builder. *)
Class ChannelRegistry (Ref : Type) := {
  normalizeChannelId : string -> option string;
  normalizeAnyChannelId : string -> option string;
  dockBuildToolContext :
    string -> option (BuildToolContextArgs Ref -> option (gmap string (CtxValue Ref)));
}.

Section Build.
Context {Ref : Type} `{!JsLowerCase} `{!ChannelRegistry Ref}.

(** [sessionCtx.Provider?.trim().toLowerCase()] *)
Definition rawProviderOf (sessionCtx : TemplateContext) : option string :=
  option_map (fun p => toLowerCase (trim p)) (Provider sessionCtx).

(** [normalizeChannelId(rawProvider) ?? normalizeAnyChannelId(rawProvider)] *)
Definition providerOf (rawProvider : string) : option string :=
  match normalizeChannelId rawProvider with
  | Some p => Some p
  | None => normalizeAnyChannelId rawProvider
  end.

(** [buildThreadingToolContext({ sessionCtx, config, hasRepliedRef })] *)
Definition buildThreadingToolContext (sessionCtx : TemplateContext)
    (config : option OpenClawConfig) (hasRepliedRef : option Ref)
  : gmap string (CtxValue Ref) :=
  match config with
  | None => ∅
  | Some config =>
      let rawProvider := rawProviderOf sessionCtx in
      if negb (truthy rawProvider) then ∅
      else
        let rawProvider := default "" rawProvider in
        let provider := providerOf rawProvider in
        let builder :=
          if truthy provider then dockBuildToolContext (default "" provider) else None in
        match builder with
        | None =>
            let to := option_map trim (To sessionCtx) in
            <["currentChannelId" :=
                if truthy to then CtxString (default "" to) else CtxUndefined]>
              (<["currentChannelProvider" := CtxString (default rawProvider provider)]>
                 (<["hasRepliedRef" := from_option CtxRef CtxUndefined hasRepliedRef]> ∅))
        | Some build =>
            let context :=
              default ∅
                (build (mkBuildArgs config (AccountId sessionCtx) (Provider sessionCtx)
                          (From sessionCtx) (To sessionCtx) (ChatType sessionCtx)
                          (ReplyToId sessionCtx) (ThreadLabel sessionCtx)
                          (MessageThreadId sessionCtx) hasRepliedRef)) in
            <["currentChannelProvider" := CtxString (default "" provider)]> context
        end
  end.

End Build.

End ThreadingContext.

(** ** A sample lower-casing

    The ASCII mapping on every string: what [toLowerCase] is on the inputs the
    examples use. *)

Module AsciiCase.
Import JsLower.

Definition lowerCase : JsLowerCase := {|
  toLowerCase := lower_ascii;
  toLowerCase_ascii := fun s _ => eq_refl;
|}.

(** A registry that knows telegram and slack, slack alone having a dock; the
    dock reports the channel and tries to name a provider of its own. *)
Definition registry : ThreadingContext.ChannelRegistry unit := {|
  ThreadingContext.normalizeChannelId c :=
    if String.eqb c "telegram" || String.eqb c "slack" then Some c else None;
  ThreadingContext.normalizeAnyChannelId _ := None;
  ThreadingContext.dockBuildToolContext c :=
    if String.eqb c "slack"
    then Some (fun args =>
                 Some (<["currentChannelId" :=
                           from_option ThreadingContext.CtxString
                             ThreadingContext.CtxUndefined
                             (ThreadingContext.b_To unit args)]>
                         (<["currentChannelProvider" := ThreadingContext.CtxString "dock"]>
                            ∅)))
    else None;
|}.

Definition fromSlack : ThreadingContext.TemplateContext :=
  ThreadingContext.mkTemplateContext (Some " Slack ") None (Some "channel:C1")
    None None None None None.

End AsciiCase.

(** Reading the properties of an object literal. *)
Ltac read_literal :=
  unfold Store.prop;
  repeat (rewrite lookup_insert_eq || (rewrite lookup_insert_ne by discriminate));
  cbn [default from_option id].

(** * Properties *)

(** ** String primitives *)

Section StringFacts.

Lemma append_assoc (a b c : string) : (a +:+ b) +:+ c = a +:+ b +:+ c.
Proof. induction a as [|x a IH]; simpl; [reflexivity | now rewrite IH]. Qed.

Lemma append_empty_r (a : string) : a +:+ "" = a.
Proof. induction a as [|x a IH]; simpl; [reflexivity | now rewrite IH]. Qed.

Lemma prefix_append (a b : string) : String.prefix a (a +:+ b) = true.
Proof.
  induction a as [|x a IH]; simpl.
  - now destruct b.
  - destruct (Ascii.ascii_dec x x); [exact IH | congruence].
Qed.

Lemma includes_prefix (hay needle : string) :
  String.prefix needle hay = true -> includes hay needle = true.
Proof. intros H. destruct hay; cbn [includes]; rewrite H; reflexivity. Qed.

Lemma includes_append (pre mid post : string) :
  includes (pre +:+ mid +:+ post) mid = true.
Proof.
  induction pre as [|x pre IH].
  - change ("" +:+ mid +:+ post) with (mid +:+ post).
    apply includes_prefix, prefix_append.
  - change (String x pre +:+ mid +:+ post) with (String x (pre +:+ mid +:+ post)).
    cbn [includes]. rewrite IH. apply orb_true_r.
Qed.

Lemma is_empty_true (s : string) : is_empty s = true <-> s = "".
Proof. destruct s; simpl; split; congruence. Qed.

Lemma is_empty_false (s : string) : is_empty s = false <-> s <> "".
Proof. destruct s; simpl; split; congruence. Qed.

(** *** The case-insensitive test finds exactly the folded substrings *)

Lemma ci_prefix_spec (pat s : string) :
  ci_prefix pat s = true <->
  exists mid post, s = mid +:+ post /\ fold_case mid = fold_case pat.
Proof.
  revert s; induction pat as [|p pat IH]; intros s; simpl.
  - split; [intros _ | reflexivity].
    exists "", s. split; reflexivity.
  - destruct s as [|c s].
    + split; [discriminate |].
      intros (mid & post & Hs & Hf). destruct mid; discriminate.
    + rewrite andb_true_iff, Ascii.eqb_eq, IH. split.
      * intros (Hc & mid & post & -> & Hf).
        exists (String c mid), post. simpl. split; [reflexivity | congruence].
      * intros (mid & post & Hs & Hf).
        destruct mid as [|m mid]; [discriminate |].
        simpl in Hs, Hf. injection Hs as -> ->. injection Hf as Hc Hf.
        split; [congruence | exists mid, post; split; [reflexivity | exact Hf]].
Qed.

Lemma ci_test_spec (pat s : string) :
  ci_test pat s = true <-> ci_matches pat s.
Proof.
  unfold ci_matches. induction s as [|c s IH].
  - simpl. rewrite orb_false_r, ci_prefix_spec. split.
    + intros (mid & post & H & Hf). exists "", mid, post. auto.
    + intros (pre & mid & post & H & Hf).
      destruct pre; [| discriminate]. exists mid, post. auto.
  - cbn [ci_test]. rewrite orb_true_iff, ci_prefix_spec, IH. split.
    + intros [(mid & post & H & Hf) | (pre & mid & post & H & Hf)].
      * exists "", mid, post. auto.
      * exists (String c pre), mid, post. simpl. split; congruence.
    + intros (pre & mid & post & H & Hf). destruct pre as [|x pre].
      * left. exists mid, post. auto.
      * right. simpl in H. injection H as -> ->. exists pre, mid, post. auto.
Qed.

(** *** Trimming keeps every byte that is neither white space nor part of a
    multi-byte character *)

Lemma all_bytes_append P (a b : string) :
  all_bytes P (a +:+ b) = all_bytes P a && all_bytes P b.
Proof. induction a as [|x a IH]; simpl; [reflexivity | now rewrite IH, andb_assoc]. Qed.

Lemma ws2_bytes c1 c2 : ws2 c1 c2 = true -> ws_byte c1 = true /\ ws_byte c2 = true.
Proof.
  unfold ws2, ws_byte, byte_is. rewrite andb_true_iff, !N.eqb_eq.
  intros [-> ->]. split; apply orb_true_r.
Qed.

Lemma ws3_bytes c1 c2 c3 :
  ws3 c1 c2 c3 = true ->
  ws_byte c1 = true /\ ws_byte c2 = true /\ ws_byte c3 = true.
Proof.
  unfold ws3, ws_byte, byte_is, byte_in.
  rewrite !orb_true_iff, !andb_true_iff, !orb_true_iff, !andb_true_iff,
    !N.eqb_eq, !N.leb_le.
  intros H. repeat split; right; lia.
Qed.

Lemma all_ws_bytes (n : nat) (s : string) :
  String.length s <= n -> all_ws s = true -> all_bytes ws_byte s = true.
Proof.
  revert s; induction n as [|n IH]; intros s Hn.
  - destruct s; [reflexivity | simpl in Hn; lia].
  - destruct s as [|c1 r1]; [reflexivity |]. simpl in Hn. cbn [all_ws all_bytes].
    destruct (ws1 c1) eqn:E1.
    + intros H. unfold ws_byte at 1. rewrite E1. simpl. apply IH; [lia | exact H].
    + destruct r1 as [|c2 r2]; [discriminate |]. simpl in Hn.
      destruct (ws2 c1 c2) eqn:E2.
      * intros H. apply ws2_bytes in E2 as [H1 H2]. cbn [all_bytes].
        rewrite H1, H2. simpl. apply IH; [lia | exact H].
      * destruct r2 as [|c3 r3]; [discriminate |]. simpl in Hn.
        destruct (ws3 c1 c2 c3) eqn:E3; [| discriminate].
        intros H. apply ws3_bytes in E3 as (H1 & H2 & H3). cbn [all_bytes].
        rewrite H1, H2, H3. simpl. apply IH; [lia | exact H].
Qed.

Lemma trimStart_bytes (n : nat) (s : string) :
  String.length s <= n ->
  all_bytes ws_byte (trimStart s) = true -> all_bytes ws_byte s = true.
Proof.
  revert s; induction n as [|n IH]; intros s Hn.
  - destruct s; [reflexivity | simpl in Hn; lia].
  - destruct s as [|c1 r1]; [reflexivity |]. simpl in Hn. cbn [trimStart].
    destruct (ws1 c1) eqn:E1.
    + intros H. cbn [all_bytes]. unfold ws_byte at 1. rewrite E1. simpl.
      apply IH; [lia | exact H].
    + destruct r1 as [|c2 r2]; [auto |]. simpl in Hn.
      destruct (ws2 c1 c2) eqn:E2.
      * intros H. apply ws2_bytes in E2 as [H1 H2]. cbn [all_bytes].
        rewrite H1, H2. simpl. apply IH; [lia | exact H].
      * destruct r2 as [|c3 r3]; [auto |]. simpl in Hn.
        destruct (ws3 c1 c2 c3) eqn:E3; [| auto].
        intros H. apply ws3_bytes in E3 as (H1 & H2 & H3). cbn [all_bytes].
        rewrite H1, H2, H3. simpl. apply IH; [lia | exact H].
Qed.

Lemma trimEnd_empty (s : string) : trimEnd s = "" -> all_ws s = true.
Proof.
  destruct s as [|c r]; [reflexivity |]. cbn [trimEnd].
  destruct (all_ws (String c r)); [reflexivity | discriminate].
Qed.

Lemma trim_empty_bytes (s : string) : trim s = "" -> all_bytes ws_byte s = true.
Proof.
  unfold trim. intros H. apply trimEnd_empty in H.
  apply (trimStart_bytes (String.length s)); [lia |].
  apply (all_ws_bytes (String.length (trimStart s))); [lia | exact H].
Qed.

(** A character that folds onto an upper-case ASCII letter is a letter. *)
Lemma canonicalize_letter (c : ascii) :
  byte_in 65 90 (canonicalize c) = true -> ws_byte c = false.
Proof.
  destruct c as [[] [] [] [] [] [] [] []]; vm_compute; congruence.
Qed.

Lemma ci_matches_not_blank (pat s : string) (p : ascii) (pat' : string) :
  pat = String p pat' -> byte_in 65 90 (canonicalize p) = true ->
  ci_matches pat s -> trim s <> "".
Proof.
  intros -> Hp (pre & mid & post & -> & Hf) Ht.
  apply trim_empty_bytes in Ht.
  destruct mid as [|m mid]; [discriminate |].
  simpl in Hf. injection Hf as Hm _.
  rewrite all_bytes_append in Ht. simpl in Ht.
  rewrite (canonicalize_letter m) in Ht by congruence.
  simpl in Ht. rewrite andb_false_r in Ht. discriminate.
Qed.

End StringFacts.

(** ** Connection-failure wording *)

Section BunFetch.
Import AgentRunnerUtils.

Lemma formatBunFetchSocketError_eq (message : string) :
  formatBunFetchSocketError message =
  BUN_FETCH_BANNER +:+ LF +:+ FENCE +:+ LF
    +:+ (if is_empty (trim message) then "Unknown error" else trim message)
    +:+ LF +:+ FENCE.
Proof. reflexivity. Qed.

Lemma banner_prefix (rest : string) :
  String.prefix "⚠️ LLM connection failed." (BUN_FETCH_BANNER +:+ rest) = true.
Proof.
  change BUN_FETCH_BANNER with
    ("⚠️ LLM connection failed." +:+
     " This could be due to server issues, network problems, or context length exceeded (e.g., with local LLMs like LM Studio). Original error:").
  rewrite append_assoc. apply prefix_append.
Qed.

(** C8. [isBunFetchSocketError] holds of a message exactly when the message
    is present, non-empty and has a substring equal, up to the case of ASCII
    letters, to "socket connection was closed unexpectedly".  The text that
    [formatBunFetchSocketError] builds always begins with
    "⚠️ LLM connection failed." and ends with a fenced block; for a message
    the detector accepts the block holds the trimmed message, which is then
    never empty, and for a message that trims to nothing it holds
    "Unknown error". *)
Theorem bun_fetch_socket_error_wording :
  (forall message : option string,
      isBunFetchSocketError message = true <->
      exists m, message = Some m /\ m <> "" /\
                ci_matches "socket connection was closed unexpectedly" m) /\
  (forall m : string,
      isBunFetchSocketError (Some m) = true ->
      trim m <> "" /\
      String.prefix "⚠️ LLM connection failed." (formatBunFetchSocketError m) = true /\
      formatBunFetchSocketError m =
        BUN_FETCH_BANNER +:+ LF +:+ "```" +:+ LF +:+ trim m +:+ LF +:+ "```" /\
      includes (formatBunFetchSocketError m)
               ("```" +:+ LF +:+ trim m +:+ LF +:+ "```") = true) /\
  (forall m : string,
      trim m = "" ->
      String.prefix "⚠️ LLM connection failed." (formatBunFetchSocketError m) = true /\
      formatBunFetchSocketError m =
        BUN_FETCH_BANNER +:+ LF +:+ "```" +:+ LF +:+ "Unknown error" +:+ LF +:+ "```").
Proof.
  assert (Hdet : forall message : option string,
      isBunFetchSocketError message = true <->
      exists m, message = Some m /\ m <> "" /\
                ci_matches "socket connection was closed unexpectedly" m).
  { intros [m|]; unfold isBunFetchSocketError.
    - destruct (is_empty m) eqn:E.
      + apply is_empty_true in E. split; [discriminate |].
        intros (m' & [= <-] & Hne & _). contradiction.
      + apply is_empty_false in E.
        change BUN_FETCH_SOCKET_ERROR_RE with "socket connection was closed unexpectedly".
        rewrite ci_test_spec. split.
        * intros H. exists m. auto.
        * intros (m' & [= <-] & _ & H). exact H.
    - split; [discriminate | intros (m & [=] & _)]. }
  split; [exact Hdet |]. split.
  - intros m Hm. apply Hdet in Hm as (m' & [= <-] & _ & Hmatch).
    assert (Hne : trim m <> "").
    { eapply ci_matches_not_blank; [reflexivity | | exact Hmatch]. reflexivity. }
    split; [exact Hne |]. rewrite formatBunFetchSocketError_eq.
    apply is_empty_false in Hne. rewrite Hne. change FENCE with "```".
    split; [apply banner_prefix |]. split; [reflexivity |].
    pose proof (includes_append (BUN_FETCH_BANNER +:+ LF)
                  ("```" +:+ LF +:+ trim m +:+ LF +:+ "```") "") as H.
    rewrite !append_assoc, append_empty_r in H. exact H.
  - intros m Hm. rewrite formatBunFetchSocketError_eq, Hm. simpl is_empty. cbv iota.
    split; [apply banner_prefix | reflexivity].
Qed.

End BunFetch.

(** ** The usage line and its place in the payloads *)

Section AppendUsageLine.
Import Thinking AgentRunnerUtils.

Lemma truthy_Some (o : option string) :
  truthy o = true <-> exists t, o = Some t /\ t <> "".
Proof.
  destruct o as [t|]; simpl.
  - rewrite negb_true_iff, is_empty_false. split; [eauto |].
    intros (t' & [= <-] & H). exact H.
  - split; [discriminate | intros (t & [=] & _)].
Qed.

(** The scan stops at the last payload, below [n], whose text is non-empty. *)
Lemma lastTextIndex_Some (payloads : list ReplyPayload) (n i : nat) :
  lastTextIndex payloads n = Some i ->
  i < n /\
  (exists p, payloads !! i = Some p /\ truthy (text p) = true) /\
  (forall j p, i < j < n -> payloads !! j = Some p -> truthy (text p) = false).
Proof.
  induction n as [|n IH]; simpl; [discriminate |].
  destruct (payloads !! n) as [p|] eqn:En.
  - destruct (truthy (text p)) eqn:Et.
    + intros [= <-]. split; [lia |]. split; [eauto |]. intros j q Hj. lia.
    + intros H. destruct (IH H) as (Hlt & Hp & Hafter).
      split; [lia |]. split; [exact Hp |]. intros j q Hj Hq.
      destruct (decide (j = n)) as [->|Hne].
      * congruence.
      * apply (Hafter j q); [lia | exact Hq].
  - intros H. destruct (IH H) as (Hlt & Hp & Hafter).
    split; [lia |]. split; [exact Hp |]. intros j q Hj Hq.
    destruct (decide (j = n)) as [->|Hne].
    + congruence.
    + apply (Hafter j q); [lia | exact Hq].
Qed.

Lemma lastTextIndex_None (payloads : list ReplyPayload) (n : nat) :
  lastTextIndex payloads n = None ->
  forall j p, j < n -> payloads !! j = Some p -> truthy (text p) = false.
Proof.
  induction n as [|n IH]; simpl; [intros _ j p Hj; lia |].
  destruct (payloads !! n) as [p|] eqn:En.
  - destruct (truthy (text p)) eqn:Et; [discriminate |].
    intros H j q Hj Hq. destruct (decide (j = n)) as [->|Hne].
    + congruence.
    + apply (IH H j q); [lia | exact Hq].
  - intros H j q Hj Hq. destruct (decide (j = n)) as [->|Hne].
    + congruence.
    + apply (IH H j q); [lia | exact Hq].
Qed.

(** The two ways out of [appendUsageLine]. *)
Lemma appendUsageLine_cases (payloads : list ReplyPayload) (line : string) :
  (exists i existing t,
      lastTextIndex payloads (length payloads) = Some i /\
      payloads !! i = Some existing /\ text existing = Some t /\ t <> "" /\
      appendUsageLine payloads line =
        <[i := mkReplyPayload (Some (trimEnd t +:+ FOOTER_DELIMITER +:+ line))
                              (mediaUrl existing)]> payloads) \/
  (lastTextIndex payloads (length payloads) = None /\
   appendUsageLine payloads line = payloads ++ [mkReplyPayload (Some line) None]).
Proof.
  unfold appendUsageLine.
  destruct (lastTextIndex payloads (length payloads)) as [i|] eqn:E; [left | right; auto].
  destruct (lastTextIndex_Some _ _ _ E) as (_ & (p & Hp & Ht) & _).
  apply truthy_Some in Ht as (t & Ht & Hne).
  exists i, p, t. rewrite Hp, Ht. simpl. auto.
Qed.

(** C7. When some payload has a non-empty text, [appendUsageLine] returns a
    list of the same length in which the last such payload has its text
    replaced by that text without its trailing white space, the delimiter
    "\n\n--\n" and the line, its other field being kept, and every other
    position holds what it held; when no payload has a non-empty text, the
    payloads are returned followed by a new payload carrying the line. *)
Theorem appendUsageLine_frame (payloads : list ReplyPayload) (line : string) :
  ((exists p, p ∈ payloads /\ truthy (text p) = true) ->
   exists i existing t,
     payloads !! i = Some existing /\ text existing = Some t /\ t <> "" /\
     (forall j p, i < j -> payloads !! j = Some p -> truthy (text p) = false) /\
     length (appendUsageLine payloads line) = length payloads /\
     appendUsageLine payloads line !! i =
       Some (mkReplyPayload
               (Some (trimEnd t +:+ LF +:+ LF +:+ "--" +:+ LF +:+ line))
               (mediaUrl existing)) /\
     (forall j, j <> i -> appendUsageLine payloads line !! j = payloads !! j)) /\
  ((forall p, p ∈ payloads -> truthy (text p) = false) ->
   appendUsageLine payloads line = payloads ++ [mkReplyPayload (Some line) None]).
Proof.
  destruct (appendUsageLine_cases payloads line)
    as [(i & existing & t & Hidx & Hi & Ht & Hne & Heq) | (Hidx & Heq)].
  - split.
    + intros _. exists i, existing, t.
      destruct (lastTextIndex_Some _ _ _ Hidx) as (Hlt & _ & Hafter).
      split; [exact Hi |]. split; [exact Ht |]. split; [exact Hne |]. split.
      { intros j p Hj Hp. apply (Hafter j p); [| exact Hp].
        split; [exact Hj |]. apply lookup_lt_Some in Hp. exact Hp. }
      rewrite Heq. split; [apply length_insert |]. split.
      * rewrite list_lookup_insert_eq by exact Hlt.
        unfold FOOTER_DELIMITER. rewrite !append_assoc. reflexivity.
      * intros j Hj. apply list_lookup_insert_ne. congruence.
    + intros Hnone. exfalso.
      assert (truthy (text existing) = false) as Hf.
      { apply Hnone. apply list_elem_of_lookup. eauto. }
      rewrite Ht in Hf. simpl in Hf. apply negb_false_iff, is_empty_true in Hf.
      contradiction.
  - split; [| intros _; exact Heq].
    intros (p & Hp & Htrue). exfalso.
    apply list_elem_of_lookup in Hp as (j & Hj).
    pose proof (lastTextIndex_None _ _ Hidx j p (lookup_lt_Some _ _ _ Hj) Hj).
    congruence.
Qed.

(** The line always ends up at the end of the text of some payload. *)
Lemma appendUsageLine_carries (payloads : list ReplyPayload) (line : string) :
  exists p before,
    p ∈ appendUsageLine payloads line /\ text p = Some (before +:+ line).
Proof.
  destruct (appendUsageLine_cases payloads line)
    as [(i & existing & t & Hidx & Hi & Ht & Hne & Heq) | (Hidx & Heq)];
    rewrite Heq.
  - eexists _, (trimEnd t +:+ FOOTER_DELIMITER). split.
    + apply list_elem_of_lookup. exists i.
      apply list_lookup_insert_eq. apply lookup_lt_Some in Hi. exact Hi.
    + simpl. rewrite append_assoc. reflexivity.
  - eexists _, "". split.
    + apply elem_of_app. right. apply list_elem_of_singleton. reflexivity.
    + reflexivity.
Qed.

End AppendUsageLine.

(** C7, on the reply [[{ text: "ok  " }, { mediaUrl: "u" }]] and on a reply
    that has no text. *)
Lemma appendUsageLine_frame_witness :
  let reply := [mkReplyPayload (Some "ok  ") None; mkReplyPayload None (Some "u")] in
  let media := [mkReplyPayload None (Some "u"); mkReplyPayload (Some "") None] in
  ((exists p, p ∈ reply /\ truthy (text p) = true) /\
   exists i existing t,
     reply !! i = Some existing /\ text existing = Some t /\ t <> "" /\
     (forall j p, i < j -> reply !! j = Some p -> truthy (text p) = false) /\
     length (AgentRunnerUtils.appendUsageLine reply "Usage: 12 in / 3 out") = length reply /\
     AgentRunnerUtils.appendUsageLine reply "Usage: 12 in / 3 out" !! i =
       Some (mkReplyPayload
               (Some (trimEnd t +:+ LF +:+ LF +:+ "--" +:+ LF +:+ "Usage: 12 in / 3 out"))
               (mediaUrl existing)) /\
     (forall j, j <> i ->
        AgentRunnerUtils.appendUsageLine reply "Usage: 12 in / 3 out" !! j = reply !! j)) /\
  ((forall p, p ∈ media -> truthy (text p) = false) /\
   AgentRunnerUtils.appendUsageLine media "Usage: 12 in / 3 out" =
     media ++ [mkReplyPayload (Some "Usage: 12 in / 3 out") None]).
Proof.
  intros reply media. split.
  - assert (H : exists p, p ∈ reply /\ truthy (text p) = true).
    { exists (mkReplyPayload (Some "ok  ") None). split; [left | reflexivity]. }
    split; [exact H |].
    exact (proj1 (appendUsageLine_frame reply "Usage: 12 in / 3 out") H).
  - assert (H : forall p, p ∈ media -> truthy (text p) = false).
    { intros p Hp. apply list_elem_of_In in Hp.
      destruct Hp as [<- | [<- | []]]; reflexivity. }
    split; [exact H |].
    exact (proj2 (appendUsageLine_frame media "Usage: 12 in / 3 out") H).
Defined.

(** ** The usage line *)

Section UsageLine.
Import Thinking AgentRunnerUtils.
Context {number : Type} `{!JsPrimitives number} `{!UsageFormat number}.

(** The stages after the first only add to the end of [parts]. *)
Lemma costPortion_extends showCost (usage : NormalizedUsage number) costConfig
    (parts : list string) :
  exists more, costPortion showCost usage costConfig parts = parts ++ more.
Proof.
  unfold costPortion.
  destruct showCost, (u_input usage), (u_output usage);
    try (exists []; rewrite app_nil_r; reflexivity).
  destruct (formatUsd _) as [costLabel|]; [| exists []; rewrite app_nil_r; reflexivity].
  destruct (is_empty costLabel); [exists []; rewrite app_nil_r; reflexivity |].
  destruct (0 <? length parts); eexists; reflexivity.
Qed.

Lemma contextPortion_extends showContext (used max : option number)
    (parts : list string) :
  exists more, contextPortion showContext used max parts = parts ++ more.
Proof.
  unfold contextPortion.
  destruct showContext; [| exists []; rewrite app_nil_r; reflexivity].
  destruct (formatContextPercent used max) as [contextLabel|];
    [| exists []; rewrite app_nil_r; reflexivity].
  destruct (is_empty contextLabel); [exists []; rewrite app_nil_r; reflexivity |].
  destruct (0 <? length parts); eexists; reflexivity.
Qed.

(** A non-empty [parts] is joined into a line that starts with its head. *)
Lemma joinParts_head (p : string) (rest : list string) :
  exists tail, joinParts (p :: rest) = Some (p +:+ tail).
Proof.
  destruct rest as [|q rest]; simpl.
  - exists "". rewrite append_empty_r. reflexivity.
  - eexists. reflexivity.
Qed.

(** Whatever the later stages add, the line starts with the first part. *)
Lemma later_stages_keep_head showCost showContext (usage : NormalizedUsage number)
    costConfig (used max : option number) (head : string) :
  exists tail,
    joinParts
      (contextPortion showContext used max
         (costPortion showCost usage costConfig [head])) = Some (head +:+ tail).
Proof.
  destruct (costPortion_extends showCost usage costConfig [head]) as [more1 ->].
  destruct (contextPortion_extends showContext used max ([head] ++ more1)) as [more2 ->].
  apply joinParts_head.
Qed.

(** With the token counts shown, the line starts with them. *)
Lemma formatResponseUsageLine_tokens (params : UsageLineParams number)
    (usage : NormalizedUsage number) (flags : ResponseUsageFlags) :
  p_usage params = Some usage ->
  (is_number (u_input usage) = true \/ is_number (u_output usage) = true) ->
  p_flags params = Some flags ->
  f_tokens flags = Some true ->
  exists tail,
    formatResponseUsageLine params =
      Some (("Usage: " +:+ from_option formatTokenCount "?" (u_input usage)
             +:+ " in / " +:+ from_option formatTokenCount "?" (u_output usage)
             +:+ " out") +:+ tail).
Proof.
  intros Hu Hnum Hf Ht. unfold formatResponseUsageLine. rewrite Hu, Hf.
  assert (negb (is_number (u_input usage)) && negb (is_number (u_output usage)) = false)
    as ->.
  { destruct Hnum as [-> | ->]; [reflexivity | apply andb_false_r]. }
  cbn [from_option]. rewrite Ht. cbn [Boolean default negb andb].
  unfold tokensPortion. cbn [app]. apply later_stages_keep_head.
Qed.

(** C5. For a usage record with numeric input count [N] and output count [M]
    and flags whose [tokens] is true, [formatResponseUsageLine] returns a line
    that starts with, and so contains, "Usage: <N formatted> in /
    <M formatted> out"; appended to any reply, the line puts that text into a
    payload. *)
Theorem usage_line_shows_tokens (params : UsageLineParams number)
    (usage : NormalizedUsage number) (N M : number) (flags : ResponseUsageFlags)
    (payloads : list ReplyPayload) :
  p_usage params = Some usage ->
  u_input usage = Some N ->
  u_output usage = Some M ->
  p_flags params = Some flags ->
  f_tokens flags = Some true ->
  let counts :=
    "Usage: " +:+ formatTokenCount N +:+ " in / " +:+ formatTokenCount M +:+ " out" in
  exists line,
    formatResponseUsageLine params = Some line /\
    String.prefix counts line = true /\
    includes line counts = true /\
    exists p t, p ∈ appendUsageLine payloads line /\ text p = Some t /\
                includes t counts = true.
Proof.
  intros Hu Hin Hout Hf Ht counts.
  destruct (formatResponseUsageLine_tokens params usage flags Hu) as [tail Hline];
    [rewrite Hin; left; reflexivity | exact Hf | exact Ht |].
  rewrite Hin, Hout in Hline. cbn [from_option] in Hline. fold counts in Hline.
  exists (counts +:+ tail). split; [exact Hline |].
  split; [apply prefix_append |].
  split; [apply (includes_append "" counts tail) |].
  destruct (appendUsageLine_carries payloads (counts +:+ tail)) as (p & before & Hp & Htext).
  exists p, (before +:+ counts +:+ tail).
  split; [exact Hp |]. split; [exact Htext |]. apply includes_append.
Qed.

(** With flags given and none of them set there is nothing to show. *)
Lemma formatResponseUsageLine_flags_off (params : UsageLineParams number)
    (flags : ResponseUsageFlags) :
  p_flags params = Some flags ->
  hasAnyUsageFlag (Some flags) = false ->
  formatResponseUsageLine params = None.
Proof.
  intros Hf Hoff. unfold formatResponseUsageLine. rewrite Hf.
  destruct (p_usage params) as [usage|]; [| reflexivity].
  destruct (negb (is_number (u_input usage)) && negb (is_number (u_output usage)));
    [reflexivity |].
  simpl in *. apply orb_false_iff in Hoff as [Hoff Hctx].
  apply orb_false_iff in Hoff as [Htok Hcost].
  rewrite Htok, Hcost, Hctx. reflexivity.
Qed.

Lemma flags_off (flags : ResponseUsageFlags) :
  f_tokens flags <> Some true -> f_cost flags <> Some true ->
  f_context flags <> Some true ->
  hasAnyUsageFlag (Some flags) = false.
Proof.
  unfold hasAnyUsageFlag, Boolean.
  destruct (f_tokens flags) as [[]|], (f_cost flags) as [[]|],
    (f_context flags) as [[]|]; simpl; congruence.
Qed.

(** C6. When a flags object is given in which [tokens], [cost] and [context]
    are each absent or false, [formatResponseUsageLine] returns null whatever
    the usage, the legacy [showCost] switch and the context counts are, and
    [hasAnyUsageFlag] is false of those flags.  Given as the flags of the
    session, they are the flags in force whatever the channel and global
    defaults are, and the annotation step of the runner, modelled from the
    specification, appends no line: the payloads pass through unchanged. *)
Theorem explicit_empty_flags_suppress_usage_line (flags : ResponseUsageFlags) :
  f_tokens flags <> Some true ->
  f_cost flags <> Some true ->
  f_context flags <> Some true ->
  (forall params : UsageLineParams number,
      p_flags params = Some flags -> formatResponseUsageLine params = None) /\
  hasAnyUsageFlag (Some flags) = false /\
  (forall (channelDefault globalDefault : option ResponseUsageFlags)
          (usage : option (NormalizedUsage number))
          (costConfig : option (CostConfig number))
          (contextUsedTokens contextMaxTokens : option number)
          (payloads : list ReplyPayload),
      UsageAnnotator.resolveResponseUsageFlags (Some flags) channelDefault globalDefault
        = Some flags /\
      formatResponseUsageLine
        (mkUsageLineParams usage false costConfig
           (UsageAnnotator.resolveResponseUsageFlags (Some flags)
              channelDefault globalDefault)
           contextUsedTokens contextMaxTokens) = None /\
      UsageAnnotator.annotate (Some flags) channelDefault globalDefault
        usage costConfig contextUsedTokens contextMaxTokens payloads = payloads).
Proof.
  intros Ht Hc Hx. pose proof (flags_off flags Ht Hc Hx) as Hoff.
  split; [| split; [exact Hoff |]].
  - intros params Hf. apply (formatResponseUsageLine_flags_off params flags Hf Hoff).
  - intros channelDefault globalDefault usage costConfig used max payloads.
    split; [reflexivity |]. split.
    + apply (formatResponseUsageLine_flags_off _ flags); [reflexivity | exact Hoff].
    + unfold UsageAnnotator.annotate, UsageAnnotator.resolveResponseUsageFlags.
      rewrite Hoff. reflexivity.
Qed.

End UsageLine.

(** ** Sending to a session *)

Section SendFacts.
Import SendToSession.
Context {thrown : Type} `{!Collaborators thrown}.

(** [sendToSession] in direct style: the trace grows by one call at each
    guarded step; a path ends in a value, or in what an unguarded call
    throws. *)
Lemma sendToSession_run (params : SendToSessionParams) (tr : list Call) :
  sendToSession params tr =
  let tr1 := match cfg params with Some _ => tr | None => tr ++ [CallLoadConfig] end in
  match effectiveConfig params with
  | Throw err => (failure "Failed to load config: " err, tr1)
  | Normal c =>
      match storePathFor c params with
      | Throw e => (Throw e, tr1)
      | Normal storePath =>
          let tr2 := tr1 ++ [CallLoadSessionStore storePath] in
          match loadSessionStore storePath with
          | Throw err => (failure "Failed to load session store: " err, tr2)
          | Normal st =>
              match getMember st (sessionKey params) with
              | None =>
                  (Normal (Failed ("Session not found: " +:+ sessionKey params)), tr2)
              | Some entry =>
                  match resolveOutboundChannel (get lastChannel entry) with
                  | Throw e => (Throw e, tr2)
                  | Normal None =>
                      (Normal (Failed ("No channel found for session: "
                                       +:+ sessionKey params)), tr2)
                  | Normal (Some channel) =>
                      match get lastTo entry with
                      | Some (String a to') =>
                          let args :=
                            mkDeliverParams c channel (String a to')
                              (get lastAccountId entry)
                              (buildPayloads (msgText params) (mediaUrls params))
                              (get lastThreadId entry) (bestEffort params) in
                          (match deliverOutboundPayloads args with
                           | Normal results => Normal (Ok results)
                           | Throw err => failure "Delivery failed: " err
                           end, tr2 ++ [CallDeliver args])
                      | _ =>
                          (Normal (Failed ("No destination found for session: "
                                           +:+ sessionKey params)), tr2)
                      end
                  end
              end
          end
      end
  end.
Proof.
  unfold sendToSession, effectiveConfig, storePathFor, failure. cbv zeta.
  unfold mbind, M_bind, bind, try_, call, eval, ret.
  destruct (cfg params) as [c|]; [| destruct loadConfig as [c|err]].
  3:{ destruct (String_ err); reflexivity. }
  all: destruct (resolveStorePath _ _) as [storePath|e]; [| reflexivity].
  all: destruct (loadSessionStore storePath) as [st|err];
    [| destruct (String_ err); reflexivity].
  all: destruct (getMember st (sessionKey params)) as [entry|]; [| reflexivity].
  all: destruct (resolveOutboundChannel (get lastChannel entry)) as [[channel|]|e];
    try reflexivity.
  all: destruct (get lastTo entry) as [[|a to']|]; try reflexivity.
  all: simpl; destruct (deliverOutboundPayloads _) as [results|err]; [reflexivity |].
  all: destruct (String_ err); reflexivity.
Qed.

(** The trace up to the reading of the session store holds no delivery. *)
Lemma no_delivery_before_store (params : SendToSessionParams) (path : string) :
  deliveries
    (match cfg params with Some _ => [] | None => [] ++ [CallLoadConfig] end
     ++ [CallLoadSessionStore path]) = [].
Proof. destruct (cfg params); reflexivity. Qed.


Lemma deliveries_snoc (tr : list Call) (args : DeliverParams) :
  deliveries (tr ++ [CallDeliver args]) = deliveries tr ++ [args].
Proof. unfold deliveries. rewrite omap_app. reflexivity. Qed.

(** An entry of the store is what its key reads. *)
Lemma getMember_own (st : gmap string SessionEntry) (key : string)
    (entry : SessionEntry) :
  st !! key = Some entry -> getMember st key = Some (OwnEntry entry).
Proof. intros H. unfold getMember. rewrite H. reflexivity. Qed.

(** A key without entry reads [undefined], unless [Object.prototype] has a
    member of that name. *)
Lemma getMember_missing (st : gmap string SessionEntry) (key : string) :
  st !! key = None ->
  getMember st key =
    if bool_decide (key ∈ OBJECT_PROTOTYPE_KEYS) then Some Inherited else None.
Proof. intros H. unfold getMember. rewrite H. reflexivity. Qed.

(** A channel is resolved only to itself, and only when it is present,
    non-empty and deliverable. *)
Lemma resolveOutboundChannel_Some (channel : option string) (c : string) :
  resolveOutboundChannel channel = Normal (Some c) <->
  channel = Some c /\ c <> "" /\ isDeliverableMessageChannel c = Normal true.
Proof.
  unfold resolveOutboundChannel. destruct channel as [c'|].
  - destruct (is_empty c') eqn:E.
    + apply is_empty_true in E. split; [discriminate |].
      intros ([= ->] & Hne & _). contradiction.
    + apply is_empty_false in E.
      destruct (isDeliverableMessageChannel c') as [[]|err] eqn:D; simpl.
      * split; [intros [= ->]; auto | intros (H & _); rewrite H; reflexivity].
      * split; [discriminate | intros ([= ->] & _ & H); congruence].
      * split; [discriminate | intros ([= ->] & _ & H); congruence].
  - split; [discriminate | intros ([=] & _)].
Qed.

Lemma resolveOutboundChannel_None (channel : option string) :
  (channel = None \/
   exists c, channel = Some c /\ isDeliverableMessageChannel c = Normal false) ->
  resolveOutboundChannel channel = Normal None.
Proof.
  intros [-> | (c & -> & H)]; [reflexivity |]. unfold resolveOutboundChannel.
  rewrite H. destruct (is_empty c); reflexivity.
Qed.





(** X21. A key that has no entry in the loaded store never leads to a delivery,
    and the result is a failure: "Session not found", unless the key is the
    name of a member of [Object.prototype], which [store[sessionKey]] finds;
    the failure is then "No channel found", that member having no
    [lastChannel]. *)
Theorem sendToSession_key_without_entry (params : SendToSessionParams)
    (c : OpenClawConfig) (st : gmap string SessionEntry) :
  sessionStoreLoaded params c st ->
  st !! sessionKey params = None ->
  outcome params =
    Normal (Failed
      ((if bool_decide (sessionKey params ∈ OBJECT_PROTOTYPE_KEYS)
        then "No channel found for session: " else "Session not found: ")
       +:+ sessionKey params)) /\
  deliveries (calls params) = [].
Proof.
  intros (storePath & Hc & Hp & Hst) Hnone. unfold outcome, calls.
  rewrite sendToSession_run. cbv zeta.
  rewrite Hc, Hp, Hst, (getMember_missing _ _ Hnone).
  destruct (bool_decide (sessionKey params ∈ OBJECT_PROTOTYPE_KEYS)); cbn [fst snd get];
    (split; [reflexivity | apply no_delivery_before_store]).
Qed.

(** C3. When the entry of the session has no [lastChannel], or one that is not
    a deliverable message channel, the result is [{ ok: false, error: "No
    channel found for session: " + sessionKey }], and no delivery is
    attempted. *)
Theorem sendToSession_no_channel (params : SendToSessionParams)
    (c : OpenClawConfig) (st : gmap string SessionEntry) (entry : SessionEntry) :
  sessionStoreLoaded params c st ->
  st !! sessionKey params = Some entry ->
  (lastChannel entry = None \/
   exists channel, lastChannel entry = Some channel /\
                   isDeliverableMessageChannel channel = Normal false) ->
  outcome params =
    Normal (Failed ("No channel found for session: " +:+ sessionKey params)) /\
  deliveries (calls params) = [].
Proof.
  intros (storePath & Hc & Hp & Hst) Hentry Hch. apply resolveOutboundChannel_None in Hch.
  unfold outcome, calls. rewrite sendToSession_run. cbv zeta.
  rewrite Hc, Hp, Hst, (getMember_own _ _ _ Hentry). cbn [get]. rewrite Hch. cbn [fst snd].
  split; [reflexivity | apply no_delivery_before_store].
Qed.

(** C10. When the [lastChannel] of the entry resolves to a deliverable channel
    and its [lastTo] is missing or empty, the result is [{ ok: false, error:
    "No destination found for session: " + sessionKey }], and no delivery is
    attempted. *)
Theorem sendToSession_no_destination (params : SendToSessionParams)
    (c : OpenClawConfig) (st : gmap string SessionEntry) (entry : SessionEntry)
    (channel : string) :
  sessionStoreLoaded params c st ->
  st !! sessionKey params = Some entry ->
  resolveOutboundChannel (lastChannel entry) = Normal (Some channel) ->
  (lastTo entry = None \/ lastTo entry = Some "") ->
  outcome params =
    Normal (Failed ("No destination found for session: " +:+ sessionKey params)) /\
  deliveries (calls params) = [].
Proof.
  intros (storePath & Hc & Hp & Hst) Hentry Hch Hto.
  unfold outcome, calls. rewrite sendToSession_run. cbv zeta.
  rewrite Hc, Hp, Hst, (getMember_own _ _ _ Hentry). cbn [get]. rewrite Hch.
  destruct Hto as [-> | ->]; cbn [fst snd];
    (split; [reflexivity | apply no_delivery_before_store]).
Qed.

(** C4. When the entry has a deliverable [lastChannel], a [lastTo], a
    [lastAccountId] and a [lastThreadId], and the send carries no media URL,
    delivery is invoked exactly once, with the channel, destination, account
    and thread of the entry and the payloads [[{ text }]]; when that delivery
    succeeds the result is [{ ok: true, results }] with its results. *)
Theorem sendToSession_delivers_once (params : SendToSessionParams)
    (c : OpenClawConfig) (st : gmap string SessionEntry) (entry : SessionEntry)
    (channel to account thread : string) :
  sessionStoreLoaded params c st ->
  st !! sessionKey params = Some entry ->
  resolveOutboundChannel (lastChannel entry) = Normal (Some channel) ->
  lastTo entry = Some to -> to <> "" ->
  lastAccountId entry = Some account ->
  lastThreadId entry = Some thread ->
  (mediaUrls params = None \/ mediaUrls params = Some []) ->
  let args :=
    mkDeliverParams c channel to (Some account)
      [mkReplyPayload (Some (msgText params)) None] (Some thread)
      (bestEffort params) in
  lastChannel entry = Some channel /\
  deliveries (calls params) = [args] /\
  (forall results,
      deliverOutboundPayloads args = Normal results ->
      outcome params = Normal (Ok results)).
Proof.
  intros (storePath & Hc & Hp & Hst) Hentry Hch Hto Hne Hacc Hthr Hmedia args.
  split; [apply resolveOutboundChannel_Some in Hch as (H & _); exact H |].
  unfold outcome, calls. rewrite sendToSession_run. cbv zeta.
  rewrite Hc, Hp, Hst, (getMember_own _ _ _ Hentry). cbn [get].
  rewrite Hch, Hto, Hacc, Hthr.
  destruct to as [|a to']; [contradiction |].
  assert (buildPayloads (msgText params) (mediaUrls params)
          = [mkReplyPayload (Some (msgText params)) None]) as ->.
  { destruct Hmedia as [-> | ->]; reflexivity. }
  fold args. cbn [fst snd]. split.
  - rewrite deliveries_snoc, no_delivery_before_store. reflexivity.
  - intros results ->. reflexivity.
Qed.

End SendFacts.

(** ** The usage formatters touch nothing but what they allocate *)

Section HeapFacts.
Import Thinking AgentRunnerUtils Store.
Context {number : Type} `{!JsPrimitives number} `{!UsageFormat number}.
Implicit Types (h : gmap nat (obj number)) (v : val number).
Implicit Types (fs : gmap string (val number)).

Lemma bind_run {A B} (m : St (number := number) A) (k : A -> St B) h a h' :
  m h = (a, h') -> (m ≫= k) h = k a h'.
Proof. intros H. unfold mbind, St_bind. rewrite H. reflexivity. Qed.

(** *** Reading survives the growth of the heap *)

Lemma fields_of_Some h v fs :
  fields_of h v = Some fs <-> exists l, v = VRef l /\ h !! l = Some (Obj fs).
Proof.
  unfold fields_of. destruct v as [| | | |l]; try (split; [discriminate | intros (l & [=] & _)]).
  destruct (h !! l) as [[fs'|xs]|] eqn:E; split.
  - intros [= ->]. eauto.
  - intros (l' & [= <-] & H). congruence.
  - discriminate.
  - intros (l' & [= <-] & H). congruence.
  - discriminate.
  - intros (l' & [= <-] & H). congruence.
Qed.

Lemma fields_of_mono h h' v fs :
  h ⊆ h' -> fields_of h v = Some fs -> fields_of h' v = Some fs.
Proof.
  intros Hsub. rewrite !fields_of_Some. intros (l & -> & Hl).
  exists l. split; [reflexivity | exact (lookup_weaken _ _ _ _ Hl Hsub)].
Qed.

Lemma field_of h v fs k : fields_of h v = Some fs -> field h v k = prop fs k.
Proof. unfold field. intros ->. reflexivity. Qed.

Lemma dec_usage_mono h h' v u :
  h ⊆ h' -> dec_usage h v = Some u -> dec_usage h' v = Some u.
Proof.
  intros Hsub. unfold dec_usage.
  destruct (fields_of h v) as [fs|] eqn:E.
  - rewrite (fields_of_mono _ _ _ _ Hsub E). auto.
  - destruct v; simpl; rewrite ?E; simpl; first [discriminate | auto].
Qed.

Lemma dec_cost_mono h h' v c :
  h ⊆ h' -> dec_cost h v = Some c -> dec_cost h' v = Some c.
Proof.
  intros Hsub. unfold dec_cost.
  destruct (fields_of h v) as [fs|] eqn:E.
  - rewrite (fields_of_mono _ _ _ _ Hsub E). auto.
  - destruct v; simpl; rewrite ?E; simpl; first [discriminate | auto].
Qed.

Lemma dec_flags_mono h h' v f :
  h ⊆ h' -> dec_flags h v = Some f -> dec_flags h' v = Some f.
Proof.
  intros Hsub. unfold dec_flags.
  destruct (fields_of h v) as [fs|] eqn:E.
  - rewrite (fields_of_mono _ _ _ _ Hsub E). auto.
  - destruct v; simpl; rewrite ?E; simpl; first [discriminate | auto].
Qed.

Lemma dec_params_mono h h' v (r : UsageLineParams number) :
  h ⊆ h' -> dec_params h v = Some r -> dec_params h' v = Some r.
Proof.
  intros Hsub. unfold dec_params.
  destruct (fields_of h v) as [fs|] eqn:Hfs; [| discriminate].
  rewrite (fields_of_mono _ _ _ _ Hsub Hfs). cbn [mbind option_bind].
  destruct (dec_usage h (prop fs "usage")) as [ou|] eqn:Hu; [| discriminate].
  rewrite (dec_usage_mono _ _ _ _ Hsub Hu). cbn [mbind option_bind].
  destruct (prop fs "showCost"); try discriminate. cbn [mbind option_bind].
  destruct (dec_cost h (prop fs "costConfig")) as [occ|] eqn:Hcc; [| discriminate].
  rewrite (dec_cost_mono _ _ _ _ Hsub Hcc). cbn [mbind option_bind].
  destruct (dec_flags h (prop fs "flags")) as [ofl|] eqn:Hfl; [| discriminate].
  rewrite (dec_flags_mono _ _ _ _ Hsub Hfl). cbn [mbind option_bind].
  auto.
Qed.

(** *** What the decoders say about the values *)

Lemma dec_number_as v o : dec_number v = Some o -> as_number v = o.
Proof. destruct v; simpl; congruence. Qed.

Lemma dec_flag_truthy v o : dec_flag v = Some o -> truthy_val v = Boolean o.
Proof. destruct v; simpl; intros [= <-]; reflexivity. Qed.

Lemma dec_usage_inv h v ou :
  dec_usage h v = Some ou ->
  (v = VUndef /\ ou = None) \/
  (exists fs i o r w,
      fields_of h v = Some fs /\ ou = Some (mkUsage i o r w) /\
      dec_number (prop fs "input") = Some i /\
      dec_number (prop fs "output") = Some o /\
      dec_number (prop fs "cacheRead") = Some r /\
      dec_number (prop fs "cacheWrite") = Some w).
Proof.
  unfold dec_usage. destruct (fields_of h v) as [fs|] eqn:E.
  - apply fields_of_Some in E as (l & -> & Hl). intros H. right.
    simplify_option_eq. repeat eexists; eauto.
  - destruct v; simpl; rewrite ?E; simpl; try discriminate.
    intros [= <-]. left. auto.
Qed.

Lemma dec_flags_inv h v ofl :
  dec_flags h v = Some ofl ->
  (v = VUndef /\ ofl = None) \/
  (exists fs t c x,
      fields_of h v = Some fs /\ ofl = Some (mkFlags t c x) /\
      dec_flag (prop fs "tokens") = Some t /\
      dec_flag (prop fs "cost") = Some c /\
      dec_flag (prop fs "context") = Some x).
Proof.
  unfold dec_flags. destruct (fields_of h v) as [fs|] eqn:E.
  - apply fields_of_Some in E as (l & -> & Hl). intros H. right.
    simplify_option_eq. repeat eexists; eauto.
  - destruct v; simpl; rewrite ?E; simpl; try discriminate.
    intros [= <-]. left. auto.
Qed.

Lemma fields_of_truthy h v fs : fields_of h v = Some fs -> truthy_val v = true.
Proof. rewrite fields_of_Some. intros (l & -> & _). reflexivity. Qed.

Lemma getField_run h v fs k :
  fields_of h v = Some fs -> getField v k h = (prop fs k, h).
Proof. intros H. unfold getField. rewrite (field_of _ _ _ _ H). reflexivity. Qed.

(** *** Allocation and [push] *)

Lemma alloc_run h0 h lp ps (o : obj number) :
  parts_at h0 h lp ps ->
  exists l h',
    alloc o h = (VRef l, h') /\ h ⊆ h' /\ h !! l = None /\ h' !! l = Some o /\
    parts_at h0 h' lp ps.
Proof.
  intros (Hsub & Hfree & Hlp).
  assert (Hl : h !! fresh (dom h) = None) by apply not_elem_of_dom, is_fresh.
  exists (fresh (dom h)), (<[fresh (dom h) := o]> h).
  split; [reflexivity |].
  split; [apply insert_subseteq, Hl |]. split; [exact Hl |].
  split; [apply lookup_insert_eq |].
  split; [etrans; [exact Hsub | apply insert_subseteq, Hl] |].
  split; [exact Hfree |].
  rewrite lookup_insert_ne; [exact Hlp | congruence].
Qed.

Lemma push_run h0 h lp ps (s : string) :
  parts_at h0 h lp ps ->
  exists h', push (VRef lp) s h = (tt, h') /\ parts_at h0 h' lp (ps ++ [s]).
Proof.
  intros (Hsub & Hfree & Hlp). unfold push. rewrite Hlp.
  eexists. split; [reflexivity |].
  split; [apply insert_subseteq_r; assumption |].
  split; [exact Hfree | apply lookup_insert_eq].
Qed.

Lemma elements_of_run h0 h lp ps :
  parts_at h0 h lp ps -> elements_of (VRef lp) h = (ps, h).
Proof. intros (_ & _ & Hlp). unfold elements_of. rewrite Hlp. reflexivity. Qed.

(** Pushing one of two strings, according to whether [parts] is empty. *)
Lemma push_labelled_run h0 h lp ps (s1 s2 : string) :
  parts_at h0 h lp ps ->
  exists h',
    (xs ← elements_of (VRef lp);
     if 0 <? length xs then push (VRef lp) s1 else push (VRef lp) s2) h = (tt, h') /\
    parts_at h0 h' lp (if 0 <? length ps then ps ++ [s1] else ps ++ [s2]).
Proof.
  intros Hp. rewrite (bind_run _ _ _ _ _ (elements_of_run _ _ _ _ Hp)).
  destruct (0 <? length ps); apply push_run, Hp.
Qed.

(** *** The stages *)

Lemma tokenLabel_eq v :
  tokenLabel v = from_option formatTokenCount "?" (as_number v).
Proof. destruct v; reflexivity. Qed.

Lemma tokensPortionS_run h0 h lp ps (showTokens : bool) (input output : val number) :
  parts_at h0 h lp ps ->
  exists h',
    tokensPortionS showTokens input output (VRef lp) h = (tt, h') /\
    parts_at h0 h' lp (tokensPortion showTokens (as_number input) (as_number output) ps).
Proof.
  intros Hp. unfold tokensPortionS, tokensPortion. destruct showTokens.
  - rewrite !tokenLabel_eq. apply push_run, Hp.
  - exists h. split; [reflexivity | exact Hp].
Qed.

Lemma formatContextPercentS_run h (used max : val number) :
  formatContextPercentS used max h =
  (formatContextPercent (as_number used) (as_number max), h).
Proof.
  unfold formatContextPercentS, formatContextPercent.
  destruct used as [| | u | |]; try reflexivity;
    destruct max as [| | m | |]; try reflexivity.
  simpl. destruct (num_le_zero m || num_lt_zero u); reflexivity.
Qed.

Lemma contextPortionS_run h0 h lp ps (showContext : bool) (params : val number) fs
    (used max : option number) :
  fields_of h0 params = Some fs ->
  dec_number (prop fs "contextUsedTokens") = Some used ->
  dec_number (prop fs "contextMaxTokens") = Some max ->
  parts_at h0 h lp ps ->
  exists h',
    contextPortionS showContext params (VRef lp) h = (tt, h') /\
    parts_at h0 h' lp (contextPortion showContext used max ps).
Proof.
  intros Hfs Hused Hmax Hp. unfold contextPortionS, contextPortion.
  destruct showContext; [| exists h; split; [reflexivity | exact Hp]].
  pose proof (fields_of_mono _ _ _ _ (proj1 Hp) Hfs) as Hfs'.
  rewrite (bind_run _ _ _ _ _ (getField_run _ _ _ "contextUsedTokens" Hfs')).
  rewrite (bind_run _ _ _ _ _ (getField_run _ _ _ "contextMaxTokens" Hfs')).
  rewrite (bind_run _ _ _ _ _ (formatContextPercentS_run _ _ _)).
  rewrite (dec_number_as _ _ Hused), (dec_number_as _ _ Hmax).
  destruct (formatContextPercent used max) as [contextLabel|];
    [| exists h; split; [reflexivity | exact Hp]].
  destruct (is_empty contextLabel); [exists h; split; [reflexivity | exact Hp] |].
  apply push_labelled_run, Hp.
Qed.

(** The helper sees the argument object that the call has just built. *)
Lemma estimateUsageCostS_run h (l1 l2 : nat) (input output cacheRead cacheWrite cost : val number)
    (i o r w : option number) (occ : option (CostConfig number)) :
  h !! l1 = Some (Obj (<["input" := input]> (<["output" := output]>
                         (<["cacheRead" := cacheRead]>
                            (<["cacheWrite" := cacheWrite]> ∅))))) ->
  h !! l2 = Some (Obj (<["usage" := VRef l1]> (<["cost" := cost]> ∅))) ->
  dec_number input = Some i -> dec_number output = Some o ->
  dec_number cacheRead = Some r -> dec_number cacheWrite = Some w ->
  dec_cost h cost = Some occ ->
  estimateUsageCostS (VRef l2) h = (estimateUsageCost (mkUsage i o r w) occ, h).
Proof.
  intros Hl1 Hl2 Hi Ho Hr Hw Hc. unfold estimateUsageCostS, field.
  cbn [fields_of]. rewrite Hl2. cbn [from_option]. read_literal.
  rewrite Hc. unfold dec_usage. cbn [fields_of]. rewrite Hl1. cbn [mbind option_bind].
  read_literal. rewrite Hi, Ho, Hr, Hw. reflexivity.
Qed.

Lemma costPortionS_run h0 h lp ps (showCost : bool) (params usage input output : val number)
    fs fu (i o r w : option number) (occ : option (CostConfig number)) :
  fields_of h0 params = Some fs ->
  dec_cost h0 (prop fs "costConfig") = Some occ ->
  fields_of h0 usage = Some fu ->
  dec_number (prop fu "cacheRead") = Some r ->
  dec_number (prop fu "cacheWrite") = Some w ->
  dec_number input = Some i ->
  dec_number output = Some o ->
  parts_at h0 h lp ps ->
  exists h',
    costPortionS showCost params usage input output (VRef lp) h = (tt, h') /\
    parts_at h0 h' lp (costPortion showCost (mkUsage i o r w) occ ps).
Proof.
  intros Hfs Hcc Hfu Hr Hw Hi Ho Hp. unfold costPortionS, costPortion.
  cbn [u_input u_output u_cacheRead u_cacheWrite].
  destruct showCost; [| exists h; split; [reflexivity | exact Hp]].
  destruct input as [| | n | |]; simpl in Hi; try discriminate;
    injection Hi as <-; [exists h; split; [reflexivity | exact Hp] |].
  destruct output as [| | m | |]; simpl in Ho; try discriminate;
    injection Ho as <-; [exists h; split; [reflexivity | exact Hp] |].
  pose proof (fields_of_mono _ _ _ _ (proj1 Hp) Hfu) as Hfu'.
  rewrite (bind_run _ _ _ _ _ (getField_run _ _ _ "cacheRead" Hfu')).
  rewrite (bind_run _ _ _ _ _ (getField_run _ _ _ "cacheWrite" Hfu')).
  match goal with |- context [alloc ?o] =>
    destruct (alloc_run h0 h lp ps o Hp) as (l1 & h1 & Ha1 & Hsub1 & Hfree1 & Hl1 & Hp1)
  end.
  rewrite (bind_run _ _ _ _ _ Ha1).
  pose proof (fields_of_mono _ _ _ _ (proj1 Hp1) Hfs) as Hfs1.
  rewrite (bind_run _ _ _ _ _ (getField_run _ _ _ "costConfig" Hfs1)).
  match goal with |- context [alloc ?o] =>
    destruct (alloc_run h0 h1 lp ps o Hp1) as (l2 & h2 & Ha2 & Hsub2 & Hfree2 & Hl2 & Hp2)
  end.
  rewrite (bind_run _ _ _ _ _ Ha2).
  rewrite (bind_run _ _ _ _ _
             (estimateUsageCostS_run h2 l1 l2 _ _ _ _ _ (Some n) (Some m) r w occ
                (lookup_weaken _ _ _ _ Hl1 Hsub2) Hl2 eq_refl eq_refl Hr Hw
                (dec_cost_mono _ _ _ _ (proj1 Hp2) Hcc))).
  destruct (formatUsd _) as [costLabel|]; [| exists h2; split; [reflexivity | exact Hp2]].
  destruct (is_empty costLabel); [exists h2; split; [reflexivity | exact Hp2] |].
  apply push_labelled_run, Hp2.
Qed.

Lemma assembleS_run h (showTokens showCost showContext : bool)
    (params usage input output : val number) fs fu
    (i o r w used max : option number) (occ : option (CostConfig number)) :
  fields_of h params = Some fs ->
  dec_cost h (prop fs "costConfig") = Some occ ->
  dec_number (prop fs "contextUsedTokens") = Some used ->
  dec_number (prop fs "contextMaxTokens") = Some max ->
  fields_of h usage = Some fu ->
  dec_number (prop fu "cacheRead") = Some r ->
  dec_number (prop fu "cacheWrite") = Some w ->
  dec_number input = Some i ->
  dec_number output = Some o ->
  exists h',
    assembleS showTokens showCost showContext params usage input output h =
      (if negb showTokens && negb showCost && negb showContext then None
       else joinParts
              (contextPortion showContext used max
                 (costPortion showCost (mkUsage i o r w) occ
                    (tokensPortion showTokens i o []))), h') /\
    h ⊆ h'.
Proof.
  intros Hfs Hcc Hused Hmax Hfu Hr Hw Hi Ho. unfold assembleS.
  destruct (negb showTokens && negb showCost && negb showContext);
    [exists h; split; reflexivity |].
  assert (Hl : h !! fresh (dom h) = None) by apply not_elem_of_dom, is_fresh.
  set (lp := fresh (dom h)) in *.
  assert (Hp0 : parts_at h (<[lp := Arr []]> h) lp []).
  { split; [apply insert_subseteq, Hl |]. split; [exact Hl | apply lookup_insert_eq]. }
  rewrite (bind_run _ _ h (VRef lp) (<[lp := Arr []]> h) eq_refl).
  destruct (tokensPortionS_run _ _ _ _ showTokens input output Hp0) as (h1 & Hrun1 & Hp1).
  rewrite (bind_run _ _ _ _ _ Hrun1).
  destruct (costPortionS_run _ _ _ _ showCost params usage input output
              fs fu i o r w occ Hfs Hcc Hfu Hr Hw Hi Ho Hp1) as (h2 & Hrun2 & Hp2).
  rewrite (bind_run _ _ _ _ _ Hrun2).
  destruct (contextPortionS_run _ _ _ _ showContext params fs used max
              Hfs Hused Hmax Hp2) as (h3 & Hrun3 & Hp3).
  rewrite (bind_run _ _ _ _ _ Hrun3).
  rewrite (bind_run _ _ _ _ _ (elements_of_run _ _ _ _ Hp3)).
  rewrite (dec_number_as _ _ Hi), (dec_number_as _ _ Ho).
  exists h3. split; [reflexivity | exact (proj1 Hp3)].
Qed.

Lemma read_flag_run h v fs (k : string) :
  fields_of h v = Some fs ->
  (x ← getField v k; mret (truthy_val x)) h = (truthy_val (prop fs k), h).
Proof. intros H. rewrite (bind_run _ _ _ _ _ (getField_run _ _ _ k H)). reflexivity. Qed.

Lemma ret_run {A} (a : A) h : (mret a : St A) h = (a, h).
Proof. reflexivity. Qed.

(** The run over the heap computes [formatResponseUsageLine] of the record the
    parameter object stands for, and only adds objects to the heap. *)
Lemma formatResponseUsageLineS_run h (params : val number) (r : UsageLineParams number) :
  dec_params h params = Some r ->
  exists h',
    formatResponseUsageLineS params h = (formatResponseUsageLine r, h') /\ h ⊆ h'.
Proof.
  unfold dec_params.
  destruct (fields_of h params) as [fs|] eqn:Hfs; [| discriminate].
  cbn [mbind option_bind].
  destruct (dec_usage h (prop fs "usage")) as [ou|] eqn:Hu; [| discriminate].
  cbn [mbind option_bind].
  destruct (prop fs "showCost") as [| sc | | |] eqn:Hsc; try discriminate.
  cbn [mbind option_bind].
  destruct (dec_cost h (prop fs "costConfig")) as [occ|] eqn:Hcc; [| discriminate].
  cbn [mbind option_bind].
  destruct (dec_flags h (prop fs "flags")) as [ofl|] eqn:Hfl; [| discriminate].
  cbn [mbind option_bind].
  destruct (dec_number (prop fs "contextUsedTokens")) as [used|] eqn:Hused; [| discriminate].
  cbn [mbind option_bind].
  destruct (dec_number (prop fs "contextMaxTokens")) as [max|] eqn:Hmax; [| discriminate].
  cbn [mbind option_bind]. intros [= <-].
  unfold formatResponseUsageLineS, formatResponseUsageLine.
  cbn [p_usage p_showCost p_costConfig p_flags p_contextUsedTokens p_contextMaxTokens].
  rewrite (bind_run _ _ _ _ _ (getField_run _ _ _ "usage" Hfs)).
  destruct (dec_usage_inv _ _ _ Hu)
    as [[Hv ->] | (fu & i & o & rd & w & Hfu & -> & Hi & Ho & Hr & Hw)].
  { rewrite Hv. exists h. split; reflexivity. }
  rewrite (fields_of_truthy _ _ _ Hfu). cbn [negb].
  rewrite (bind_run _ _ _ _ _ (getField_run _ _ _ "input" Hfu)).
  rewrite (bind_run _ _ _ _ _ (getField_run _ _ _ "output" Hfu)).
  rewrite (dec_number_as _ _ Hi), (dec_number_as _ _ Ho).
  cbn [u_input u_output].
  destruct (negb (is_number i) && negb (is_number o)); [exists h; split; reflexivity |].
  rewrite (bind_run _ _ _ _ _ (getField_run _ _ _ "flags" Hfs)).
  destruct (dec_flags_inv _ _ _ Hfl)
    as [[Hfv ->] | (ff & t & c & x & Hff & -> & Ht & Hc & Hx)].
  - rewrite Hfv. cbn [truthy_val].
    rewrite (bind_run _ _ _ _ _ (ret_run true h)).
    rewrite (bind_run _ _ _ _ _ (read_flag_run _ _ _ "showCost" Hfs)).
    rewrite (bind_run _ _ _ _ _ (ret_run false h)).
    rewrite Hsc. cbn [truthy_val from_option].
    exact (assembleS_run h true sc false params (prop fs "usage")
             (prop fu "input") (prop fu "output") fs fu i o rd w used max occ
             Hfs Hcc Hused Hmax Hfu Hr Hw Hi Ho).
  - rewrite (fields_of_truthy _ _ _ Hff).
    rewrite (bind_run _ _ _ _ _ (read_flag_run _ _ _ "tokens" Hff)).
    rewrite (bind_run _ _ _ _ _ (read_flag_run _ _ _ "cost" Hff)).
    rewrite (bind_run _ _ _ _ _ (read_flag_run _ _ _ "context" Hff)).
    rewrite (dec_flag_truthy _ _ Ht), (dec_flag_truthy _ _ Hc), (dec_flag_truthy _ _ Hx).
    cbn [from_option f_tokens f_cost f_context].
    exact (assembleS_run h (Boolean t) (Boolean c) (Boolean x) params (prop fs "usage")
             (prop fu "input") (prop fu "output") fs fu i o rd w used max occ
             Hfs Hcc Hused Hmax Hfu Hr Hw Hi Ho).
Qed.

(** C9. The usage formatters are deterministic and free of side effects.
    [formatContextPercent] returns a result fixed by its two arguments and
    leaves the heap as it is.  [formatResponseUsageLine], run on a heap that
    holds a well-typed parameter object, returns a result fixed by the record
    that object stands for; every object the heap held is unchanged afterwards
    (only new objects are added), so the parameter object still stands for the
    same record; hence two calls with equal arguments, in the same heap or in
    different ones, return equal results. *)
Theorem usage_formatting_is_pure :
  (forall h (used max : val number),
      formatContextPercentS used max h =
        (formatContextPercent (as_number used) (as_number max), h)) /\
  (forall h (params : val number) (r : UsageLineParams number),
      dec_params h params = Some r ->
      exists h',
        formatResponseUsageLineS params h = (formatResponseUsageLine r, h') /\
        h ⊆ h' /\
        dec_params h' params = Some r) /\
  (forall h1 h2 (params1 params2 : val number) (r : UsageLineParams number),
      dec_params h1 params1 = Some r ->
      dec_params h2 params2 = Some r ->
      (formatResponseUsageLineS params1 h1).1 = (formatResponseUsageLineS params2 h2).1).
Proof.
  split; [exact formatContextPercentS_run |]. split.
  - intros h params r Hr.
    destruct (formatResponseUsageLineS_run h params r Hr) as (h' & Hrun & Hsub).
    exists h'. split; [exact Hrun |]. split; [exact Hsub |].
    exact (dec_params_mono _ _ _ _ Hsub Hr).
  - intros h1 h2 params1 params2 r H1 H2.
    destruct (formatResponseUsageLineS_run h1 params1 r H1) as (h1' & -> & _).
    destruct (formatResponseUsageLineS_run h2 params2 r H2) as (h2' & -> & _).
    reflexivity.
Qed.

End HeapFacts.

(** ** The properties on the samples *)

Section Examples.
Import Thinking AgentRunnerUtils SendToSession Store.

(** *** The functions at work *)

Example trim_both_ends : trim (LF +:+ "  a b " +:+ LF) = "a b".
Proof. reflexivity. Qed.

Example trimEnd_keeps_the_start : trimEnd "  a b  " = "  a b".
Proof. reflexivity. Qed.

(** A no-break space (C2 A0) is white space. *)
Example trim_no_break_space :
  trim (String (ascii_of_N 194) (String (ascii_of_N 160) "x")) = "x".
Proof. reflexivity. Qed.

Example detects_any_case :
  isBunFetchSocketError (Some "fetch failed: The SOCKET connection was closed unexpectedly")
  = true.
Proof. reflexivity. Qed.

Example ignores_other_failures :
  isBunFetchSocketError (Some "rate limited") = false /\
  isBunFetchSocketError (Some "") = false /\
  isBunFetchSocketError None = false.
Proof. repeat split; reflexivity. Qed.

Example legacy_mode_shows_tokens :
  @formatResponseUsageLine Z Sample.prims Sample.usageFormat (Sample.usageParams None)
  = Some "Usage: 12 in / 3 out".
Proof. reflexivity. Qed.

Example tokens_and_context :
  @formatResponseUsageLine Z Sample.prims Sample.usageFormat
    (mkUsageLineParams (Some Sample.usage_12_3) false None
       (Some (mkFlags (Some true) None (Some true))) (Some 67000%Z) (Some 100000%Z))
  = Some "Usage: 12 in / 3 out · 67000 (67%)".
Proof. reflexivity. Qed.

Example context_alone :
  @formatResponseUsageLine Z Sample.prims Sample.usageFormat
    (mkUsageLineParams (Some Sample.usage_12_3) false None
       (Some (mkFlags None None (Some true))) (Some 67000%Z) (Some 100000%Z))
  = Some "Context: 67000 (67%)".
Proof. reflexivity. Qed.

Example legacy_mode_with_cost :
  @formatResponseUsageLine Z Sample.prims Sample.pricedFormat
    (mkUsageLineParams (Some Sample.usage_12_3) true (Some Sample.prices) None None None)
  = Some "Usage: 12 in / 3 out · est 15c".
Proof. reflexivity. Qed.

Example cost_alone :
  @formatResponseUsageLine Z Sample.prims Sample.pricedFormat
    (mkUsageLineParams (Some Sample.usage_12_3) false (Some Sample.prices)
       (Some (mkFlags None (Some true) None)) None None)
  = Some "Cost: est 15c".
Proof. reflexivity. Qed.

Example all_three :
  @formatResponseUsageLine Z Sample.prims Sample.pricedFormat
    (mkUsageLineParams (Some Sample.usage_12_3) false (Some Sample.prices)
       (Some (mkFlags (Some true) (Some true) (Some true)))
       (Some 67000%Z) (Some 100000%Z))
  = Some "Usage: 12 in / 3 out · est 15c · 67000 (67%)".
Proof. reflexivity. Qed.

(** A count that is missing shows as a question mark, and hides the cost. *)
Example output_unknown :
  @formatResponseUsageLine Z Sample.prims Sample.pricedFormat
    (mkUsageLineParams (Some (mkUsage (Some 12%Z) None None None)) true
       (Some Sample.prices) None None None)
  = Some "Usage: 12 in / ? out".
Proof. reflexivity. Qed.

(** The context flag alone, without context counts, shows nothing. *)
Example context_without_counts :
  @formatResponseUsageLine Z Sample.prims Sample.usageFormat
    (Sample.usageParams (Some (mkFlags None None (Some true)))) = None.
Proof. reflexivity. Qed.

Example context_percent_bounds :
  @formatContextPercent Z Sample.prims Sample.usageFormat (Some 5000%Z) (Some 0%Z) = None /\
  @formatContextPercent Z Sample.prims Sample.usageFormat (Some (-100)%Z) (Some 100000%Z) = None /\
  @formatContextPercent Z Sample.prims Sample.usageFormat None (Some 100000%Z) = None /\
  @formatContextPercent Z Sample.prims Sample.usageFormat (Some 199000%Z) (Some 200000%Z)
    = Some "199000 (100%)".
Proof. repeat split; reflexivity. Qed.

Example footer_on_an_empty_reply :
  appendUsageLine [] "Usage: 12 in / 3 out"
  = [mkReplyPayload (Some "Usage: 12 in / 3 out") None].
Proof. reflexivity. Qed.

Example no_usage_no_line :
  @formatResponseUsageLine Z Sample.prims Sample.usageFormat
    (mkUsageLineParams None true None None None None) = None.
Proof. reflexivity. Qed.

Example footer_after_the_last_text :
  appendUsageLine
    [mkReplyPayload (Some "first") None; mkReplyPayload (Some "ok  ") (Some "u");
     mkReplyPayload None (Some "v")] "Usage: 12 in / 3 out"
  = [mkReplyPayload (Some "first") None;
     mkReplyPayload (Some ("ok" +:+ LF +:+ LF +:+ "--" +:+ LF +:+ "Usage: 12 in / 3 out"))
       (Some "u");
     mkReplyPayload None (Some "v")].
Proof. reflexivity. Qed.

(** With media, the text travels with the first URL. *)
Example media_payloads :
  @sendToSession string Sample.collaborators
    (mkParams "telegram:123" "Hello" None (Some (Sample.cfgAt "sessions.json"))
       (Some ["a.png"; "b.png"]) (Some true)) []
  = (Normal (Ok Sample.delivered),
     [CallLoadSessionStore "sessions.json";
      CallDeliver
        (mkDeliverParams (Sample.cfgAt "sessions.json") "telegram" "456" (Some "bot1")
           [mkReplyPayload (Some "Hello") (Some "a.png");
            mkReplyPayload (Some "") (Some "b.png")]
           (Some "789") (Some true))]).
Proof. vm_compute. reflexivity. Qed.

(** Without an override the configuration is loaded first. *)
Example loads_config_first :
  @calls string Sample.collaborators (mkParams "telegram:123" "Hello" None None None None)
  = [CallLoadConfig; CallLoadSessionStore "sessions.json";
     CallDeliver
       (mkDeliverParams (mkConfig None) "telegram" "456" (Some "bot1")
          [mkReplyPayload (Some "Hello") None] (Some "789") None)].
Proof. vm_compute. reflexivity. Qed.

(** The run over [Sample.heap0] allocates [parts] at the next location and
    leaves the three objects of the heap as they were. *)
Example heap_run :
  let '(line, h') :=
    @formatResponseUsageLineS Z Sample.prims Sample.usageFormat (VRef 0) Sample.heap0 in
  line = Some "Usage: 12 in / 3 out" /\
  h' !! 3 = Some (Arr ["Usage: 12 in / 3 out"]) /\
  h' !! 0 = Sample.heap0 !! 0 /\ h' !! 1 = Sample.heap0 !! 1 /\
  h' !! 2 = Sample.heap0 !! 2.
Proof. vm_compute. repeat split; reflexivity. Qed.

(** With a cost to estimate, the argument objects of the helper are allocated
    too; the four objects of [Sample.heap1] stay as they were. *)
Example heap_run_with_cost :
  let '(line, h') :=
    @formatResponseUsageLineS Z Sample.prims Sample.pricedFormat (VRef 0) Sample.heap1 in
  line = Some "Usage: 12 in / 3 out · est 15c · 67000 (67%)" /\
  h' !! 4 = Some (Arr ["Usage: 12 in / 3 out"; "est 15c"; "67000 (67%)"]) /\
  h' !! 0 = Sample.heap1 !! 0 /\ h' !! 1 = Sample.heap1 !! 1 /\
  h' !! 2 = Sample.heap1 !! 2 /\ h' !! 3 = Sample.heap1 !! 3 /\
  is_Some (h' !! 5) /\ is_Some (h' !! 6) /\ h' !! 7 = None.
Proof. vm_compute. repeat split; try reflexivity; eexists; reflexivity. Qed.

(** Without flags of its own the session takes the global default, which
    here puts the footer under the reply. *)
Example global_default_applies :
  @UsageAnnotator.annotate Z Sample.prims Sample.usageFormat
    None None (Some (mkFlags (Some true) None None))
    (Some Sample.usage_12_3) None None None [mkReplyPayload (Some "ok") None]
  = [mkReplyPayload
       (Some ("ok" +:+ LF +:+ LF +:+ "--" +:+ LF +:+ "Usage: 12 in / 3 out")) None].
Proof. reflexivity. Qed.

(** The default of the channel comes before the global one. *)
Example channel_default_first :
  @UsageAnnotator.annotate Z Sample.prims Sample.usageFormat
    None (Some (mkFlags None None None)) (Some (mkFlags (Some true) None None))
    (Some Sample.usage_12_3) None None None [mkReplyPayload (Some "ok") None]
  = [mkReplyPayload (Some "ok") None].
Proof. reflexivity. Qed.

(** *** The claims, each on a sample *)

(** C8 on a connection failure reported with surrounding blanks, and on a
    blank message. *)
Lemma bun_fetch_socket_error_wording_witness :
  let m := "  Error: The Socket connection was closed unexpectedly. " in
  (isBunFetchSocketError (Some m) = true /\
   trim m <> "" /\
   String.prefix "⚠️ LLM connection failed." (formatBunFetchSocketError m) = true /\
   formatBunFetchSocketError m =
     BUN_FETCH_BANNER +:+ LF +:+ "```" +:+ LF +:+ trim m +:+ LF +:+ "```" /\
   includes (formatBunFetchSocketError m)
            ("```" +:+ LF +:+ trim m +:+ LF +:+ "```") = true) /\
  (trim "   " = "" /\
   String.prefix "⚠️ LLM connection failed." (formatBunFetchSocketError "   ") = true /\
   formatBunFetchSocketError "   " =
     BUN_FETCH_BANNER +:+ LF +:+ "```" +:+ LF +:+ "Unknown error" +:+ LF +:+ "```").
Proof.
  intros m. split.
  - split; [reflexivity |].
    exact (proj1 (proj2 bun_fetch_socket_error_wording) m eq_refl).
  - split; [reflexivity |].
    exact (proj2 (proj2 bun_fetch_socket_error_wording) "   " eq_refl).
Defined.

(** C5 on usage [{ input: 12, output: 3 }] with flags [{ tokens: true }] and
    the reply [[{ text: "ok" }]]. *)
Lemma usage_line_shows_tokens_witness :
  exists line,
    @formatResponseUsageLine Z Sample.prims Sample.usageFormat
      (Sample.usageParams (Some (mkFlags (Some true) None None))) = Some line /\
    String.prefix "Usage: 12 in / 3 out" line = true /\
    includes line "Usage: 12 in / 3 out" = true /\
    exists p t,
      p ∈ appendUsageLine [mkReplyPayload (Some "ok") None] line /\
      text p = Some t /\ includes t "Usage: 12 in / 3 out" = true.
Proof.
  exact (@usage_line_shows_tokens Z Sample.prims Sample.usageFormat
           (Sample.usageParams (Some (mkFlags (Some true) None None)))
           Sample.usage_12_3 12%Z 3%Z (mkFlags (Some true) None None)
           [mkReplyPayload (Some "ok") None]
           eq_refl eq_refl eq_refl eq_refl eq_refl).
Defined.

(** C6 on the scenario of the specification: usage [{ input: 12, output: 3 }],
    the session flags [{}], a global default of [{ tokens: true }] and the
    reply [[{ text: "ok" }]]. *)
Lemma explicit_empty_flags_suppress_usage_line_witness :
  @formatResponseUsageLine Z Sample.prims Sample.usageFormat
    (Sample.usageParams (Some (mkFlags None None None))) = None /\
  hasAnyUsageFlag (Some (mkFlags None None None)) = false /\
  @UsageAnnotator.annotate Z Sample.prims Sample.usageFormat
    (Some (mkFlags None None None)) None (Some (mkFlags (Some true) None None))
    (Some Sample.usage_12_3) None None None [mkReplyPayload (Some "ok") None]
  = [mkReplyPayload (Some "ok") None].
Proof.
  destruct (@explicit_empty_flags_suppress_usage_line Z Sample.prims Sample.usageFormat
              (mkFlags None None None)
              ltac:(discriminate) ltac:(discriminate) ltac:(discriminate))
    as (Hline & Hoff & Hrun).
  split; [exact (Hline (Sample.usageParams (Some (mkFlags None None None))) eq_refl) |].
  split; [exact Hoff |].
  exact (proj2 (proj2 (Hrun None (Some (mkFlags (Some true) None None))
                         (Some Sample.usage_12_3) None None None
                         [mkReplyPayload (Some "ok") None]))).
Defined.

(** C9 on the heap [Sample.heap0]. *)
Lemma usage_formatting_is_pure_witness :
  exists r h',
    dec_params Sample.heap0 (VRef 0) = Some r /\
    @formatResponseUsageLineS Z Sample.prims Sample.usageFormat (VRef 0) Sample.heap0 =
      (@formatResponseUsageLine Z Sample.prims Sample.usageFormat r, h') /\
    Sample.heap0 ⊆ h' /\
    dec_params h' (VRef 0) = Some r.
Proof.
  exists (Sample.usageParams (Some (mkFlags (Some true) None None))).
  destruct (proj1 (proj2 (@usage_formatting_is_pure Z Sample.prims Sample.usageFormat))
              Sample.heap0 (VRef 0)
              (Sample.usageParams (Some (mkFlags (Some true) None None))) eq_refl)
    as (h' & H).
  exists h'. split; [reflexivity | exact H].
Defined.



(** C2 at keys that name members of [Object.prototype], on an empty session
    store: [store[sessionKey]] finds the inherited member, and the result
    is the failure "No channel found", not "Session not found", after the
    single reading of the store; no delivery is attempted. *)
Theorem sendToSession_inherited_key :
  @sendToSession string (Sample.collaboratorsWith ∅) (Sample.send "constructor" "Hello") []
    = (Normal (Failed "No channel found for session: constructor"),
       [CallLoadSessionStore "sessions.json"]) /\
  @sendToSession string (Sample.collaboratorsWith ∅) (Sample.send "__proto__" "Hello") []
    = (Normal (Failed "No channel found for session: __proto__"),
       [CallLoadSessionStore "sessions.json"]) /\
  @sendToSession string (Sample.collaboratorsWith ∅) (Sample.send "toString" "Hello") []
    = (Normal (Failed "No channel found for session: toString"),
       [CallLoadSessionStore "sessions.json"]).
Proof. vm_compute. repeat split; reflexivity. Qed.

(** C3 on the session whose last channel is "webchat". *)
Lemma sendToSession_no_channel_witness :
  @outcome string Sample.collaborators (Sample.send "webchat:123" "Hello")
    = Normal (Failed "No channel found for session: webchat:123") /\
  deliveries (@calls string Sample.collaborators (Sample.send "webchat:123" "Hello")) = [].
Proof.
  apply (@sendToSession_no_channel string Sample.collaborators
           (Sample.send "webchat:123" "Hello") (Sample.cfgAt "sessions.json")
           Sample.sessions Sample.entry_webchat).
  - exists "sessions.json". repeat split; reflexivity.
  - reflexivity.
  - right. exists "webchat". split; reflexivity.
Defined.

(** C10 on the session that has a channel and no destination. *)
Lemma sendToSession_no_destination_witness :
  @outcome string Sample.collaborators (Sample.send "telegram:nowhere" "Hello")
    = Normal (Failed "No destination found for session: telegram:nowhere") /\
  deliveries (@calls string Sample.collaborators
                (Sample.send "telegram:nowhere" "Hello")) = [].
Proof.
  apply (@sendToSession_no_destination string Sample.collaborators
           (Sample.send "telegram:nowhere" "Hello") (Sample.cfgAt "sessions.json")
           Sample.sessions Sample.entry_no_destination "telegram").
  - exists "sessions.json". repeat split; reflexivity.
  - reflexivity.
  - reflexivity.
  - left. reflexivity.
Defined.

(** C4 on the scenario of the specification: "Hello world" to the session
    "telegram:123". *)
Lemma sendToSession_delivers_once_witness :
  lastChannel Sample.entry_telegram = Some "telegram" /\
  deliveries (@calls string Sample.collaborators
                (Sample.send "telegram:123" "Hello world"))
    = [Sample.deliverArgs "Hello world"] /\
  (forall results,
      @deliverOutboundPayloads string Sample.collaborators
        (Sample.deliverArgs "Hello world") = Normal results ->
      @outcome string Sample.collaborators (Sample.send "telegram:123" "Hello world")
        = Normal (Ok results)).
Proof.
  apply (@sendToSession_delivers_once string Sample.collaborators
           (Sample.send "telegram:123" "Hello world") (Sample.cfgAt "sessions.json")
           Sample.sessions Sample.entry_telegram "telegram" "456" "bot1" "789").
  - exists "sessions.json". repeat split; reflexivity.
  - reflexivity.
  - reflexivity.
  - reflexivity.
  - discriminate.
  - reflexivity.
  - reflexivity.
  - left. reflexivity.
Defined.

End Examples.

(** * Further properties of the code *)

(** ** White space and case *)

Section CaseFacts.
Import JsLower.

Lemma one_of_In (keys : list string) (key : string) :
  one_of keys key = true <-> In key keys.
Proof.
  unfold one_of. rewrite existsb_exists. split.
  - intros (k & Hin & Heq). apply String.eqb_eq in Heq. subst. exact Hin.
  - intros Hin. exists key. split; [exact Hin | apply String.eqb_refl].
Qed.

Lemma lower_ascii_append (a b : string) :
  lower_ascii (a +:+ b) = lower_ascii a +:+ lower_ascii b.
Proof. induction a as [|c a IH]; simpl; [reflexivity | now rewrite IH]. Qed.

Lemma is_ascii_append (a b : string) :
  is_ascii (a +:+ b) = is_ascii a && is_ascii b.
Proof. apply all_bytes_append. Qed.

Lemma ws1_ascii (c : ascii) : ws1 c = true -> (N_of_ascii c <? 128)%N = true.
Proof.
  unfold ws1, byte_in, byte_is.
  rewrite orb_true_iff, andb_true_iff, !N.leb_le, N.eqb_eq, N.ltb_lt. lia.
Qed.

Lemma ws1_lower (c : ascii) : ws1 c = true -> lower_char c = c.
Proof.
  unfold ws1, lower_char, byte_in, byte_is.
  rewrite orb_true_iff, andb_true_iff, !N.leb_le, N.eqb_eq. intros H.
  destruct (65 <=? N_of_ascii c)%N eqn:E; [| reflexivity].
  apply N.leb_le in E.
  destruct (N_of_ascii c <=? 90)%N eqn:E'; [| reflexivity].
  lia.
Qed.

(** A run of ASCII white space is ASCII, and lower case leaves it alone. *)
Lemma blank_is_ascii (pad : string) : all_bytes ws1 pad = true -> is_ascii pad = true.
Proof.
  induction pad as [|c pad IH]; [reflexivity |]. cbn [all_bytes].
  rewrite andb_true_iff. intros [Hc Hpad]. unfold is_ascii. cbn [all_bytes].
  rewrite (ws1_ascii c Hc). exact (IH Hpad).
Qed.

Lemma blank_lower (pad : string) : all_bytes ws1 pad = true -> lower_ascii pad = pad.
Proof.
  induction pad as [|c pad IH]; [reflexivity |]. cbn [all_bytes].
  rewrite andb_true_iff. intros [Hc Hpad]. simpl.
  rewrite (ws1_lower c Hc), (IH Hpad). reflexivity.
Qed.

(** A byte of ASCII white space never completes a longer white-space
    sequence. *)
Lemma ws1_not_second (c1 c2 : ascii) : ws1 c2 = true -> ws2 c1 c2 = false.
Proof.
  unfold ws1, ws2, byte_in, byte_is.
  rewrite orb_true_iff, andb_true_iff, !N.leb_le, N.eqb_eq. intros H.
  apply andb_false_iff. right. apply N.eqb_neq. lia.
Qed.

Lemma ws1_not_third_mid (c1 c2 c3 : ascii) : ws1 c2 = true -> ws3 c1 c2 c3 = false.
Proof.
  unfold ws1, ws3, byte_in, byte_is.
  rewrite orb_true_iff, andb_true_iff, !N.leb_le, N.eqb_eq. intros H.
  assert (forall n, (128 <= n)%N -> (N_of_ascii c2 =? n)%N = false) as Hne.
  { intros n Hn. apply N.eqb_neq. lia. }
  rewrite !Hne by lia. rewrite !andb_false_r. reflexivity.
Qed.

Lemma ws1_not_third (c1 c2 c3 : ascii) : ws1 c3 = true -> ws3 c1 c2 c3 = false.
Proof.
  unfold ws1, ws3, byte_in, byte_is.
  rewrite orb_true_iff, andb_true_iff, !N.leb_le, N.eqb_eq. intros H.
  assert (forall n, (128 <= n)%N -> (N_of_ascii c3 =? n)%N = false) as Hne.
  { intros n Hn. apply N.eqb_neq. lia. }
  rewrite !Hne by lia.
  assert ((128 <=? N_of_ascii c3)%N = false) as -> by (apply N.leb_gt; lia).
  rewrite !andb_false_r. reflexivity.
Qed.

(** *** Trimming a padded string *)

Lemma trimStart_blank_prefix (pre x : string) :
  all_bytes ws1 pre = true -> trimStart (pre +:+ x) = trimStart x.
Proof.
  induction pre as [|c pre IH]; [reflexivity |]. cbn [all_bytes].
  rewrite andb_true_iff. intros [Hc Hpre].
  change (String c pre +:+ x) with (String c (pre +:+ x)).
  cbn [trimStart]. rewrite Hc. exact (IH Hpre).
Qed.

Lemma all_ws_blank (post : string) : all_bytes ws1 post = true -> all_ws post = true.
Proof.
  induction post as [|c post IH]; [reflexivity |]. cbn [all_bytes].
  rewrite andb_true_iff. intros [Hc Hpost]. cbn [all_ws]. rewrite Hc. exact (IH Hpost).
Qed.

Lemma all_ws_blank_suffix (n : nat) (y post : string) :
  String.length y <= n -> all_bytes ws1 post = true ->
  all_ws (y +:+ post) = all_ws y.
Proof.
  revert y; induction n as [|n IH]; intros y Hn Hpost.
  - destruct y; [| simpl in Hn; lia]. simpl. apply all_ws_blank, Hpost.
  - destruct y as [|c1 r1]; [simpl; apply all_ws_blank, Hpost |].
    simpl in Hn. change (String c1 r1 +:+ post) with (String c1 (r1 +:+ post)).
    cbn [all_ws]. destruct (ws1 c1) eqn:E1; [apply IH; [lia | exact Hpost] |].
    destruct r1 as [|c2 r2].
    + simpl. destruct post as [|p post]; [reflexivity |].
      cbn [all_bytes] in Hpost. apply andb_true_iff in Hpost as [Hp Hpost].
      rewrite (ws1_not_second c1 p Hp).
      destruct post as [|p' post]; [reflexivity |].
      rewrite (ws1_not_third_mid c1 p p' Hp). reflexivity.
    + simpl in Hn. change (String c2 r2 +:+ post) with (String c2 (r2 +:+ post)).
      cbn iota. destruct (ws2 c1 c2) eqn:E2; [apply IH; [lia | exact Hpost] |].
      destruct r2 as [|c3 r3].
      * simpl. destruct post as [|p post]; [reflexivity |].
        cbn [all_bytes] in Hpost. apply andb_true_iff in Hpost as [Hp Hpost].
        rewrite (ws1_not_third c1 c2 p Hp). reflexivity.
      * simpl in Hn. change (String c3 r3 +:+ post) with (String c3 (r3 +:+ post)).
        cbn iota. destruct (ws3 c1 c2 c3); [apply IH; [lia | exact Hpost] | reflexivity].
Qed.

Lemma trimEnd_blank_suffix (y post : string) :
  all_bytes ws1 post = true -> trimEnd (y +:+ post) = trimEnd y.
Proof.
  intros Hpost. induction y as [|c r IH].
  - simpl. destruct post as [|p post]; [reflexivity |].
    cbn [trimEnd]. rewrite (all_ws_blank _ Hpost). reflexivity.
  - change (String c r +:+ post) with (String c (r +:+ post)). cbn [trimEnd].
    change (String c (r +:+ post)) with (String c r +:+ post).
    rewrite (all_ws_blank_suffix (String.length (String c r)) _ _ (le_n _) Hpost), IH.
    reflexivity.
Qed.

Lemma trimStart_blank_suffix (n : nat) (t post : string) :
  String.length t <= n -> all_bytes ws1 post = true ->
  exists post', trimStart (t +:+ post) = trimStart t +:+ post' /\
                all_bytes ws1 post' = true.
Proof.
  revert t; induction n as [|n IH]; intros t Hn Hpost.
  - destruct t; [| simpl in Hn; lia]. exists "". split; [| reflexivity].
    simpl. rewrite <- (append_empty_r post), trimStart_blank_prefix by exact Hpost.
    reflexivity.
  - destruct t as [|c1 r1].
    { exists "". split; [| reflexivity].
      simpl. rewrite <- (append_empty_r post), trimStart_blank_prefix by exact Hpost.
      reflexivity. }
    simpl in Hn. change (String c1 r1 +:+ post) with (String c1 (r1 +:+ post)).
    cbn [trimStart]. destruct (ws1 c1) eqn:E1; [apply IH; [lia | exact Hpost] |].
    destruct r1 as [|c2 r2].
    + simpl. exists post. split; [| exact Hpost].
      destruct post as [|p post]; [reflexivity |].
      cbn [all_bytes] in Hpost. apply andb_true_iff in Hpost as [Hp Hpost].
      rewrite (ws1_not_second c1 p Hp).
      destruct post as [|p' post]; [reflexivity |].
      rewrite (ws1_not_third_mid c1 p p' Hp). reflexivity.
    + simpl in Hn. change (String c2 r2 +:+ post) with (String c2 (r2 +:+ post)).
      cbn iota. destruct (ws2 c1 c2) eqn:E2; [apply IH; [lia | exact Hpost] |].
      destruct r2 as [|c3 r3].
      * simpl. exists post. split; [| exact Hpost].
        destruct post as [|p post]; [reflexivity |].
        cbn [all_bytes] in Hpost. apply andb_true_iff in Hpost as [Hp Hpost].
        rewrite (ws1_not_third c1 c2 p Hp). reflexivity.
      * simpl in Hn. change (String c3 r3 +:+ post) with (String c3 (r3 +:+ post)).
        cbn iota. destruct (ws3 c1 c2 c3); [apply IH; [lia | exact Hpost] |].
        exists post. split; [reflexivity | exact Hpost].
Qed.

(** White space around a string does not change what it trims to. *)
Lemma trim_blank (pre t post : string) :
  all_bytes ws1 pre = true -> all_bytes ws1 post = true ->
  trim (pre +:+ t +:+ post) = trim t.
Proof.
  intros Hpre Hpost. unfold trim. rewrite (trimStart_blank_prefix _ _ Hpre).
  destruct (trimStart_blank_suffix (String.length t) t post (le_n _) Hpost)
    as (post' & -> & Hpost').
  apply trimEnd_blank_suffix, Hpost'.
Qed.

End CaseFacts.

(** ** thinking.ts *)

Section LevelFacts.
Import Thinking JsLower ThinkingLevels.
Context `{!JsLowerCase}.

Lemma lower_ascii_empty (a b : string) :
  lower_ascii a = lower_ascii b -> is_empty a = is_empty b.
Proof. destruct a, b; simpl; congruence. Qed.

Lemma ws1_lower_char (c : ascii) : ws1 (lower_char c) = ws1 c.
Proof. destruct c as [[] [] [] [] [] [] [] []]; reflexivity. Qed.

Lemma lower_keeps_blanks (s : string) :
  all_bytes (fun c => negb (ws1 c)) (lower_ascii s) = all_bytes (fun c => negb (ws1 c)) s.
Proof.
  induction s as [|c s IH]; [reflexivity |]. simpl.
  rewrite ws1_lower_char, IH. reflexivity.
Qed.

(** A key that fails a test which every entry of a table passes is not in
    the table. *)
Lemma one_of_none (P : ascii -> bool) (keys : list string) (key : string) :
  forallb (all_bytes P) keys = true -> all_bytes P key = false ->
  one_of keys key = false.
Proof.
  intros Hkeys Hkey. destruct (one_of keys key) eqn:E; [| reflexivity].
  apply one_of_In in E. rewrite forallb_forall in Hkeys.
  rewrite (Hkeys key E) in Hkey. discriminate.
Qed.

(** X1. The level normalizers and the toggle parser ignore the case of ASCII
    letters: two ASCII spellings that differ in case only get the same
    answer. *)
Theorem levels_ignore_ascii_case (a b : string) :
  is_ascii a = true -> is_ascii b = true -> lower_ascii a = lower_ascii b ->
  normalizeThinkLevel (Some a) = normalizeThinkLevel (Some b) /\
  normalizeVerboseLevel (Some a) = normalizeVerboseLevel (Some b) /\
  normalizeNoticeLevel (Some a) = normalizeNoticeLevel (Some b) /\
  normalizeUsageDisplay (Some a) = normalizeUsageDisplay (Some b) /\
  normalizeElevatedLevel (Some a) = normalizeElevatedLevel (Some b) /\
  normalizeReasoningLevel (Some a) = normalizeReasoningLevel (Some b) /\
  parseUsageToggleArg (Some a) = parseUsageToggleArg (Some b).
Proof.
  intros Ha Hb Hab.
  assert (Hkey : toLowerCase a = toLowerCase b)
    by (rewrite !toLowerCase_ascii by assumption; exact Hab).
  pose proof (lower_ascii_empty a b Hab) as Hempty.
  unfold normalizeThinkLevel, normalizeVerboseLevel, normalizeNoticeLevel,
    normalizeUsageDisplay, normalizeElevatedLevel, normalizeReasoningLevel,
    parseUsageToggleArg.
  cbn [truthy default from_option id]. rewrite Hempty, Hkey.
  repeat split; reflexivity.
Qed.

Lemma normalizeThinkLevel_label (l : ThinkLevel) :
  normalizeThinkLevel (Some (thinkLabel l)) = Some l.
Proof.
  destruct l; unfold normalizeThinkLevel; cbn [truthy default from_option id thinkLabel];
    rewrite toLowerCase_ascii by reflexivity; reflexivity.
Qed.

(** X2. Every value of a level type, written as the string it is, is accepted
    by the normalizer of its type and comes back unchanged. *)
Theorem level_labels_round_trip :
  (forall l, normalizeThinkLevel (Some (thinkLabel l)) = Some l) /\
  (forall l, normalizeVerboseLevel (Some (verboseLabel l)) = Some l) /\
  (forall l, normalizeNoticeLevel (Some (noticeLabel l)) = Some l) /\
  (forall l, normalizeUsageDisplay (Some (usageDisplayLabel l)) = Some l) /\
  (forall l, normalizeElevatedLevel (Some (elevatedLabel l)) = Some l) /\
  (forall l, normalizeReasoningLevel (Some (reasoningLabel l)) = Some l).
Proof.
  repeat split; intros [];
    unfold normalizeThinkLevel, normalizeVerboseLevel, normalizeNoticeLevel,
      normalizeUsageDisplay, normalizeElevatedLevel, normalizeReasoningLevel;
    cbn [truthy default from_option id thinkLabel verboseLabel noticeLabel
           usageDisplayLabel elevatedLabel reasoningLabel];
    rewrite toLowerCase_ascii by reflexivity; reflexivity.
Qed.

(** X3. [normalizeThinkLevel] answers "high" exactly for the keys high, ultra,
    ultrathink, thinkhardest, highest and max: the key think-hard, which the
    table of "high" lists as well, is taken by the table of "low" before. *)
Theorem think_hard_is_low (raw : option string) :
  (normalizeThinkLevel raw = Some ThinkHigh <->
   truthy raw = true /\
   one_of ["high"; "ultra"; "ultrathink"; "thinkhardest"; "highest"; "max"]
          (toLowerCase (default "" raw)) = true) /\
  (truthy raw = true -> toLowerCase (default "" raw) = "think-hard" ->
   normalizeThinkLevel raw = Some ThinkLow).
Proof.
  unfold normalizeThinkLevel. destruct (truthy raw); cbn [negb].
  2:{ split; [split; [discriminate | intros [[=] _]] | discriminate]. }
  generalize (toLowerCase (default "" raw)). intros key. split.
  - assert (Hsub : one_of ["high"; "ultra"; "ultrathink"; "thinkhardest"; "highest"; "max"]
                     key = true ->
                   one_of ["high"; "ultra"; "ultrathink"; "think-hard"; "thinkhardest";
                           "highest"; "max"] key = true).
    { rewrite !one_of_In. simpl. tauto. }
    destruct (one_of ["off"] key) eqn:E1.
    { split; [discriminate | intros [_ Hh]]. apply one_of_In in E1, Hh.
      simpl in E1, Hh. intuition congruence. }
    destruct (one_of ["on"; "enable"; "enabled"] key) eqn:E2.
    { split; [discriminate | intros [_ Hh]]. apply one_of_In in E2, Hh.
      simpl in E2, Hh. intuition congruence. }
    destruct (one_of ["min"; "minimal"] key) eqn:E3.
    { split; [discriminate | intros [_ Hh]]. apply one_of_In in E3, Hh.
      simpl in E3, Hh. intuition congruence. }
    destruct (one_of ["low"; "thinkhard"; "think-hard"; "think_hard"] key) eqn:E4.
    { split; [discriminate | intros [_ Hh]]. apply one_of_In in E4, Hh.
      simpl in E4, Hh. intuition congruence. }
    destruct (one_of ["mid"; "med"; "medium"; "thinkharder"; "think-harder"; "harder"] key)
      eqn:E5.
    { split; [discriminate | intros [_ Hh]]. apply one_of_In in E5, Hh.
      simpl in E5, Hh. intuition congruence. }
    destruct (one_of ["high"; "ultra"; "ultrathink"; "think-hard"; "thinkhardest";
                      "highest"; "max"] key) eqn:E6.
    { split; [intros _ | reflexivity]. split; [reflexivity |].
      apply one_of_In in E6. simpl in E6.
      destruct E6 as [<-|[<-|[<-|[<-|[<-|[<-|[<-|[]]]]]]]];
        first [reflexivity | discriminate E4]. }
    destruct (one_of ["xhigh"; "x-high"; "x_high"] key);
      [split; [discriminate | intros [_ Hh]; apply Hsub in Hh; discriminate] |].
    destruct (one_of ["think"] key);
      split; first [discriminate | intros [_ Hh]; apply Hsub in Hh; discriminate].
  - intros _ ->. reflexivity.
Qed.

(** X4. [parseUsageToggleArg] trims: ASCII white space before and after an
    ASCII argument does not change what it is parsed to. *)
Theorem toggle_ignores_surrounding_blanks (pre raw post : string) :
  all_bytes ws1 pre = true -> all_bytes ws1 post = true -> is_ascii raw = true ->
  parseUsageToggleArg (Some (pre +:+ raw +:+ post)) = parseUsageToggleArg (Some raw).
Proof.
  intros Hpre Hpost Hraw.
  assert (Hkey : trim (toLowerCase (pre +:+ raw +:+ post)) = trim (toLowerCase raw)).
  { rewrite !toLowerCase_ascii;
      [| exact Hraw
       | rewrite !is_ascii_append, Hraw, (blank_is_ascii _ Hpre), (blank_is_ascii _ Hpost);
         reflexivity].
    rewrite !lower_ascii_append, (blank_lower _ Hpre), (blank_lower _ Hpost).
    apply trim_blank; assumption. }
  unfold parseUsageToggleArg. cbn [truthy default from_option id]. rewrite Hkey.
  destruct raw as [|c raw].
  - rewrite toLowerCase_ascii by reflexivity.
    destruct (is_empty (pre +:+ "" +:+ post)); reflexivity.
  - assert (is_empty (pre +:+ String c raw +:+ post) = false) as ->.
    { destruct pre; reflexivity. }
    reflexivity.
Qed.

(** X5. The level normalizers do not trim: an ASCII string with a white-space
    character anywhere in it is not accepted by any of them. *)
Theorem levels_reject_blanks (s : string) :
  is_ascii s = true ->
  all_bytes (fun c => negb (ws1 c)) s = false ->
  normalizeThinkLevel (Some s) = None /\
  normalizeVerboseLevel (Some s) = None /\
  normalizeNoticeLevel (Some s) = None /\
  normalizeUsageDisplay (Some s) = None /\
  normalizeElevatedLevel (Some s) = None /\
  normalizeReasoningLevel (Some s) = None.
Proof.
  intros Hs Hblank.
  assert (Hkey : all_bytes (fun c => negb (ws1 c)) (toLowerCase s) = false).
  { rewrite toLowerCase_ascii by exact Hs. rewrite lower_keeps_blanks. exact Hblank. }
  unfold normalizeThinkLevel, normalizeVerboseLevel, normalizeNoticeLevel,
    normalizeUsageDisplay, normalizeElevatedLevel, normalizeReasoningLevel.
  cbn [truthy default from_option id].
  repeat match goal with
         | |- context [one_of ?L (toLowerCase s)] =>
             rewrite (one_of_none (fun c => negb (ws1 c)) L (toLowerCase s) eq_refl Hkey)
         end.
  destruct (negb (negb (is_empty s))); repeat split; reflexivity.
Qed.

(** X6. Every label that [listThinkingLevelLabels] offers is accepted by
    [normalizeThinkLevel].  For a binary provider the labels are "off" and
    "on", read as the levels off and low.  For any other provider the label
    is that of a level of [listThinkingLevels], and is read back as that
    level. *)
Theorem offered_labels_are_accepted (provider model : option string) (label : string) :
  In label (listThinkingLevelLabels provider model) ->
  if isBinaryThinkingProvider provider then
    (label = "off" /\ normalizeThinkLevel (Some label) = Some ThinkOff) \/
    (label = "on" /\ normalizeThinkLevel (Some label) = Some ThinkLow)
  else
    exists l,
      In l (listThinkingLevels provider model) /\
      thinkLabel l = label /\
      normalizeThinkLevel (Some label) = Some l.
Proof.
  unfold listThinkingLevelLabels.
  destruct (isBinaryThinkingProvider provider).
  - intros [<- | [<- | []]].
    + left. split; [reflexivity |]. apply (normalizeThinkLevel_label ThinkOff).
    + right. split; [reflexivity |].
      unfold normalizeThinkLevel. cbn [truthy default from_option id].
      rewrite toLowerCase_ascii by reflexivity. reflexivity.
  - intros Hin. apply in_map_iff in Hin as (l & <- & Hl).
    exists l. split; [exact Hl |]. split; [reflexivity |].
    apply normalizeThinkLevel_label.
Qed.

(** *** The models that take the extra-high level *)

Lemma xhigh_model_set : XHIGH_MODEL_SET = XHIGH_MODEL_REFS.
Proof.
  unfold XHIGH_MODEL_SET, XHIGH_MODEL_REFS. cbn [map].
  rewrite !toLowerCase_ascii by reflexivity. reflexivity.
Qed.

Lemma xhigh_model_ids :
  XHIGH_MODEL_IDS = ["gpt-5.2"; "gpt-5.2-codex"; "gpt-5.1-codex"].
Proof.
  unfold XHIGH_MODEL_IDS, XHIGH_MODEL_REFS. cbn [omap list_omap].
  change (split "/" "openai/gpt-5.2" !! 1) with (Some "gpt-5.2").
  change (split "/" "openai-codex/gpt-5.2-codex" !! 1) with (Some "gpt-5.2-codex").
  change (split "/" "openai-codex/gpt-5.1-codex" !! 1) with (Some "gpt-5.1-codex").
  cbv iota. rewrite !toLowerCase_ascii by reflexivity. reflexivity.
Qed.

Lemma slash_inside (x y : string) : all_bytes no_slash (x +:+ "/" +:+ y) = false.
Proof.
  rewrite all_bytes_append. change ("/" +:+ y) with (String "/" y).
  cbn [all_bytes]. apply andb_false_r.
Qed.

(** A string with one slash splits around it in one way only. *)
Lemma slash_unique (x y a b : string) :
  all_bytes no_slash a = true -> all_bytes no_slash b = true ->
  x +:+ "/" +:+ y = a +:+ "/" +:+ b -> x = a /\ y = b.
Proof.
  revert a; induction x as [|c x IH]; intros a Ha Hb Heq.
  - destruct a as [|c' a].
    + simpl in Heq. injection Heq as ->. auto.
    + simpl in Heq. injection Heq as <- _. simpl in Ha. discriminate.
  - destruct a as [|c' a].
    + simpl in Heq. injection Heq as -> Heq.
      pose proof (slash_inside x y) as Hs. simpl in Hs. rewrite Heq in Hs. congruence.
    + simpl in Heq. injection Heq as -> Heq. cbn [all_bytes] in Ha.
      apply andb_true_iff in Ha as [_ Ha].
      destruct (IH a Ha Hb Heq) as [-> ->]. auto.
Qed.

(** X7. A model that [supportsXHighThinking] accepts together with some
    provider is accepted without a provider too, and its trimmed lower-case id
    is one of gpt-5.2, gpt-5.2-codex and gpt-5.1-codex. *)
Theorem xhigh_with_provider_implies_without (provider model : option string) :
  supportsXHighThinking provider model = true ->
  supportsXHighThinking None model = true /\
  exists m, model = Some m /\
            In (toLowerCase (trim m)) ["gpt-5.2"; "gpt-5.2-codex"; "gpt-5.1-codex"].
Proof.
  unfold supportsXHighThinking. destruct model as [m|]; [| discriminate].
  cbn [option_map truthy default from_option id].
  destruct (is_empty (toLowerCase (trim m))); [discriminate |]. cbn [negb].
  rewrite xhigh_model_set, xhigh_model_ids.
  assert (Hids : one_of ["gpt-5.2"; "gpt-5.2-codex"; "gpt-5.1-codex"]
                   (toLowerCase (trim m)) = true ->
                 one_of ["gpt-5.2"; "gpt-5.2-codex"; "gpt-5.1-codex"]
                   (toLowerCase (trim m)) = true /\
                 exists m0, Some m = Some m0 /\
                   In (toLowerCase (trim m0)) ["gpt-5.2"; "gpt-5.2-codex"; "gpt-5.1-codex"]).
  { intros Hid. split; [exact Hid |]. exists m. split; [reflexivity |].
    apply one_of_In, Hid. }
  destruct provider as [p|]; [| exact Hids].
  cbn [option_map truthy default from_option id].
  destruct (is_empty (toLowerCase (trim p))); [exact Hids |]. cbn [negb].
  intros Hin. apply Hids. apply one_of_In in Hin. apply one_of_In.
  unfold XHIGH_MODEL_REFS in Hin. simpl in Hin.
  destruct Hin as [Hin | [Hin | [Hin | []]]].
  - destruct (slash_unique _ _ "openai" "gpt-5.2" eq_refl eq_refl (eq_sym Hin)) as [_ ->].
    simpl. tauto.
  - destruct (slash_unique _ _ "openai-codex" "gpt-5.2-codex" eq_refl eq_refl (eq_sym Hin))
      as [_ ->].
    simpl. tauto.
  - destruct (slash_unique _ _ "openai-codex" "gpt-5.1-codex" eq_refl eq_refl (eq_sym Hin))
      as [_ ->].
    simpl. tauto.
Qed.

(** *** Usage flags *)

(** X8. [cycleUsageFlags] walks the round off, tokens, tokens and context:
    its result is one of these three, never has the cost flag, is [{ tokens:
    true }] when no flag is on, and three more steps lead back to it. *)
Theorem usage_flags_cycle (current : option ResponseUsageFlags) :
  let next := cycleUsageFlags current in
  (next = mkFlags (Some true) None None \/
   next = mkFlags (Some true) None (Some true) \/
   next = mkFlags None None None) /\
  f_cost next = None /\
  (hasAnyUsageFlag current = false -> next = mkFlags (Some true) None None) /\
  cycleUsageFlags (Some (cycleUsageFlags (Some (cycleUsageFlags (Some next))))) = next.
Proof.
  destruct current as [[[[]|] [[]|] [[]|]]|]; cbv zeta; vm_compute;
    repeat split; auto; discriminate.
Qed.

(** What [formatUsageFlags] shows depends on the flags that are on only. *)
Lemma formatUsageFlags_enabled (flags : option ResponseUsageFlags) :
  formatUsageFlags flags =
  match enabled flags with
  | (false, false, false) => "off"
  | (true, false, false) => "tokens"
  | (false, true, false) => "cost"
  | (false, false, true) => "context"
  | (true, true, false) => "tokens+cost"
  | (true, false, true) => "tokens+context"
  | (false, true, true) => "cost+context"
  | (true, true, true) => "tokens+cost+context"
  end.
Proof. destruct flags as [[[[]|] [[]|] [[]|]]|]; reflexivity. Qed.

Lemma enabled_off (flags : option ResponseUsageFlags) :
  hasAnyUsageFlag flags = false <-> enabled flags = (false, false, false).
Proof. destruct flags as [[[[]|] [[]|] [[]|]]|]; vm_compute; split; congruence. Qed.

(** X9. [formatUsageFlags] shows "off" exactly when no flag is on, and two
    flags values are shown alike exactly when they switch on the same
    flags. *)
Theorem usage_flags_display (f g : option ResponseUsageFlags) :
  (formatUsageFlags f = "off" <-> hasAnyUsageFlag f = false) /\
  (formatUsageFlags f = formatUsageFlags g <-> enabled f = enabled g).
Proof.
  rewrite enabled_off, !formatUsageFlags_enabled.
  destruct (enabled f) as [[[] []] []], (enabled g) as [[[] []] []];
    split; split; congruence.
Qed.

(** X10. What [formatUsageFlags] shows for a single flag or for none is read
    back by [parseUsageToggleArg], except "cost", which is not a toggle; a
    combination is not read back. *)
Theorem usage_flags_display_parses_back (flags : option ResponseUsageFlags) :
  parseUsageToggleArg (Some (formatUsageFlags flags)) =
  match enabled flags with
  | (false, false, false) => Some ToggleOff
  | (true, false, false) => Some ToggleTokens
  | (false, false, true) => Some ToggleContext
  | _ => None
  end.
Proof.
  rewrite formatUsageFlags_enabled. unfold parseUsageToggleArg.
  destruct (enabled flags) as [[[] []] []];
    cbn [truthy default from_option id];
    rewrite toLowerCase_ascii by reflexivity; reflexivity.
Qed.

End LevelFacts.

(** ** The usage line, further *)

Section UsageLineMore.
Import Thinking AgentRunnerUtils ThinkingLevels.
Context {number : Type} `{!JsPrimitives number} `{!UsageFormat number}.

(** X11. The flags that [legacyUsageModeToFlags] gives for an old mode show
    the token counts and never the context, and [formatResponseUsageLine]
    builds from them the line it builds in legacy mode, without flags, with
    [showCost] set exactly when the mode is "full". *)
Theorem legacy_mode_flags_same_line (mode : option LegacyUsageMode)
    (flags : ResponseUsageFlags) (usage : option (NormalizedUsage number))
    (showCost : bool) (costConfig : option (CostConfig number))
    (used max : option number) :
  legacyUsageModeToFlags mode = Some flags ->
  f_tokens flags = Some true /\ f_context flags = None /\
  (Boolean (f_cost flags) = true <-> mode = Some (LegacyLevel UsageFull)) /\
  formatResponseUsageLine
    (mkUsageLineParams usage showCost costConfig (Some flags) used max) =
  formatResponseUsageLine
    (mkUsageLineParams usage (Boolean (f_cost flags)) costConfig None used max).
Proof.
  destruct mode as [[[]|]|]; simpl; try discriminate; intros [= <-];
    (split; [reflexivity |]); (split; [reflexivity |]);
    (split; [split; [discriminate || reflexivity | discriminate || reflexivity] |]);
    unfold formatResponseUsageLine;
    cbn [p_usage p_showCost p_costConfig p_flags p_contextUsedTokens
           p_contextMaxTokens from_option f_tokens f_cost f_context Boolean default];
    reflexivity.
Qed.

(** Without the token counts, [parts] starts with the cost or with the
    context. *)
Lemma costPortion_nil showCost (usage : NormalizedUsage number) costConfig :
  costPortion showCost usage costConfig [] = [] \/
  exists label, costPortion showCost usage costConfig [] = ["Cost: est " +:+ label].
Proof.
  unfold costPortion.
  destruct showCost, (u_input usage), (u_output usage); auto.
  destruct (formatUsd _) as [costLabel|]; auto.
  destruct (is_empty costLabel); auto. right. exists costLabel. reflexivity.
Qed.

Lemma contextPortion_nil showContext (used max : option number) :
  contextPortion showContext used max [] = [] \/
  exists label, contextPortion showContext used max [] = ["Context: " +:+ label].
Proof.
  unfold contextPortion. destruct showContext; auto.
  destruct (formatContextPercent used max) as [contextLabel|]; auto.
  destruct (is_empty contextLabel); auto. right. exists contextLabel. reflexivity.
Qed.

Lemma joinParts_cons (p : string) (rest : list string) :
  exists tail, joinParts (p :: rest) = Some (p +:+ tail).
Proof.
  destruct rest as [|q rest]; simpl.
  - exists "". rewrite append_empty_r. reflexivity.
  - eexists. reflexivity.
Qed.

(** X12. A usage line is never empty: it starts with "Usage: ", or, when the
    token counts are not shown, with "Cost: est " or with "Context: "; in
    legacy mode, without flags, it starts with "Usage: ". *)
Theorem usage_line_heads (params : UsageLineParams number) (line : string) :
  formatResponseUsageLine params = Some line ->
  (exists tail, line = "Usage: " +:+ tail \/ line = "Cost: est " +:+ tail \/
                line = "Context: " +:+ tail) /\
  (p_flags params = None -> exists tail, line = "Usage: " +:+ tail).
Proof.
  unfold formatResponseUsageLine.
  destruct (p_usage params) as [usage|]; [| discriminate].
  destruct (negb (is_number (u_input usage)) && negb (is_number (u_output usage)));
    [discriminate |].
  set (showTokens := from_option (fun f => Boolean (f_tokens f)) true (p_flags params)).
  set (showCost := from_option (fun f => Boolean (f_cost f)) (p_showCost params)
                     (p_flags params)).
  set (showContext := from_option (fun f => Boolean (f_context f)) false (p_flags params)).
  destruct (negb showTokens && negb showCost && negb showContext); [discriminate |].
  cbv zeta.
  assert (Htok : showTokens = true ->
            joinParts
              (contextPortion showContext (p_contextUsedTokens params)
                 (p_contextMaxTokens params)
                 (costPortion showCost usage (p_costConfig params)
                    (tokensPortion showTokens (u_input usage) (u_output usage) [])))
            = Some line ->
            exists tail, line = "Usage: " +:+ tail).
  { intros -> Hline. unfold tokensPortion in Hline. cbn [app] in Hline.
    destruct (later_stages_keep_head showCost showContext usage (p_costConfig params)
                (p_contextUsedTokens params) (p_contextMaxTokens params)
                ("Usage: " +:+ from_option formatTokenCount "?" (u_input usage)
                 +:+ " in / " +:+ from_option formatTokenCount "?" (u_output usage)
                 +:+ " out")) as [tail Htail].
    rewrite Htail in Hline. injection Hline as <-.
    rewrite !append_assoc. eexists. reflexivity. }
  intros Hline. split.
  - destruct showTokens eqn:Est.
    { destruct (Htok eq_refl Hline) as [tail ->]. eauto. }
    unfold tokensPortion in Hline.
    destruct (costPortion_nil showCost usage (p_costConfig params)) as [Hc | [label Hc]];
      rewrite Hc in Hline.
    + destruct (contextPortion_nil showContext (p_contextUsedTokens params)
                  (p_contextMaxTokens params)) as [Hx | [label Hx]];
        rewrite Hx in Hline; [discriminate |].
      injection Hline as <-. eauto.
    + destruct (contextPortion_extends showContext (p_contextUsedTokens params)
                  (p_contextMaxTokens params) ["Cost: est " +:+ label]) as [more Hx].
      rewrite Hx in Hline. cbn [app] in Hline.
      destruct (joinParts_cons ("Cost: est " +:+ label) more) as [tail Htail].
      rewrite Htail in Hline. injection Hline as <-.
      exists (label +:+ tail). right. left. reflexivity.
  - intros Hflags. apply Htok; [| exact Hline].
    unfold showTokens. rewrite Hflags. reflexivity.
Qed.

(** X13. The cost is shown only when both counts are numbers: with the input
    or the output count missing, the line is the one that the same parameters
    give with the cost switched off. *)
Theorem cost_needs_both_counts (usage : NormalizedUsage number)
    (showCost : bool) (costConfig : option (CostConfig number))
    (flags : option ResponseUsageFlags) (used max : option number) :
  u_input usage = None \/ u_output usage = None ->
  formatResponseUsageLine
    (mkUsageLineParams (Some usage) showCost costConfig flags used max) =
  formatResponseUsageLine
    (mkUsageLineParams (Some usage) false costConfig
       (option_map (fun f => mkFlags (f_tokens f) (Some false) (f_context f)) flags)
       used max).
Proof.
  intros Hmissing. unfold formatResponseUsageLine.
  cbn [p_usage p_showCost p_costConfig p_flags p_contextUsedTokens p_contextMaxTokens].
  destruct (negb (is_number (u_input usage)) && negb (is_number (u_output usage)));
    [reflexivity |].
  assert (Hcost : forall sc parts,
             costPortion sc usage costConfig parts = parts).
  { intros sc parts. unfold costPortion.
    destruct Hmissing as [-> | ->]; destruct sc; try reflexivity.
    destruct (u_input usage); reflexivity. }
  rewrite !Hcost.
  destruct flags as [f|]; cbn [option_map from_option f_tokens f_cost f_context Boolean default].
  - destruct f as [[[]|] [[]|] [[]|]]; reflexivity.
  - destruct showCost; reflexivity.
Qed.

(** Two strings that end in different bytes differ. *)
Lemma last_byte_differs (c d : ascii) (a b : string) :
  c <> d -> a +:+ String c "" <> b +:+ String d "".
Proof.
  intros Hcd. revert b. induction a as [|x a IH]; intros [|y b]; cbn [String.append].
  - intros [= H]. contradiction.
  - intros [= _ H]. destruct b; discriminate H.
  - intros [= _ H]. destruct a; discriminate H.
  - intros [= _ H]. exact (IH b H).
Qed.

Lemma join_snoc (sep x : string) (l : list string) :
  l <> [] -> join sep (l ++ [x]) = join sep l +:+ sep +:+ x.
Proof.
  induction l as [|a l IH]; [contradiction |]. intros _.
  destruct l as [|b l].
  - reflexivity.
  - change (join sep ((a :: b :: l) ++ [x]))
      with (a +:+ sep +:+ join sep ((b :: l) ++ [x])).
    rewrite IH by discriminate.
    change (join sep (a :: b :: l)) with (a +:+ sep +:+ join sep (b :: l)).
    rewrite !append_assoc. reflexivity.
Qed.

(** The part pushed last closes the line. *)
Lemma joinParts_snoc (p : string) (rest : list string) (x : string) :
  exists before, joinParts ((p :: rest) ++ [x]) = Some (before +:+ " · " +:+ x).
Proof.
  destruct rest as [|r rest].
  - exists p. reflexivity.
  - exists (p +:+ " · " +:+ join " · " (r :: rest)).
    change (joinParts ((p :: r :: rest) ++ [x]))
      with (Some (p +:+ " · " +:+ join " · " ((r :: rest) ++ [x]))).
    rewrite join_snoc by discriminate. rewrite !append_assoc. reflexivity.
Qed.

(** X14. For a maximum that is not [<= 0] and a used count that is not [< 0],
    the label of [formatContextPercent] is the upper-cased token count
    followed by the rounded percentage in parentheses.  It never has the
    form "<percent>% ctx", which the tests that come with the module expect
    of it.  In the usage line it is the last part: alone after "Context: ",
    otherwise after a middle dot. *)
Theorem context_percent_label (used max : number) :
  num_le_zero max = false ->
  num_lt_zero used = false ->
  let label :=
    toUpperCase (formatTokenCount used)
    +:+ " (" +:+ num_to_string (round_percent used max) +:+ "%)" in
  formatContextPercent (Some used) (Some max) = Some label /\
  (forall shown, label <> shown +:+ "% ctx") /\
  (forall (params : UsageLineParams number) (usage : NormalizedUsage number)
          (flags : ResponseUsageFlags),
      p_usage params = Some usage ->
      (is_number (u_input usage) = true \/ is_number (u_output usage) = true) ->
      p_flags params = Some flags ->
      f_context flags = Some true ->
      p_contextUsedTokens params = Some used ->
      p_contextMaxTokens params = Some max ->
      formatResponseUsageLine params = Some ("Context: " +:+ label) \/
      exists before,
        formatResponseUsageLine params = Some (before +:+ " · " +:+ label)).
Proof.
  intros Hmax Hused label.
  assert (Hlabel : formatContextPercent (Some used) (Some max) = Some label).
  { unfold formatContextPercent. rewrite Hmax, Hused. reflexivity. }
  assert (Hfull : is_empty label = false).
  { unfold label. destruct (toUpperCase (formatTokenCount used)); reflexivity. }
  split; [exact Hlabel |]. split.
  - intros shown. unfold label.
    change "%)" with ("%" +:+ String ")" "").
    change "% ctx" with ("% ct" +:+ String "x" "").
    rewrite <- !append_assoc. apply last_byte_differs. discriminate.
  - intros params usage flags Hu Hnum Hf Hctx Hcu Hcm.
    unfold formatResponseUsageLine. rewrite Hu, Hf, Hcu, Hcm.
    assert (negb (is_number (u_input usage)) && negb (is_number (u_output usage)) = false)
      as ->.
    { destruct Hnum as [-> | ->]; [reflexivity | apply andb_false_r]. }
    cbn [from_option]. rewrite Hctx. cbn [Boolean default negb].
    rewrite andb_false_r. unfold contextPortion. rewrite Hlabel, Hfull.
    destruct (costPortion _ usage _ _) as [|p rest].
    + left. reflexivity.
    + right. apply joinParts_snoc.
Qed.

End UsageLineMore.

(** ** Footers and detection, further *)

Section FooterMore.
Import Thinking AgentRunnerUtils.

(** The scan finds the last payload with a non-empty text, wherever it is. *)
Lemma lastTextIndex_is (payloads : list ReplyPayload) (n i : nat) (p : ReplyPayload) :
  i < n -> payloads !! i = Some p -> truthy (text p) = true ->
  (forall j q, i < j < n -> payloads !! j = Some q -> truthy (text q) = false) ->
  lastTextIndex payloads n = Some i.
Proof.
  induction n as [|n IH]; intros Hi Hp Ht Hafter; [lia |].
  cbn [lastTextIndex]. destruct (decide (i = n)) as [->|Hne].
  - rewrite Hp, Ht. reflexivity.
  - destruct (payloads !! n) as [q|] eqn:Eq.
    + rewrite (Hafter n q) by (try lia; exact Eq).
      apply IH; [lia | exact Hp | exact Ht |].
      intros j q' Hj. apply Hafter. lia.
    + apply IH; [lia | exact Hp | exact Ht |].
      intros j q' Hj. apply Hafter. lia.
Qed.

Lemma footer_not_empty (t line : string) :
  is_empty (trimEnd t +:+ FOOTER_DELIMITER +:+ line) = false.
Proof. destruct (trimEnd t); reflexivity. Qed.

(** X15. A second footer goes where the first one went: after a non-empty
    line has been appended, appending another line rewrites the payload that
    carries the first and adds no payload. *)
Theorem appendUsageLine_twice (payloads : list ReplyPayload) (line1 line2 : string) :
  line1 <> "" ->
  exists i p before,
    appendUsageLine payloads line1 !! i = Some p /\
    text p = Some (before +:+ line1) /\
    appendUsageLine (appendUsageLine payloads line1) line2 =
      <[i := mkReplyPayload
               (Some (trimEnd (before +:+ line1) +:+ FOOTER_DELIMITER +:+ line2))
               (mediaUrl p)]> (appendUsageLine payloads line1) /\
    length (appendUsageLine (appendUsageLine payloads line1) line2) =
      length (appendUsageLine payloads line1).
Proof.
  intros Hline.
  assert (Hstep : forall (result : list ReplyPayload) i p t,
             lastTextIndex result (length result) = Some i ->
             result !! i = Some p -> text p = Some t ->
             appendUsageLine result line2 =
               <[i := mkReplyPayload (Some (trimEnd t +:+ FOOTER_DELIMITER +:+ line2))
                        (mediaUrl p)]> result).
  { intros result i p t Hidx Hp Ht. unfold appendUsageLine.
    rewrite Hidx, Hp, Ht. reflexivity. }
  destruct (appendUsageLine_cases payloads line1)
    as [(i & existing & t & Hidx & Hi & Ht & Hne & Heq) | (Hidx & Heq)].
  - destruct (lastTextIndex_Some _ _ _ Hidx) as (Hlt & _ & Hafter).
    set (next := mkReplyPayload (Some (trimEnd t +:+ FOOTER_DELIMITER +:+ line1))
                   (mediaUrl existing)) in *.
    assert (Hnext : appendUsageLine payloads line1 !! i = Some next).
    { rewrite Heq. apply list_lookup_insert_eq, Hlt. }
    exists i, next, (trimEnd t +:+ FOOTER_DELIMITER).
    split; [exact Hnext |].
    split; [unfold next; cbn [text]; rewrite append_assoc; reflexivity |].
    assert (Hidx' : lastTextIndex (appendUsageLine payloads line1)
                      (length (appendUsageLine payloads line1)) = Some i).
    { apply (lastTextIndex_is _ _ i next).
      - rewrite Heq, length_insert. exact Hlt.
      - exact Hnext.
      - unfold next. cbn [text truthy]. rewrite footer_not_empty. reflexivity.
      - intros j q Hj Hq. rewrite Heq, length_insert in Hj.
        rewrite Heq, list_lookup_insert_ne in Hq by lia.
        apply (Hafter j q); [lia | exact Hq]. }
    rewrite (Hstep _ i next (trimEnd t +:+ FOOTER_DELIMITER +:+ line1) Hidx' Hnext eq_refl).
    rewrite append_assoc. split; [reflexivity | apply length_insert].
  - set (added := mkReplyPayload (Some line1) None).
    assert (Hadded : appendUsageLine payloads line1 !! length payloads = Some added).
    { rewrite Heq. apply list_lookup_middle. reflexivity. }
    exists (length payloads), added, "".
    split; [exact Hadded |]. split; [reflexivity |].
    assert (Hidx' : lastTextIndex (appendUsageLine payloads line1)
                      (length (appendUsageLine payloads line1)) = Some (length payloads)).
    { apply (lastTextIndex_is _ _ (length payloads) added).
      - rewrite Heq, length_app. simpl. lia.
      - exact Hadded.
      - simpl. apply negb_true_iff, is_empty_false, Hline.
      - intros j q Hj. rewrite Heq, length_app in Hj. simpl in Hj. lia. }
    rewrite (Hstep _ _ added line1 Hidx' Hadded eq_refl).
    split; [reflexivity | apply length_insert].
Qed.

(** X16. A connection failure stays detected inside a longer message:
    whatever text comes before and after a message that
    [isBunFetchSocketError] accepts, the whole is accepted. *)
Theorem bun_fetch_detection_in_context (pre m post : string) :
  isBunFetchSocketError (Some m) = true ->
  isBunFetchSocketError (Some (pre +:+ m +:+ post)) = true.
Proof.
  unfold isBunFetchSocketError.
  destruct (is_empty m) eqn:Em; [discriminate |].
  assert (is_empty (pre +:+ m +:+ post) = false) as ->.
  { destruct pre; [| reflexivity]. destruct m; [discriminate | reflexivity]. }
  rewrite !ci_test_spec. intros (a & mid & b & -> & Hmid).
  exists (pre +:+ a), mid, (b +:+ post). split; [| exact Hmid].
  rewrite !append_assoc. reflexivity.
Qed.

End FooterMore.

(** ** Sending to a session, further *)

Section SendMore.
Import SendToSession.
Context {thrown : Type} `{!Collaborators thrown}.

Lemma pushMedia_rest (text : string) (urls : list string) (acc : list ReplyPayload) :
  acc <> [] ->
  foldl (pushMedia text) acc urls =
  acc ++ map (fun url => mkReplyPayload (Some "") (Some url)) urls.
Proof.
  revert acc; induction urls as [|url urls IH]; intros acc Hacc; simpl.
  - rewrite app_nil_r. reflexivity.
  - rewrite IH.
    + unfold pushMedia. destruct acc as [|p acc]; [contradiction |].
      simpl. rewrite <- app_assoc. reflexivity.
    + unfold pushMedia. destruct acc; discriminate.
Qed.

(** With media, one payload per URL, the text on the first and the empty
    text on the others. *)
Lemma buildPayloads_media (text url : string) (urls : list string) :
  buildPayloads text (Some (url :: urls)) =
  mkReplyPayload (Some text) (Some url)
    :: map (fun u => mkReplyPayload (Some "") (Some u)) urls.
Proof.
  unfold buildPayloads. cbn [foldl]. rewrite pushMedia_rest by discriminate.
  reflexivity.
Qed.

(** X17. A send with media URLs to a session with valid routing is delivered
    in one call, with one payload per URL in the order given: the first
    carries the text, every other one the empty text. *)
Theorem sendToSession_media_payloads (params : SendToSessionParams)
    (c : OpenClawConfig) (st : gmap string SessionEntry) (entry : SessionEntry)
    (channel to url : string) (urls : list string) :
  sessionStoreLoaded params c st ->
  st !! sessionKey params = Some entry ->
  resolveOutboundChannel (lastChannel entry) = Normal (Some channel) ->
  lastTo entry = Some to -> to <> "" ->
  mediaUrls params = Some (url :: urls) ->
  deliveries (calls params) =
    [mkDeliverParams c channel to (lastAccountId entry)
       (mkReplyPayload (Some (msgText params)) (Some url)
          :: map (fun u => mkReplyPayload (Some "") (Some u)) urls)
       (lastThreadId entry) (bestEffort params)].
Proof.
  intros (storePath & Hc & Hp & Hst) Hentry Hch Hto Hne Hmedia.
  unfold calls. rewrite sendToSession_run. cbv zeta.
  rewrite Hc, Hp, Hst, (getMember_own _ _ _ Hentry). cbn [get].
  rewrite Hch, Hto, Hmedia, buildPayloads_media.
  destruct to as [|a to']; [contradiction |]. cbn [snd].
  rewrite deliveries_snoc, no_delivery_before_store. reflexivity.
Qed.

(** X18. Success is never reported without a delivery: when the result is
    [{ ok: true, results }], the session has an entry with a deliverable
    channel and a non-empty destination, delivery was invoked exactly once,
    with the routing of that entry, and [results] is what it returned. *)
Theorem sendToSession_ok_means_delivered (params : SendToSessionParams)
    (results : list OutboundDeliveryResult) :
  outcome params = Normal (Ok results) ->
  exists c st entry channel to,
    sessionStoreLoaded params c st /\
    st !! sessionKey params = Some entry /\
    lastChannel entry = Some channel /\
    isDeliverableMessageChannel channel = Normal true /\
    lastTo entry = Some to /\ to <> "" /\
    let args :=
      mkDeliverParams c channel to (lastAccountId entry)
        (buildPayloads (msgText params) (mediaUrls params))
        (lastThreadId entry) (bestEffort params) in
    deliveries (calls params) = [args] /\
    deliverOutboundPayloads args = Normal results.
Proof.
  unfold outcome, calls. rewrite sendToSession_run. cbv zeta.
  destruct (effectiveConfig params) as [c|err] eqn:Ec.
  2:{ cbn [fst]. unfold failure. destruct (String_ err); discriminate. }
  destruct (storePathFor c params) as [storePath|e] eqn:Epath; [| discriminate].
  destruct (loadSessionStore storePath) as [st|err] eqn:Est.
  2:{ cbn [fst]. unfold failure. destruct (String_ err); discriminate. }
  unfold getMember.
  destruct (st !! sessionKey params) as [entry|] eqn:Eentry.
  2:{ destruct (bool_decide _); discriminate. }
  cbn [get].
  destruct (resolveOutboundChannel (lastChannel entry)) as [[channel|]|e] eqn:Ech;
    try discriminate.
  destruct (lastTo entry) as [[|a to']|] eqn:Eto; try discriminate.
  cbn [fst snd].
  destruct (deliverOutboundPayloads _) as [results'|err] eqn:Ed.
  2:{ unfold failure. destruct (String_ err); discriminate. }
  intros [= <-].
  apply resolveOutboundChannel_Some in Ech as (Hlast & _ & Hdeliverable).
  exists c, st, entry, channel, (String a to').
  split; [exists storePath; repeat split; assumption |]. split; [exact Eentry |].
  split; [exact Hlast |]. split; [exact Hdeliverable |].
  split; [exact Eto |]. split; [discriminate |]. cbv zeta.
  split; [| exact Ed].
  rewrite deliveries_snoc, no_delivery_before_store. reflexivity.
Qed.

(** X19. The outside calls of one send: the configuration is loaded exactly
    when no override is given, and then first; the session store is read at
    most once, at the path resolved from the configuration in force; there is
    at most one delivery, and it is the last call. *)
Theorem sendToSession_calls (params : SendToSessionParams) :
  exists tail,
    calls params =
      match cfg params with Some _ => [] | None => [CallLoadConfig] end ++ tail /\
    (tail = [] \/
     exists c storePath,
       effectiveConfig params = Normal c /\
       storePathFor c params = Normal storePath /\
       (tail = [CallLoadSessionStore storePath] \/
        exists args,
          tail = [CallLoadSessionStore storePath; CallDeliver args])).
Proof.
  unfold calls. rewrite sendToSession_run. cbv zeta.
  assert (Hshape : forall more,
             (match cfg params with Some _ => [] | None => [] ++ [CallLoadConfig] end)
               ++ more
             = match cfg params with Some _ => [] | None => [CallLoadConfig] end ++ more).
  { intros more. destruct (cfg params); reflexivity. }
  destruct (effectiveConfig params) as [c|err].
  2:{ exists []. split; [| auto]. cbn [snd]. rewrite <- (Hshape []), app_nil_r.
      reflexivity. }
  destruct (storePathFor c params) as [storePath|e] eqn:Epath.
  2:{ exists []. split; [| auto]. cbn [snd]. rewrite <- (Hshape []), app_nil_r.
      reflexivity. }
  destruct (loadSessionStore storePath) as [st|err].
  2:{ eexists. split; [apply Hshape |]. right. exists c, storePath. auto. }
  destruct (getMember st (sessionKey params)) as [entry|].
  2:{ eexists. split; [apply Hshape |]. right. exists c, storePath. auto. }
  destruct (resolveOutboundChannel (get lastChannel entry)) as [[channel|]|e].
  2,3: eexists; split; [apply Hshape |]; right; exists c, storePath; auto.
  destruct (get lastTo entry) as [[|a to']|].
  1,3: eexists; split; [apply Hshape |]; right; exists c, storePath; auto.
  cbn [snd]. eexists. split.
  - rewrite <- app_assoc. apply Hshape.
  - right. exists c, storePath. split; [reflexivity |]. split; [exact Epath |].
    right. eexists. reflexivity.
Qed.

End SendMore.

(** ** The threading context of the tools *)

Section ThreadingFacts.
Import JsLower SendToSession ThreadingContext.
Context {Ref : Type} `{!JsLowerCase} `{!ChannelRegistry Ref}.

Lemma blank_trims_to_nothing (p : string) : all_bytes ws1 p = true -> trim p = "".
Proof.
  intros Hp. pose proof (trim_blank p "" "" Hp eq_refl) as Ht.
  rewrite append_empty_r in Ht. exact Ht.
Qed.

(** X20. [buildThreadingToolContext] returns the empty context without a
    configuration and for a provider that is missing or blank.  Otherwise the
    context names the provider under [currentChannelProvider]: the normalized
    channel id, or the trimmed lower-case provider when there is none; and
    when the dock of the channel builds the context, every other key is as the
    dock set it, whatever the dock put under [currentChannelProvider]. *)
Theorem threading_context_names_the_provider (sessionCtx : TemplateContext)
    (config : option OpenClawConfig) (hasRepliedRef : option Ref) :
  ((config = None \/ Provider sessionCtx = None \/
    exists p, Provider sessionCtx = Some p /\ all_bytes ws1 p = true) ->
   buildThreadingToolContext sessionCtx config hasRepliedRef = ∅) /\
  (forall cfg raw,
      config = Some cfg -> rawProviderOf sessionCtx = Some raw -> raw <> "" ->
      buildThreadingToolContext sessionCtx config hasRepliedRef
        !! "currentChannelProvider"
      = Some (CtxString (default raw (providerOf raw))) /\
      forall build,
        truthy (providerOf raw) = true ->
        dockBuildToolContext (default "" (providerOf raw)) = Some build ->
        forall key,
          key <> "currentChannelProvider" ->
          buildThreadingToolContext sessionCtx config hasRepliedRef !! key
          = default ∅
              (build (mkBuildArgs cfg (AccountId sessionCtx) (Provider sessionCtx)
                        (From sessionCtx) (To sessionCtx) (ChatType sessionCtx)
                        (ReplyToId sessionCtx) (ThreadLabel sessionCtx)
                        (MessageThreadId sessionCtx) hasRepliedRef)) !! key).
Proof.
  split.
  - unfold buildThreadingToolContext, rawProviderOf.
    intros [-> | [Hp | (p & Hp & Hblank)]]; [reflexivity | |];
      destruct config; try reflexivity; rewrite Hp; [reflexivity |].
    cbn [option_map truthy]. rewrite (blank_trims_to_nothing p Hblank).
    rewrite toLowerCase_ascii by reflexivity. reflexivity.
  - intros cfg raw -> Hraw Hne. unfold buildThreadingToolContext. rewrite Hraw.
    cbn [truthy default from_option id].
    apply is_empty_false in Hne. rewrite Hne. cbn [negb].
    destruct (truthy (providerOf raw)) eqn:Etruthy.
    + destruct (dockBuildToolContext (default "" (providerOf raw))) as [build|] eqn:Edock.
      * assert (Hp : default "" (providerOf raw) = default raw (providerOf raw)).
        { destruct (providerOf raw); [reflexivity | discriminate]. }
        split; [rewrite lookup_insert_eq, Hp; reflexivity |].
        intros build' _ [= <-] key Hkey.
        rewrite lookup_insert_ne by congruence. reflexivity.
      * split; [| intros build _ [=]].
        rewrite lookup_insert_ne by discriminate. apply lookup_insert_eq.
    + split; [| intros build [=]].
      rewrite lookup_insert_ne by discriminate. apply lookup_insert_eq.
Qed.

End ThreadingFacts.

(** ** The further properties on samples *)

Section MoreExamples.
Import Thinking JsLower ThinkingLevels AgentRunnerUtils SendToSession ThreadingContext.

Example xhigh_hint :
  formatXHighModelHint
  = "openai/gpt-5.2, openai-codex/gpt-5.2-codex or openai-codex/gpt-5.1-codex".
Proof. reflexivity. Qed.

Example xhigh_levels :
  @formatThinkingLevels AsciiCase.lowerCase (Some "OpenAI") (Some " GPT-5.2 ") None
  = "off, minimal, low, medium, high, xhigh" /\
  @formatThinkingLevels AsciiCase.lowerCase (Some "anthropic") (Some "gpt-5.2") None
  = "off, minimal, low, medium, high" /\
  @formatThinkingLevels AsciiCase.lowerCase None (Some "gpt-5.2") (Some "|")
  = "off|minimal|low|medium|high|xhigh" /\
  @formatThinkingLevels AsciiCase.lowerCase (Some " Z.AI ") (Some "glm-4.7") None
  = "off, on".
Proof. repeat split; reflexivity. Qed.

Example elevated_modes :
  resolveElevatedMode (@normalizeElevatedLevel AsciiCase.lowerCase (Some "Yes")) = ModeAsk /\
  resolveElevatedMode (@normalizeElevatedLevel AsciiCase.lowerCase (Some "auto")) = ModeFull /\
  resolveElevatedMode (@normalizeElevatedLevel AsciiCase.lowerCase (Some "never")) = ModeOff.
Proof. repeat split; reflexivity. Qed.

Example usage_modes :
  @resolveResponseUsageMode AsciiCase.lowerCase (Some "ON") = UsageTokens /\
  @resolveResponseUsageMode AsciiCase.lowerCase (Some "session") = UsageFull /\
  @resolveResponseUsageMode AsciiCase.lowerCase (Some "whatever") = UsageOff /\
  @resolveResponseUsageMode AsciiCase.lowerCase None = UsageOff.
Proof. repeat split; reflexivity. Qed.

(** The expectations of the module's own tests. *)
Example thinking_tests :
  @normalizeThinkLevel AsciiCase.lowerCase (Some "mid") = Some ThinkMedium /\
  @normalizeThinkLevel AsciiCase.lowerCase (Some "on") = Some ThinkLow /\
  In ThinkXHigh (@listThinkingLevels AsciiCase.lowerCase None (Some "gpt-5.2-codex")) /\
  In ThinkXHigh (@listThinkingLevels AsciiCase.lowerCase (Some "openai") (Some "gpt-5.2")) /\
  ~ In ThinkXHigh (@listThinkingLevels AsciiCase.lowerCase None (Some "gpt-4.1-mini")) /\
  @listThinkingLevelLabels AsciiCase.lowerCase (Some "zai") (Some "glm-4.7") = ["off"; "on"] /\
  @normalizeReasoningLevel AsciiCase.lowerCase (Some "hide") = Some ReasoningOff /\
  @normalizeReasoningLevel AsciiCase.lowerCase (Some "streaming") = Some ReasoningStream /\
  @parseUsageToggleArg AsciiCase.lowerCase (Some "TOKENS") = Some ToggleTokens /\
  @parseUsageToggleArg AsciiCase.lowerCase (Some "ctx") = Some ToggleContext /\
  @parseUsageToggleArg AsciiCase.lowerCase (Some "clear") = Some ToggleOff /\
  @parseUsageToggleArg AsciiCase.lowerCase (Some "cost") = None /\
  @parseUsageToggleArg AsciiCase.lowerCase (Some "") = None /\
  legacyUsageModeToFlags (Some LegacyOn) = Some (mkFlags (Some true) None None) /\
  cycleUsageFlags (Some (mkFlags (Some true) (Some true) None)) = mkFlags None None None /\
  formatUsageFlags (Some (mkFlags (Some true) (Some true) (Some true)))
  = "tokens+cost+context".
Proof.
  vm_compute. repeat split; try reflexivity; try (intuition discriminate); intuition auto.
Qed.

(** The dock of slack builds the context; its own provider is overwritten. *)
Example slack_context :
  @buildThreadingToolContext unit AsciiCase.lowerCase AsciiCase.registry
    AsciiCase.fromSlack (Some (mkConfig None)) None
  = <["currentChannelProvider" := CtxString "slack"]>
      (<["currentChannelId" := CtxString "channel:C1"]> ∅).
Proof. vm_compute. reflexivity. Qed.

(** X1 on two spellings of "ultra". *)
Lemma levels_ignore_ascii_case_witness :
  @normalizeThinkLevel AsciiCase.lowerCase (Some "ULTRA")
  = @normalizeThinkLevel AsciiCase.lowerCase (Some "Ultra") /\
  @parseUsageToggleArg AsciiCase.lowerCase (Some "ULTRA")
  = @parseUsageToggleArg AsciiCase.lowerCase (Some "Ultra").
Proof.
  pose proof (@levels_ignore_ascii_case AsciiCase.lowerCase "ULTRA" "Ultra"
                eq_refl eq_refl eq_refl) as H.
  split; [exact (proj1 H) | exact (proj2 (proj2 (proj2 (proj2 (proj2 (proj2 H))))))].
Defined.

(** X3 on "Think-Hard". *)
Lemma think_hard_is_low_witness :
  @normalizeThinkLevel AsciiCase.lowerCase (Some "Think-Hard") = Some ThinkLow.
Proof.
  exact (proj2 (@think_hard_is_low AsciiCase.lowerCase (Some "Think-Hard")) eq_refl eq_refl).
Defined.

(** X4 on " TOKENS " between blanks. *)
Lemma toggle_ignores_surrounding_blanks_witness :
  @parseUsageToggleArg AsciiCase.lowerCase (Some ("  " +:+ "TOKENS" +:+ " "))
  = @parseUsageToggleArg AsciiCase.lowerCase (Some "TOKENS").
Proof.
  exact (@toggle_ignores_surrounding_blanks AsciiCase.lowerCase "  " "TOKENS" " "
           eq_refl eq_refl eq_refl).
Defined.

(** X5 on " off". *)
Lemma levels_reject_blanks_witness :
  @normalizeThinkLevel AsciiCase.lowerCase (Some " off") = None /\
  @normalizeVerboseLevel AsciiCase.lowerCase (Some " off") = None /\
  @normalizeNoticeLevel AsciiCase.lowerCase (Some " off") = None /\
  @normalizeUsageDisplay AsciiCase.lowerCase (Some " off") = None /\
  @normalizeElevatedLevel AsciiCase.lowerCase (Some " off") = None /\
  @normalizeReasoningLevel AsciiCase.lowerCase (Some " off") = None.
Proof.
  exact (@levels_reject_blanks AsciiCase.lowerCase " off" eq_refl eq_refl).
Defined.

(** X6 on the label "on" offered for the binary provider Z.AI, and on the
    label "xhigh" offered for the model gpt-5.2 of OpenAI. *)
Lemma offered_labels_are_accepted_witness :
  (@isBinaryThinkingProvider AsciiCase.lowerCase (Some "Z.AI") = true /\
   @normalizeThinkLevel AsciiCase.lowerCase (Some "on") = Some ThinkLow) /\
  (@isBinaryThinkingProvider AsciiCase.lowerCase (Some "OpenAI") = false /\
   exists l,
     In l (@listThinkingLevels AsciiCase.lowerCase (Some "OpenAI") (Some "gpt-5.2")) /\
     thinkLabel l = "xhigh" /\
     @normalizeThinkLevel AsciiCase.lowerCase (Some "xhigh") = Some l).
Proof.
  split; (split; [reflexivity |]).
  - destruct (@offered_labels_are_accepted AsciiCase.lowerCase (Some "Z.AI") None "on"
                (or_intror (or_introl eq_refl))) as [[Hoff _] | [_ Hon]].
    + discriminate Hoff.
    + exact Hon.
  - apply (@offered_labels_are_accepted AsciiCase.lowerCase
             (Some "OpenAI") (Some "gpt-5.2") "xhigh").
    vm_compute. do 5 right. left. reflexivity.
Defined.

(** X7 on the model " GPT-5.2 " of the provider OpenAI. *)
Lemma xhigh_with_provider_implies_without_witness :
  @supportsXHighThinking AsciiCase.lowerCase None (Some " GPT-5.2 ") = true /\
  exists m, Some " GPT-5.2 " = Some m /\
            In (lower_ascii (trim m)) ["gpt-5.2"; "gpt-5.2-codex"; "gpt-5.1-codex"].
Proof.
  exact (@xhigh_with_provider_implies_without AsciiCase.lowerCase
           (Some "OpenAI") (Some " GPT-5.2 ") eq_refl).
Defined.

(** X8 from no flags at all. *)
Lemma usage_flags_cycle_witness :
  cycleUsageFlags None = mkFlags (Some true) None None.
Proof.
  exact (proj1 (proj2 (proj2 (usage_flags_cycle None))) eq_refl).
Defined.

(** X9 on the flags [{}] and [{ cost: false }]. *)
Lemma usage_flags_display_witness :
  formatUsageFlags (Some (mkFlags None None None)) = "off" /\
  formatUsageFlags (Some (mkFlags None None None))
  = formatUsageFlags (Some (mkFlags None (Some false) None)).
Proof.
  split.
  - exact (proj2 (proj1 (usage_flags_display (Some (mkFlags None None None)) None))
             eq_refl).
  - exact (proj2 (proj2 (usage_flags_display (Some (mkFlags None None None))
                           (Some (mkFlags None (Some false) None)))) eq_refl).
Defined.

(** X11 on the old mode "full". *)
Lemma legacy_mode_flags_same_line_witness :
  @formatResponseUsageLine Z Sample.prims Sample.pricedFormat
    (mkUsageLineParams (Some Sample.usage_12_3) false (Some Sample.prices)
       (Some (mkFlags (Some true) (Some true) None)) None None)
  = @formatResponseUsageLine Z Sample.prims Sample.pricedFormat
      (mkUsageLineParams (Some Sample.usage_12_3) true (Some Sample.prices) None None None).
Proof.
  exact (proj2 (proj2 (proj2
           (@legacy_mode_flags_same_line Z Sample.prims Sample.pricedFormat
              (Some (LegacyLevel UsageFull)) (mkFlags (Some true) (Some true) None)
              (Some Sample.usage_12_3) false (Some Sample.prices) None None eq_refl)))).
Defined.

(** X12 on the legacy line of usage [{ input: 12, output: 3 }]. *)
Lemma usage_line_heads_witness :
  exists tail, "Usage: 12 in / 3 out" = "Usage: " +:+ tail.
Proof.
  exact (proj2 (@usage_line_heads Z Sample.prims Sample.usageFormat
                  (Sample.usageParams None) "Usage: 12 in / 3 out" eq_refl) eq_refl).
Defined.

(** X13 on a usage without output count, with the cost asked for. *)
Lemma cost_needs_both_counts_witness :
  @formatResponseUsageLine Z Sample.prims Sample.pricedFormat
    (mkUsageLineParams (Some (mkUsage (Some 12%Z) None None None)) true
       (Some Sample.prices) None None None)
  = @formatResponseUsageLine Z Sample.prims Sample.pricedFormat
      (mkUsageLineParams (Some (mkUsage (Some 12%Z) None None None)) false
         (Some Sample.prices) None None None).
Proof.
  exact (@cost_needs_both_counts Z Sample.prims Sample.pricedFormat
           (mkUsage (Some 12%Z) None None None) true (Some Sample.prices) None None None
           (or_intror eq_refl)).
Defined.

(** X14 on 67000 tokens of 100000: the label, and the line with the token
    counts before it. *)
Lemma context_percent_label_witness :
  @formatContextPercent Z Sample.prims Sample.usageFormat (Some 67000%Z) (Some 100000%Z)
    = Some "67000 (67%)" /\
  "67000 (67%)" <> "67% ctx" /\
  (@formatResponseUsageLine Z Sample.prims Sample.usageFormat
     (mkUsageLineParams (Some Sample.usage_12_3) false None
        (Some (mkFlags (Some true) None (Some true))) (Some 67000%Z) (Some 100000%Z))
     = Some "Context: 67000 (67%)" \/
   exists before,
     @formatResponseUsageLine Z Sample.prims Sample.usageFormat
       (mkUsageLineParams (Some Sample.usage_12_3) false None
          (Some (mkFlags (Some true) None (Some true))) (Some 67000%Z) (Some 100000%Z))
     = Some (before +:+ " · " +:+ "67000 (67%)")).
Proof.
  destruct (@context_percent_label Z Sample.prims Sample.usageFormat
              67000%Z 100000%Z eq_refl eq_refl) as (Hlabel & Hform & Hline).
  split; [exact Hlabel |]. split; [exact (Hform "67") |].
  exact (Hline (mkUsageLineParams (Some Sample.usage_12_3) false None
                  (Some (mkFlags (Some true) None (Some true)))
                  (Some 67000%Z) (Some 100000%Z))
               Sample.usage_12_3 (mkFlags (Some true) None (Some true))
               eq_refl (or_introl eq_refl) eq_refl eq_refl eq_refl eq_refl).
Defined.

(** X15 on the reply [[{ text: "ok" }]]. *)
Lemma appendUsageLine_twice_witness :
  exists i p before,
    appendUsageLine [mkReplyPayload (Some "ok") None] "Usage: 1 in / 2 out" !! i = Some p /\
    text p = Some (before +:+ "Usage: 1 in / 2 out") /\
    appendUsageLine
      (appendUsageLine [mkReplyPayload (Some "ok") None] "Usage: 1 in / 2 out") "again"
    = <[i := mkReplyPayload
               (Some (trimEnd (before +:+ "Usage: 1 in / 2 out")
                      +:+ FOOTER_DELIMITER +:+ "again"))
               (mediaUrl p)]>
        (appendUsageLine [mkReplyPayload (Some "ok") None] "Usage: 1 in / 2 out") /\
    length (appendUsageLine
              (appendUsageLine [mkReplyPayload (Some "ok") None] "Usage: 1 in / 2 out")
              "again")
    = length (appendUsageLine [mkReplyPayload (Some "ok") None] "Usage: 1 in / 2 out").
Proof.
  apply (appendUsageLine_twice [mkReplyPayload (Some "ok") None]
           "Usage: 1 in / 2 out" "again").
  discriminate.
Defined.

(** X16 on the message of the runtime inside a longer report. *)
Lemma bun_fetch_detection_in_context_witness :
  isBunFetchSocketError
    (Some ("fetch failed: " +:+ "The socket connection was closed unexpectedly"
           +:+ " (attempt 2)")) = true.
Proof.
  exact (bun_fetch_detection_in_context "fetch failed: "
           "The socket connection was closed unexpectedly" " (attempt 2)" eq_refl).
Defined.

(** X17 on two pictures for the session "telegram:123". *)
Lemma sendToSession_media_payloads_witness :
  deliveries
    (@calls string Sample.collaborators
       (mkParams "telegram:123" "Hello" None (Some (Sample.cfgAt "sessions.json"))
          (Some ["a.png"; "b.png"]) None))
  = [mkDeliverParams (Sample.cfgAt "sessions.json") "telegram" "456" (Some "bot1")
       [mkReplyPayload (Some "Hello") (Some "a.png");
        mkReplyPayload (Some "") (Some "b.png")]
       (Some "789") None].
Proof.
  apply (@sendToSession_media_payloads string Sample.collaborators
           (mkParams "telegram:123" "Hello" None (Some (Sample.cfgAt "sessions.json"))
              (Some ["a.png"; "b.png"]) None)
           (Sample.cfgAt "sessions.json") Sample.sessions Sample.entry_telegram
           "telegram" "456" "a.png" ["b.png"]).
  - exists "sessions.json". repeat split; reflexivity.
  - reflexivity.
  - reflexivity.
  - reflexivity.
  - discriminate.
  - reflexivity.
Defined.

(** X18 on the successful send to "telegram:123". *)
Lemma sendToSession_ok_means_delivered_witness :
  exists c st entry channel to,
    @sessionStoreLoaded string Sample.collaborators
      (Sample.send "telegram:123" "Hello") c st /\
    st !! "telegram:123" = Some entry /\
    lastChannel entry = Some channel /\
    @isDeliverableMessageChannel string Sample.collaborators channel = Normal true /\
    lastTo entry = Some to /\ to <> "" /\
    deliveries (@calls string Sample.collaborators (Sample.send "telegram:123" "Hello"))
    = [mkDeliverParams c channel to (lastAccountId entry)
         (buildPayloads "Hello" None) (lastThreadId entry) None] /\
    @deliverOutboundPayloads string Sample.collaborators
      (mkDeliverParams c channel to (lastAccountId entry)
         (buildPayloads "Hello" None) (lastThreadId entry) None)
    = Normal Sample.delivered.
Proof.
  apply (@sendToSession_ok_means_delivered string Sample.collaborators
           (Sample.send "telegram:123" "Hello") Sample.delivered).
  vm_compute. reflexivity.
Defined.

(** X21 on the scenario of the specification: the session "telegram:123"
    and an empty store. *)
Lemma sendToSession_key_without_entry_witness :
  @outcome string (Sample.collaboratorsWith ∅) (Sample.send "telegram:123" "Hello")
    = Normal (Failed "Session not found: telegram:123") /\
  deliveries (@calls string (Sample.collaboratorsWith ∅)
                (Sample.send "telegram:123" "Hello")) = [].
Proof.
  apply (@sendToSession_key_without_entry string (Sample.collaboratorsWith ∅)
           (Sample.send "telegram:123" "Hello") (Sample.cfgAt "sessions.json") ∅).
  - exists "sessions.json". repeat split; reflexivity.
  - reflexivity.
Defined.

(** X20 on a message from " Slack ". *)
Lemma threading_context_names_the_provider_witness :
  @buildThreadingToolContext unit AsciiCase.lowerCase AsciiCase.registry
    AsciiCase.fromSlack (Some (mkConfig None)) None !! "currentChannelProvider"
  = Some (CtxString "slack").
Proof.
  exact (proj1 (proj2 (@threading_context_names_the_provider unit AsciiCase.lowerCase
                         AsciiCase.registry AsciiCase.fromSlack (Some (mkConfig None)) None)
                 (mkConfig None) "slack" eq_refl eq_refl ltac:(discriminate))).
Defined.

End MoreExamples.
